(** * ETL pipeline: extraction, field normalisation and record cleaning

    A shallow embedding of [utils/extract.py], [utils/transform.py],
    [utils/load.py] and [main.py], and the properties of the pipeline
    proved over it.

    Conventions.
    - A Python [str] is a Rocq [string] holding its UTF-8 bytes.  Substring
      search, [replace] and [split] on a separator act on bytes exactly as
      they act on code points.  The character classes ([isspace], [isdigit],
      the digits of [float] and [int]) are the ASCII ones: a statement that
      rests on them is made for texts without white space or digits beyond
      ASCII ([Props.narrow_blanks], [Props.ascii_text]).
    - A Python [float] is a binary64 number, [spec_float] at precision 53 and
      maximal exponent 1024, with the operations of [SpecFloat].
    - A Python [int] is a [Z].
    - Code that can raise returns a [result]; [try ... except] is
      [try_except], which catches exactly the listed exception classes. *)

From Stdlib Require Import ZArith String Ascii List Bool Lia.
From Stdlib Require Import Floats.SpecFloat.
From stdpp Require Import base option list strings gmap pretty.

Local Open Scope string_scope.
Local Open Scope Z_scope.

(** ** Python: exceptions, strings, numbers *)

Module Py.

Inductive exn : Set :=
| ValueError
| AttributeError
| IndexError
| TypeError
| ZeroDivisionError
| OtherError.

Definition exn_eqb (a b : exn) : bool :=
  match a, b with
  | ValueError, ValueError | AttributeError, AttributeError
  | IndexError, IndexError | TypeError, TypeError
  | ZeroDivisionError, ZeroDivisionError | OtherError, OtherError => true
  | _, _ => false
  end.

Inductive result (A : Type) : Type :=
| Ok (a : A)
| Raise (e : exn).
Arguments Ok {A} a.
Arguments Raise {A} e.

Definition bind {A B} (m : result A) (k : A → result B) : result B :=
  match m with
  | Ok a => k a
  | Raise e => Raise e
  end.

Notation "x ←' m ;; k" := (bind m (fun x => k))
  (at level 100, m at next level, right associativity).

(** [try: body  except (e1, ..., en): handler]. *)
Definition try_except {A} (body : result A) (caught : list exn) (handler : result A)
  : result A :=
  match body with
  | Ok a => Ok a
  | Raise e => if existsb (exn_eqb e) caught then handler else Raise e
  end.

(** *** Strings *)

Definition code (c : ascii) : N := N_of_ascii c.

Definition in_range (lo hi : N) (c : ascii) : bool :=
  ((lo <=? code c) && (code c <=? hi))%N.

(** [str.isspace] on one ASCII character: TAB..CR, FS..US and the space. *)
Definition isspace (c : ascii) : bool := in_range 9 13 c || in_range 28 32 c.

Definition is_digit (c : ascii) : bool := in_range 48 57 c.

Definition digit_val (c : ascii) : Z := Z.of_N (code c) - 48.

Fixpoint lstrip (s : string) : string :=
  match s with
  | String c s' => if isspace c then lstrip s' else s
  | EmptyString => EmptyString
  end.

Fixpoint rstrip (s : string) : string :=
  match s with
  | EmptyString => EmptyString
  | String c s' =>
      match rstrip s' with
      | EmptyString => if isspace c then EmptyString else String c EmptyString
      | r => String c r
      end
  end.

(** [s.strip()] *)
Definition strip (s : string) : string := lstrip (rstrip s).

(** [sub in s] *)
Fixpoint contains (sub s : string) : bool :=
  String.prefix sub s ||
  match s with
  | EmptyString => false
  | String _ s' => contains sub s'
  end.

(** Scanning left to right; [skip] counts the characters of a match still to
    be passed over, so that matches do not overlap. *)
Fixpoint replace_from (old new : string) (skip : nat) (s : string) : string :=
  match s with
  | EmptyString => EmptyString
  | String c s' =>
      match skip with
      | S k => replace_from old new k s'
      | O =>
          if String.prefix old s
          then new ++ replace_from old new (String.length old - 1) s'
          else String c (replace_from old new 0 s')
      end
  end.

Fixpoint intersperse_str (new s : string) : string :=
  match s with
  | EmptyString => new
  | String c s' => new ++ String c (intersperse_str new s')
  end.

(** [s.replace(old, new)] *)
Definition replace (old new s : string) : string :=
  match old with
  | EmptyString => intersperse_str new s
  | _ => replace_from old new 0 s
  end.

(** The pieces of [s] between the occurrences of [sep], as head and tail:
    [str.split] with a separator never returns an empty list. *)
Fixpoint split_from (sep : string) (skip : nat) (s : string) : string * list string :=
  match s with
  | EmptyString => (EmptyString, [])
  | String c s' =>
      match skip with
      | S k => split_from sep k s'
      | O =>
          if String.prefix sep s
          then (EmptyString,
                let '(h, t) := split_from sep (String.length sep - 1) s' in h :: t)
          else let '(h, t) := split_from sep 0 s' in (String c h, t)
      end
  end.

(** [s.split(sep)]; an empty separator is a [ValueError]. *)
Definition split (sep s : string) : result (list string) :=
  match sep with
  | EmptyString => Raise ValueError
  | _ => let '(h, t) := split_from sep 0 s in Ok (h :: t)
  end.

(** [s.split()]: the maximal runs of non-space characters. *)
Fixpoint split_ws (s : string) : list string :=
  match s with
  | EmptyString => []
  | String c s' =>
      if isspace c then split_ws s'
      else
        match s' with
        | EmptyString => [String c EmptyString]
        | String c' _ =>
            if isspace c' then String c EmptyString :: split_ws s'
            else
              match split_ws s' with
              | w :: ws => String c w :: ws
              | [] => [String c EmptyString]
              end
        end
  end.

(** [l[0]] *)
Definition item0 {A} (l : list A) : result A :=
  match l with
  | x :: _ => Ok x
  | [] => Raise IndexError
  end.

Fixpoint all_digits (s : string) : bool :=
  match s with
  | EmptyString => true
  | String c s' => is_digit c && all_digits s'
  end.

(** [s.isdigit()] *)
Definition isdigit (s : string) : bool :=
  match s with
  | EmptyString => false
  | _ => all_digits s
  end.

Fixpoint digits_value (acc : Z) (s : list ascii) : Z :=
  match s with
  | [] => acc
  | c :: s' => digits_value (10 * acc + digit_val c) s'
  end.

(** *** Floats *)

Definition prec : Z := 53.
Definition emax : Z := 1024.

Definition fmul : spec_float → spec_float → spec_float := SFmul prec emax.

Definition float_of_Z (n : Z) : spec_float := binary_normalize prec emax n 0 false.

(** The binary64 number nearest to [num / den] (ties to even), for
    [0 < num] and [0 < den]. *)
Definition float_of_ratio (neg : bool) (num den : Z) : spec_float :=
  let '(q, e, l) := SFdiv_core_binary prec emax num 0 den 0 in
  binary_round_aux prec emax neg q e l.

(** The binary64 number nearest to [±m * 10^e]. *)
Definition float_of_decimal (neg : bool) (m e : Z) : spec_float :=
  if m =? 0 then S754_zero neg
  else if 0 <=? e then float_of_ratio neg (m * 10 ^ e) 1
  else float_of_ratio neg m (10 ^ (- e)).

Definition is_nan (f : spec_float) : bool :=
  match f with
  | S754_nan => true
  | _ => false
  end.

(** [a == b] on floats. *)
Definition feqb : spec_float → spec_float → bool := SFeqb.

(** The grammar of [float(str)]:
<<
    floatvalue  ::= [sign] (floatnumber | "inf" | "infinity" | "nan")
    floatnumber ::= number [exponent]
    number      ::= [digitpart] "." digitpart | digitpart ["."]
    exponent    ::= ("e" | "E") [sign] digitpart
    digitpart   ::= digit (["_"] digit)*
>>
    with the words in any letter case. *)

Definition lower (c : ascii) : ascii :=
  if in_range 65 90 c then ascii_of_N (code c + 32) else c.

Definition is_word (w : string) (s : list ascii) : bool :=
  bool_decide (map lower s = list_ascii_of_string w).

Definition is_char (x : ascii) (c : ascii) : bool := bool_decide (c = x).

(** [(["_"] digit)*]: the digits read and the text left. *)
Fixpoint digitpart_more (s : list ascii) : list ascii * list ascii :=
  match s with
  | [] => ([], [])
  | c :: s' =>
      if is_digit c then
        let '(ds, r) := digitpart_more s' in (c :: ds, r)
      else if is_char "_" c then
        match s' with
        | d :: s'' =>
            if is_digit d then
              let '(ds, r) := digitpart_more s'' in (d :: ds, r)
            else ([], s)
        | [] => ([], s)
        end
      else ([], s)
  end.

Definition digitpart (s : list ascii) : option (list ascii * list ascii) :=
  match s with
  | c :: s' =>
      if is_digit c then
        let '(ds, r) := digitpart_more s' in Some (c :: ds, r)
      else None
  | [] => None
  end.

(** The integer digits, the fraction digits and the text left. *)
Definition number (s : list ascii) : option (list ascii * list ascii * list ascii) :=
  match digitpart s with
  | Some (ip, r) =>
      match r with
      | c :: r' =>
          if is_char "." c then
            match digitpart r' with
            | Some (fp, r'') => Some (ip, fp, r'')
            | None => Some (ip, [], r')
            end
          else Some (ip, [], r)
      | [] => Some (ip, [], [])
      end
  | None =>
      match s with
      | c :: r' =>
          if is_char "." c then
            match digitpart r' with
            | Some (fp, r'') => Some ([], fp, r'')
            | None => None
            end
          else None
      | [] => None
      end
  end.

Definition sign (s : list ascii) : bool * list ascii :=
  match s with
  | c :: s' =>
      if is_char "-" c then (true, s')
      else if is_char "+" c then (false, s')
      else (false, s)
  | [] => (false, [])
  end.

(** The value of the exponent part, which must reach the end of the text. *)
Definition exponent (s : list ascii) : option Z :=
  match s with
  | [] => Some 0
  | c :: s' =>
      if is_char "e" (lower c) then
        let '(neg, r) := sign s' in
        match digitpart r with
        | Some (ds, []) =>
            let v := digits_value 0 ds in Some (if neg then - v else v)
        | _ => None
        end
      else None
  end.

Definition floatvalue (s : list ascii) : option spec_float :=
  let '(neg, r) := sign s in
  if is_word "inf" r || is_word "infinity" r then Some (S754_infinity neg)
  else if is_word "nan" r then Some S754_nan
  else
    match number r with
    | Some (ip, fp, r') =>
        match exponent r' with
        | Some e =>
            Some (float_of_decimal neg (digits_value 0 (ip ++ fp))
                                   (e - Z.of_nat (length fp)))
        | None => None
        end
    | None => None
    end.

(** The blanks [float] itself skips around the number: TAB..CR and space. *)
Definition is_blank (c : ascii) : bool := in_range 9 13 c || in_range 32 32 c.

Fixpoint drop_blanks (s : list ascii) : list ascii :=
  match s with
  | c :: s' => if is_blank c then drop_blanks s' else s
  | [] => []
  end.

(** [float(s)] for a string [s]. *)
Definition float (s : string) : result spec_float :=
  let body := rev (drop_blanks (rev (drop_blanks (list_ascii_of_string s)))) in
  match floatvalue body with
  | Some f => Ok f
  | None => Raise ValueError
  end.

(** [sys.get_int_max_str_digits()], as Python starts. *)
Definition max_str_digits : nat := 4300.

(** [int(s)] for a string [s] with [s.isdigit()], the only use the
    pipeline makes of it: the number the digits write, and a [ValueError]
    for more digits than [max_str_digits], leading zeros counted. *)
Definition int (s : string) : result Z :=
  if isdigit s then
    if (String.length s <=? max_str_digits)%nat
    then Ok (digits_value 0 (list_ascii_of_string s))
    else Raise ValueError
  else Raise ValueError.

(** *** Values

    The objects a table cell holds in this pipeline: [None], a [str], a
    [float] (with NaN, pandas' missing number) and an [int]. *)

Inductive value : Type :=
| VNone
| VStr (s : string)
| VFloat (f : spec_float)
| VInt (n : Z).

(** A method of [str] called on a value ([v.replace], [v.split]): any other
    object lacks the attribute. *)
Definition str_method (v : value) : result string :=
  match v with
  | VStr s => Ok s
  | _ => Raise AttributeError
  end.

(** [a == b] between an [int] and a [float], exact. *)
Definition int_float_eqb (n : Z) (f : spec_float) : bool :=
  match f with
  | S754_zero _ => n =? 0
  | S754_finite s m e =>
      let a := if s then Z.neg m else Z.pos m in
      if 0 <=? e then n =? a * 2 ^ e else n * 2 ^ (- e) =? a
  | _ => false
  end.

(** [a == b] *)
Definition eqb (a b : value) : bool :=
  match a, b with
  | VNone, VNone => true
  | VStr s, VStr t => String.eqb s t
  | VFloat f, VFloat g => feqb f g
  | VInt n, VInt m => n =? m
  | VInt n, VFloat f | VFloat f, VInt n => int_float_eqb n f
  | _, _ => false
  end.

Fixpoint mapM {A B} (f : A → result B) (l : list A) : result (list B) :=
  match l with
  | [] => Ok []
  | x :: l' => y ←' f x ;; ys ←' mapM f l' ;; Ok (y :: ys)
  end.

End Py.

(** ** pandas: the operations on tables the pipeline uses *)

Module Pandas.
Import Py.

(** A table: its column labels in order, and its rows in order.  A row maps
    a label to the cell under it; labels are distinct, as in every table built
    from a list of dicts. *)
Record DataFrame : Type := mkDataFrame {
  columns : list string;
  rows : list (gmap string value)
}.

(** [pd.isna(v)] *)
Definition isna (v : value) : bool :=
  match v with
  | VNone => true
  | VFloat f => is_nan f
  | _ => false
  end.

(** The cell of a row under a label; a dict without the key leaves the cell
    missing. *)
Definition cell (r : gmap string value) (c : string) : value :=
  default VNone (r !! c).

(** [df.empty]: no column or no row. *)
Definition empty (df : DataFrame) : bool :=
  bool_decide (columns df = []) || bool_decide (rows df = []).

(** [c in df.columns] *)
Definition has_column (df : DataFrame) (c : string) : bool :=
  bool_decide (c ∈ columns df).

(** [df[c]] *)
Definition getitem (df : DataFrame) (c : string) : list value :=
  map (fun r => cell r c) (rows df).

(** [series.apply(f)]; an exception of [f] leaves the call. *)
Definition apply (f : value → result value) (series : list value)
  : result (list value) :=
  mapM f series.

(** [df[c] = series], on a series aligned with the rows of [df]. *)
Definition setitem (df : DataFrame) (c : string) (series : list value) : DataFrame :=
  {| columns := if has_column df c then columns df else columns df ++ [c];
     rows := zip_with (fun r v => <[c := v]> r) (rows df) series |}.

(** [df.dropna(subset=cs)] *)
Definition dropna (cs : list string) (df : DataFrame) : DataFrame :=
  {| columns := columns df;
     rows := List.filter (fun r => forallb (fun c => negb (isna (cell r c))) cs) (rows df) |}.

(** [df[df[c] != v]] *)
Definition where_ne (c : string) (v : value) (df : DataFrame) : DataFrame :=
  {| columns := columns df;
     rows := List.filter (fun r => negb (eqb (cell r c) v)) (rows df) |}.

(** Two cells count as the same for duplicate detection when both are
    missing or they are equal. *)
Definition same_cell (a b : value) : bool :=
  if isna a then isna b else eqb a b.

Definition same_row (cs : list string) (r1 r2 : gmap string value) : bool :=
  forallb (fun c => same_cell (cell r1 c) (cell r2 c)) cs.

Fixpoint keep_first (cs : list string) (seen rs : list (gmap string value))
  : list (gmap string value) :=
  match rs with
  | [] => []
  | r :: rs' =>
      if existsb (same_row cs r) seen then keep_first cs seen rs'
      else r :: keep_first cs (r :: seen) rs'
  end.

(** [df.drop_duplicates()]: over all columns, keeping the first occurrence. *)
Definition drop_duplicates (df : DataFrame) : DataFrame :=
  {| columns := columns df;
     rows := keep_first (columns df) [] (rows df) |}.

Inductive dtype : Set := object | float64 | int32 | string_.

(** The [int32] of the same 32 bits: two's complement wrap-around. *)
Definition wrap32 (n : Z) : Z := (n + 2 ^ 31) mod 2 ^ 32 - 2 ^ 31.

(** [n] is an [int32] as it is. *)
Definition fits_int32 (n : Z) : bool := (- 2 ^ 31 <=? n) && (n <? 2 ^ 31).

(** The conversion of one cell by [astype].  The cells it is given are those
    the normalisers return: a [float] under [float64], an [int] under
    [int32], a [str] or a missing value under [string].  No other pairing
    of type and cell arises; they are marked by a [TypeError].

    An integer that is an [int32] is converted as it is, whatever the dtype
    its column has.  For one that is not, numpy's answer depends on that
    dtype: the wrap-around for a column held as [int64], a value the C cast
    leaves open for a column held as [float64] (a column that had a missing
    cell), an [OverflowError] for a column of Python objects (integers
    beyond 64 bits).  It is left to [narrow]: the [int32] it answers, read
    through [wrap32], or the exception. *)
Definition astype_cell (narrow : Z → result Z) (t : dtype) (v : value)
  : result value :=
  match t, v with
  | object, _ => Ok v
  | float64, VFloat f => Ok (VFloat f)
  | int32, VInt n =>
      if fits_int32 n then Ok (VInt n)
      else m ←' narrow n ;; Ok (VInt (wrap32 m))
  | string_, VStr s => Ok (VStr s)
  | string_, VNone => Ok VNone
  | _, _ => Raise TypeError
  end.

Definition astype_row (narrow : Z → result Z) (ts : list (string * dtype))
    (r : gmap string value) : result (gmap string value) :=
  fold_left
    (fun acc ct => r' ←' acc ;; v ←' astype_cell narrow ct.2 (cell r' ct.1) ;;
                   Ok (<[ct.1 := v]> r'))
    ts (Ok r).

(** [df.astype({c1: t1, ...})], every [ci] a column of [df]. *)
Definition astype (narrow : Z → result Z) (ts : list (string * dtype))
    (df : DataFrame) : result DataFrame :=
  rs ←' mapM (astype_row narrow ts) (rows df) ;;
  Ok {| columns := columns df; rows := rs |}.

(** [pd.DataFrame(columns=cs)] *)
Definition DataFrame_columns (cs : list string) : DataFrame :=
  {| columns := cs; rows := [] |}.

(** *** Tables as objects

    A table is an object on the heap: [df.copy()] and the methods above make
    a new object, [df[c] = series] changes the object [df] names. *)

Definition loc : Set := positive.

Definition M (A : Type) : Type :=
  gmap loc DataFrame → result A * gmap loc DataFrame.

Definition ret {A} (a : A) : M A := fun h => (Ok a, h).

(** An exception ends the run and leaves the heap as it then is. *)
Definition bindM {A B} (m : M A) (k : A → M B) : M B :=
  fun h => match m h with
           | (Ok a, h') => k a h'
           | (Raise e, h') => (Raise e, h')
           end.

Definition lift {A} (m : result A) : M A := fun h => (m, h).

(** The object a name refers to. *)
Definition deref (l : loc) : M DataFrame :=
  fun h => match h !! l with
           | Some d => (Ok d, h)
           | None => (Raise OtherError, h)
           end.

(** A new object. *)
Definition new (d : DataFrame) : M loc :=
  fun h => let l := fresh (dom h) in (Ok l, <[l := d]> h).

(** A change of the object [l] in place. *)
Definition update (l : loc) (d : DataFrame) : M unit :=
  fun h => (Ok tt, <[l := d]> h).

End Pandas.

(** ** utils/transform.py *)

Module Transform.
Import Py Pandas.

(** [TransformConfig]: [__post_init__] sets both sets whatever the
    constructor was given, so a configuration is fixed by its rate. *)
Record TransformConfig : Type := mkTransformConfig {
  EXCHANGE_RATE : spec_float;
  VALID_SIZES : list string;
  VALID_GENDERS : list string
}.

Definition __post_init__ (rate : spec_float) : TransformConfig :=
  {| EXCHANGE_RATE := rate;
     VALID_SIZES := ["XS"; "S"; "M"; "L"; "XL"; "XXL"];
     VALID_GENDERS := ["Men"; "Women"; "Unisex"] |}.

(** [TransformConfig()] *)
Definition default_config : TransformConfig := __post_init__ (float_of_Z 16000).

(** [s in set_of_strings] *)
Definition in_set (s : string) (l : list string) : bool :=
  existsb (String.eqb s) l.

Definition required_columns : list string :=
  ["Title"; "Price"; "Rating"; "Colors"; "Size"; "Gender"; "timestamp"].

Definition dropna_subset : list string :=
  ["Title"; "Price"; "Rating"; "Colors"; "Size"; "Gender"].

Definition final_types : list (string * dtype) :=
  [("Title", object); ("Price", float64); ("Rating", float64);
   ("Colors", int32); ("Size", object); ("Gender", object);
   ("timestamp", string_)].

Section DataTransformer.

(** Three library functions are left open.
    - [float_text f] is [str(f)] for a float [f].
    - [datetime_text v] is [pd.to_datetime(v).strftime('%Y-%m-%d %H:%M:%S')],
      and [None] where pandas raises: a text it cannot parse or a date out
      of bounds ([DateParseError], [OutOfBoundsDatetime]) and the rendering
      of [NaT] are each a [ValueError].
    - [int32_overflow df n] is what [astype] makes of a colour count [n]
      that is no [int32], in the run of [transform_dataframe] on the table
      [df]: the dtype pandas infers for the column of counts follows from
      all the cells of [df], those of the rows dropped too. *)
Variable float_text : spec_float → string.
Variable datetime_text : value → option string.
Variable int32_overflow : DataFrame → Z → result Z.

Variable config : TransformConfig.

(** [str(v)] *)
Definition str (v : value) : string :=
  match v with
  | VNone => "None"
  | VStr s => s
  | VFloat f => float_text f
  | VInt n => pretty n
  end.

Definition transform_price (price : value) : result value :=
  try_except
    (if isna price then Ok VNone
     else
       s ←' str_method price ;;
       cleaned_price ←' float (strip (replace "," "" (replace "$" "" s))) ;;
       Ok (VFloat (fmul cleaned_price (EXCHANGE_RATE config))))
    [ValueError; AttributeError]
    (Ok VNone).

Definition transform_rating (rating : value) : result value :=
  try_except
    (if isna rating || contains "Invalid" (str rating)
        || contains "Not Rated" (str rating)
     then Ok VNone
     else
       s ←' str_method rating ;;
       parts ←' split "/" s ;;
       part ←' item0 parts ;;
       f ←' float (strip part) ;;
       Ok (VFloat f))
    [ValueError; AttributeError]
    (Ok VNone).

Definition transform_colors (colors : value) : result value :=
  try_except
    (if isna colors then Ok VNone
     else
       s ←' str_method colors ;;
       num_colors ←' item0 (split_ws s) ;;
       if isdigit num_colors then n ←' int num_colors ;; Ok (VInt n)
       else Ok VNone)
    [ValueError; AttributeError; IndexError]
    (Ok VNone).

Definition transform_size (size : value) : result value :=
  try_except
    (if isna size then Ok VNone
     else
       s ←' str_method size ;;
       let cleaned_size := strip (replace "Size:" "" s) in
       Ok (if in_set cleaned_size (VALID_SIZES config) then VStr cleaned_size
           else VNone))
    [AttributeError]
    (Ok VNone).

Definition transform_gender (gender : value) : result value :=
  try_except
    (if isna gender then Ok VNone
     else
       s ←' str_method gender ;;
       let cleaned_gender := strip (replace "Gender:" "" s) in
       Ok (if in_set cleaned_gender (VALID_GENDERS config) then VStr cleaned_gender
           else VNone))
    [AttributeError]
    (Ok VNone).

Definition transform_timestamp (timestamp : value) : result value :=
  try_except
    (if isna timestamp then Ok VNone
     else
       match datetime_text timestamp with
       | Some s => Ok (VStr s)
       | None => Raise ValueError
       end)
    [ValueError; AttributeError]
    (Ok VNone).

(** [df[c] = df[c].apply(f)], as a function of the table. *)
Definition apply_column (c : string) (f : value → result value) (df : DataFrame)
  : result DataFrame :=
  series ←' apply f (getitem df c) ;;
  Ok (setitem df c series).

Definition missing_input (df : DataFrame) : bool :=
  empty df || negb (forallb (has_column df) required_columns).

(** The table [transform_dataframe] returns, as a function of the table it
    is given. *)
Definition transform_dataframe (df : DataFrame) : result DataFrame :=
  if missing_input df then Ok (DataFrame_columns required_columns)
  else
    df_cleaned ←' apply_column "Price" transform_price df ;;
    df_cleaned ←' apply_column "Rating" transform_rating df_cleaned ;;
    df_cleaned ←' apply_column "Colors" transform_colors df_cleaned ;;
    df_cleaned ←' apply_column "Size" transform_size df_cleaned ;;
    df_cleaned ←' apply_column "Gender" transform_gender df_cleaned ;;
    df_cleaned ←' apply_column "timestamp" transform_timestamp df_cleaned ;;
    let df_cleaned := dropna dropna_subset df_cleaned in
    let df_cleaned := where_ne "Title" (VStr "Unknown Product") df_cleaned in
    let df_cleaned := drop_duplicates df_cleaned in
    astype (int32_overflow df) final_types df_cleaned.

(** [df_cleaned[c] = df_cleaned[c].apply(f)] on the object [df_cleaned]. *)
Definition assign_column (df_cleaned : loc) (c : string) (f : value → result value)
  : M unit :=
  bindM (deref df_cleaned) (fun d =>
  bindM (lift (apply f (getitem d c))) (fun series =>
  update df_cleaned (setitem d c series))).

(** [df.method(...)] for a method that returns a new table. *)
Definition call (df : loc) (method : DataFrame → result DataFrame) : M loc :=
  bindM (deref df) (fun d =>
  bindM (lift (method d)) new).

(** [df.copy()]: a new object holding the same table. *)
Definition copy (df : loc) : M loc := call df Ok.

(** [transform_dataframe], statement by statement, on the table object
    [df]. *)
Definition transform_dataframe_on (df : loc) : M loc :=
  bindM (deref df) (fun d =>
  if missing_input d then new (DataFrame_columns required_columns)
  else
    bindM (copy df) (fun df_cleaned =>
    bindM (assign_column df_cleaned "Price" transform_price) (fun _ =>
    bindM (assign_column df_cleaned "Rating" transform_rating) (fun _ =>
    bindM (assign_column df_cleaned "Colors" transform_colors) (fun _ =>
    bindM (assign_column df_cleaned "Size" transform_size) (fun _ =>
    bindM (assign_column df_cleaned "Gender" transform_gender) (fun _ =>
    bindM (assign_column df_cleaned "timestamp" transform_timestamp) (fun _ =>
    bindM (call df_cleaned (fun d => Ok (dropna dropna_subset d))) (fun df_cleaned =>
    bindM (call df_cleaned
             (fun d => Ok (where_ne "Title" (VStr "Unknown Product") d)))
          (fun df_cleaned =>
    bindM (call df_cleaned (fun d => Ok (drop_duplicates d))) (fun df_cleaned =>
    bindM (call df_cleaned (astype (int32_overflow d) final_types)) (fun df_cleaned =>
    ret df_cleaned)))))))))))).

End DataTransformer.

End Transform.

(** ** utils/extract.py *)

Module Extract.
Import Py Pandas.

(** [ScraperConfig]; the delays and the request headers bear on timing and
    on the request only and are left out. *)
Record ScraperConfig : Type := mkScraperConfig {
  BASE_URL : string;
  NUM_PAGES : Z;
  MAX_WORKERS : Z;
  CHUNK_SIZE : Z
}.

(** [True] and [False] as the integers they are in a sum. *)
Definition int_of_bool (b : bool) : Z := if b then 1 else 0.

(** [a // b] and [a % b] *)
Definition floordiv (a b : Z) : result Z :=
  if b =? 0 then Raise ZeroDivisionError else Ok (a / b).

Definition pymod (a b : Z) : result Z :=
  if b =? 0 then Raise ZeroDivisionError else Ok (a mod b).

(** The constructor followed by [__post_init__]. *)
Definition __post_init__ (base_url : string) (num_pages max_workers : Z)
  : result ScraperConfig :=
  q ←' floordiv num_pages max_workers ;;
  r ←' pymod num_pages max_workers ;;
  Ok {| BASE_URL := base_url;
        NUM_PAGES := num_pages;
        MAX_WORKERS := max_workers;
        CHUNK_SIZE := q + int_of_bool (0 <? r) |}.

(** [ScraperConfig()] *)
Definition default_config : result ScraperConfig :=
  __post_init__ "https://fashion-studio.dicoding.dev" 50 10.

Definition range_length (start stop step : Z) : Z :=
  if 0 <? step then Z.max 0 ((stop - start + step - 1) / step)
  else Z.max 0 ((start - stop - step - 1) / (- step)).

(** [list(range(start, stop, step))] *)
Definition range (start stop step : Z) : result (list Z) :=
  if step =? 0 then Raise ValueError
  else Ok (map (fun k => start + Z.of_nat k * step)
               (seq 0 (Z.to_nat (range_length start stop step)))).

Definition clamp_index (len k : Z) : Z :=
  if k <? 0 then Z.max 0 (k + len) else Z.min k len.

(** [l[i:j]] *)
Definition slice {A} (l : list A) (i j : Z) : list A :=
  let len := Z.of_nat (length l) in
  let i' := clamp_index len i in
  let j' := clamp_index len j in
  take (Z.to_nat (j' - i')) (drop (Z.to_nat i') l).

(** The page numbers and their chunks, as the first two statements of
    [scrape] compute them. *)
Definition page_chunks (config : ScraperConfig) : result (list (list Z)) :=
  pages ←' range 1 (NUM_PAGES config + 1) 1 ;;
  starts ←' range 0 (Z.of_nat (length pages)) (CHUNK_SIZE config) ;;
  Ok (map (fun i => slice pages i (i + CHUNK_SIZE config)) starts).

(** What the parser finds in a card: the [product-details] block, if any,
    with the text of its title element, of the price element inside its
    price container, and of its descriptor paragraphs in document order. *)
Record product_details : Type := mkProductDetails {
  title : option string;
  price : option string;
  paragraphs : list string
}.

(** A page: its cards, or [None] when the collection grid is missing. *)
Definition page_content : Type := option (list (option product_details)).

Definition text_or_none (t : option string) : value :=
  match t with
  | Some s => VStr (strip s)
  | None => VNone
  end.

Definition _get_basic_info (details : product_details) : gmap string value :=
  {[ "Title" := text_or_none (title details);
     "Price" := text_or_none (price details) ]}.

Definition initial_info : gmap string value :=
  {[ "Rating" := VNone; "Colors" := VNone; "Size" := VNone; "Gender" := VNone ]}.

(** The body of the loop over the paragraphs. *)
Definition paragraph_step (info : gmap string value) (p : string)
  : result (gmap string value) :=
  let text := strip p in
  if contains "Rating:" text then
    parts ←' split "/" (replace "Rating:" "" (replace "⭐" "" text)) ;;
    part ←' item0 parts ;;
    Ok (<["Rating" := VStr (strip part)]> info)
  else if contains "Colors" text then Ok (<["Colors" := VStr text]> info)
  else if contains "Size:" text then Ok (<["Size" := VStr text]> info)
  else if contains "Gender:" text then Ok (<["Gender" := VStr text]> info)
  else Ok info.

Fixpoint for_each {S A} (body : S → A → result S) (s : S) (l : list A) : result S :=
  match l with
  | [] => Ok s
  | x :: l' => s' ←' body s x ;; for_each body s' l'
  end.

Definition _get_additional_info (details : product_details)
  : result (gmap string value) :=
  for_each paragraph_step initial_info (paragraphs details).

(** [now] is the reading of the clock, [datetime.now().isoformat()]. *)
Definition extract_product_details (now : string) (soup : option product_details)
  : option (gmap string value) :=
  let body :=
    match soup with
    | None => Ok None
    | Some details =>
        let product_info := _get_basic_info details in
        additional_info ←' _get_additional_info details ;;
        (* [update] lets the new keys win; then the stamp is set *)
        Ok (Some (<["timestamp" := VStr now]> (additional_info ∪ product_info)))
    end in
  match body with
  | Ok r => r
  | Raise _ => None
  end.

(** The key order of every dict [extract_product_details] returns. *)
Definition product_keys : list string :=
  ["Title"; "Price"; "Rating"; "Colors"; "Size"; "Gender"; "timestamp"].

(** [pd.DataFrame()] and [pd.DataFrame(products)] for a non-empty list of
    such dicts. *)
Definition DataFrame_empty : DataFrame := {| columns := []; rows := [] |}.

Definition DataFrame_of (products : list (gmap string value)) : DataFrame :=
  {| columns := product_keys; rows := products |}.

Section ProductScraper.

(** The outside world.
    - [http_get url] is [session.get(url, ...)] followed by
      [raise_for_status()]: the body of the response, or the exception.
    - [soup content] is what the HTML parser finds in a response body.
    - [clock page i] is the clock when card [i] of page [page] is read.
    - [as_completed] puts the finished futures in their order of
      completion. *)
Variable http_get : string → result string.
Variable soup : string → page_content.
Variable clock : Z → nat → string.
Variable as_completed :
  list (nat * list (gmap string value)) → list (nat * list (gmap string value)).

Variable config : ScraperConfig.

Definition _process_page_content (content : string) (page : Z)
  : list (gmap string value) :=
  match soup content with
  | None => []
  | Some product_cards =>
      omap (fun '(i, card) => extract_product_details (clock page i) card)
           (imap (fun i card => (i, card)) product_cards)
  end.

Definition page_url (page : Z) : string :=
  if page =? 1 then BASE_URL config
  else BASE_URL config ++ "/page" ++ pretty page.

Definition _scrape_single_page (page : Z) : list (gmap string value) :=
  let body :=
    content ←' http_get (page_url page) ;;
    Ok (_process_page_content content page) in
  match body with
  | Ok products => products
  | Raise _ => []
  end.

Definition scrape_chunk (pages : list Z) : list (gmap string value) :=
  concat (map _scrape_single_page pages).

(** [ThreadPoolExecutor(max_workers=n)] refuses [n <= 0]. *)
Definition executor (max_workers : Z) : result unit :=
  if max_workers <=? 0 then Raise ValueError else Ok tt.

(** [scrape]: the futures are the chunk results with their chunk numbers;
    they are merged in the order [as_completed] gives. *)
Definition scrape : DataFrame :=
  let body :=
    chunks ←' page_chunks config ;;
    _ ←' executor (MAX_WORKERS config) ;;
    let futures := imap (fun i chunk => (i, scrape_chunk chunk)) chunks in
    Ok (concat (map snd (as_completed futures))) in
  match body with
  | Ok [] => DataFrame_empty
  | Ok all_products => DataFrame_of all_products
  | Raise _ => DataFrame_empty
  end.

End ProductScraper.

End Extract.

(** ** main.py *)

Module Main.
Import Py Pandas.

(** The calls that write outside the process: the requests of the harvest
    are not among them. *)
Inductive event : Type :=
| RawToCsv (df : DataFrame)
| LoadToCsv (df : DataFrame)
| LoadToGoogleSheets (df : DataFrame)
| LoadToPostgres (df : DataFrame).

Section Pipeline.

Variable float_text : spec_float → string.
Variable datetime_text : value → option string.
Variable int32_overflow : DataFrame → Z → result Z.
Variable http_get : string → result string.
Variable soup : string → Extract.page_content.
Variable clock : Z → nat → string.
Variable as_completed :
  list (nat * list (gmap string value)) → list (nat * list (gmap string value)).

(** [df_raw.to_csv(...)] can fail; the three loaders catch everything and
    answer with a boolean. *)
Variable to_csv : DataFrame → result unit.
Variable load_to_csv load_to_google_sheets load_to_postgres : DataFrame → bool.

(** [run_etl_pipeline]: the value returned and the writes and loads made,
    in order.  Any exception ends the run with [False]. *)
Definition run_etl_pipeline : bool * list event :=
  match Extract.default_config with
  | Raise _ => (false, [])
  | Ok scraper_config =>
      let df_raw := Extract.scrape http_get soup clock as_completed scraper_config in
      if empty df_raw then (false, [])
      else
        match to_csv df_raw with
        | Raise _ => (false, [RawToCsv df_raw])
        | Ok _ =>
            match Transform.transform_dataframe float_text datetime_text
                    int32_overflow Transform.default_config df_raw with
            | Raise _ => (false, [RawToCsv df_raw])
            | Ok df_transformed =>
                if empty df_transformed then (false, [RawToCsv df_raw])
                else
                  let csv_success := load_to_csv df_transformed in
                  let sheets_success := load_to_google_sheets df_transformed in
                  let postgres_success := load_to_postgres df_transformed in
                  (csv_success && sheets_success && postgres_success,
                   [RawToCsv df_raw; LoadToCsv df_transformed;
                    LoadToGoogleSheets df_transformed;
                    LoadToPostgres df_transformed])
            end
        end
  end.

End Pipeline.

End Main.

(** ** The properties, in the specification's words *)

Module Spec.
Import Py Pandas.

(** The text before the first ["/"], all of it when there is none. *)
Fixpoint before_slash (s : string) : string :=
  match s with
  | EmptyString => EmptyString
  | String c s' => if is_char "/" c then EmptyString else String c (before_slash s')
  end.




(** A normaliser returns a value of its type or null. *)
Definition float_or_none (v : value) : Prop := v = VNone ∨ ∃ f, v = VFloat f.
Definition int_or_none (v : value) : Prop := v = VNone ∨ ∃ n, v = VInt n.
Definition str_or_none (v : value) : Prop := v = VNone ∨ ∃ s, v = VStr s.
Definition member_or_none (l : list string) (v : value) : Prop :=
  v = VNone ∨ ∃ s, v = VStr s ∧ Transform.in_set s l = true.

(** A row after the six normalisers have been applied to its columns. *)
Definition normalised (config : Transform.TransformConfig) (r : gmap string value) : Prop :=
  float_or_none (cell r "Price") ∧
  float_or_none (cell r "Rating") ∧
  int_or_none (cell r "Colors") ∧
  member_or_none (Transform.VALID_SIZES config) (cell r "Size") ∧
  member_or_none (Transform.VALID_GENDERS config) (cell r "Gender") ∧
  str_or_none (cell r "timestamp").

(** Row [r'] is row [r] with each of the six columns replaced by the image
    of its normaliser. *)
Definition applied (float_text : spec_float → string)
    (datetime_text : value → option string) (config : Transform.TransformConfig)
    (r r' : gmap string value) : Prop :=
  ∃ price rating colors size gender timestamp,
    Transform.transform_price config (cell r "Price") = Ok price ∧
    Transform.transform_rating float_text (cell r "Rating") = Ok rating ∧
    Transform.transform_colors (cell r "Colors") = Ok colors ∧
    Transform.transform_size config (cell r "Size") = Ok size ∧
    Transform.transform_gender config (cell r "Gender") = Ok gender ∧
    Transform.transform_timestamp datetime_text (cell r "timestamp") = Ok timestamp ∧
    r' = <["timestamp" := timestamp]> (<["Gender" := gender]> (<["Size" := size]>
           (<["Colors" := colors]> (<["Rating" := rating]> (<["Price" := price]> r))))).

(** The float [m * 2^e]. *)
Definition dyadic (m e : Z) : spec_float := binary_normalize prec emax m e false.

(** [0 < f], [0 <= f] and [f <= 5] on floats. *)
Definition positive_float (f : spec_float) : bool := SFltb (S754_zero false) f.
Definition rating_in_range (f : spec_float) : bool :=
  SFleb (S754_zero false) f && SFleb f (float_of_Z 5).

(** The domain of a [CleanProductRecord]: a non-empty title, a price above
    zero, a rating from 0 to 5, a colour count above zero, a size and a
    gender of the two enumerations. *)
Definition in_domain (config : Transform.TransformConfig) (r : gmap string value) : bool :=
  match cell r "Title", cell r "Price", cell r "Rating", cell r "Colors",
        cell r "Size", cell r "Gender" with
  | VStr title, VFloat price, VFloat rating, VInt colors, VStr size, VStr gender =>
      negb (String.eqb title "") && positive_float price && rating_in_range rating
      && (0 <? colors)
      && Transform.in_set size (Transform.VALID_SIZES config)
      && Transform.in_set gender (Transform.VALID_GENDERS config)
  | _, _, _, _, _, _ => false
  end.

(** What cleaning does establish for a row: every field of the dropna subset
    is present, the title is not the sentinel, price and rating are numbers,
    the colour count is a 32-bit integer, size and gender are of the two
    enumerations.  No range is checked. *)
Definition cleaned (config : Transform.TransformConfig) (r : gmap string value) : Prop :=
  isna (cell r "Title") = false ∧
  eqb (cell r "Title") (VStr "Unknown Product") = false ∧
  (∃ f, cell r "Price" = VFloat f ∧ is_nan f = false) ∧
  (∃ f, cell r "Rating" = VFloat f ∧ is_nan f = false) ∧
  (∃ n, cell r "Colors" = VInt n ∧ - 2 ^ 31 ≤ n < 2 ^ 31) ∧
  (∃ s, cell r "Size" = VStr s ∧
        Transform.in_set s (Transform.VALID_SIZES config) = true) ∧
  (∃ s, cell r "Gender" = VStr s ∧
        Transform.in_set s (Transform.VALID_GENDERS config) = true).

(** The four descriptor fields, in the order the card parser tries their
    triggers. *)
Inductive field : Set := Rating | Colors | Size | Gender.

Definition fields : list field := [Rating; Colors; Size; Gender].

Definition key (f : field) : string :=
  match f with
  | Rating => "Rating"
  | Colors => "Colors"
  | Size => "Size"
  | Gender => "Gender"
  end.

Definition trigger (f : field) : string :=
  match f with
  | Rating => "Rating:"
  | Colors => "Colors"
  | Size => "Size:"
  | Gender => "Gender:"
  end.

Definition field_eqb (f g : field) : bool :=
  match f, g with
  | Rating, Rating | Colors, Colors | Size, Size | Gender, Gender => true
  | _, _ => false
  end.

(** The field of a paragraph: the first whose trigger its text contains. *)
Definition classify (text : string) : option field :=
  List.find (fun f => contains (trigger f) text) fields.

Definition is_for (f : field) (p : string) : bool :=
  match classify (strip p) with
  | Some g => field_eqb f g
  | None => false
  end.

(** The text a paragraph gives its field: its trimmed text as it is, and for
    the rating the trimmed text before the first slash once the star and
    the trigger are taken out. *)
Definition field_text (f : field) (text : string) : string :=
  match f with
  | Rating => strip (before_slash (replace "Rating:" "" (replace "⭐" "" text)))
  | _ => text
  end.

(** The field a list of paragraphs leaves: that of the last paragraph for
    it, null without one. *)
Definition field_value (f : field) (ps : list string) : value :=
  match last (List.filter (is_for f) ps) with
  | Some p => VStr (field_text f (strip p))
  | None => VNone
  end.

(** [ceil(a / b)] for [0 < b]. *)
Definition ceil_div (a b : Z) : Z := (a + b - 1) / b.

End Spec.

(** ** Sample inputs *)

Module Samples.
Import Py Pandas.

(** Stand-ins for the two library functions of the normalisers, to run them
    on the samples.  [iso_datetime_text] reads the ISO-8601 texts
    [YYYY-MM-DDTHH:MM:SS...] the extractor stamps and
    [YYYY-MM-DD HH:MM:SS]; [dyadic_text] writes a float by its exact decimal
    expansion. *)

Definition iso_shape (s : list ascii) : bool :=
  match s with
  | y1 :: y2 :: y3 :: y4 :: d1 :: m1 :: m2 :: d2 :: a1 :: a2 :: t
      :: h1 :: h2 :: c1 :: n1 :: n2 :: c2 :: s1 :: s2 :: _ =>
      forallb is_digit [y1; y2; y3; y4; m1; m2; a1; a2; h1; h2; n1; n2; s1; s2]
      && is_char "-" d1 && is_char "-" d2
      && (is_char "T" t || is_char " " t)
      && is_char ":" c1 && is_char ":" c2
  | _ => false
  end.

Definition iso_datetime_text (v : value) : option string :=
  match v with
  | VStr s =>
      let l := list_ascii_of_string s in
      if iso_shape l
      then Some (string_of_list_ascii
                  (take 10 l ++ " "%char :: take 8 (drop 11 l))%list)
      else None
  | _ => None
  end.

Fixpoint strip_zeros (rev_digits : list ascii) : list ascii :=
  match rev_digits with
  | c :: l => if is_char "0" c then strip_zeros l else rev_digits
  | [] => []
  end.

Definition dyadic_text (f : spec_float) : string :=
  match f with
  | S754_nan => "nan"
  | S754_infinity s => if s then "-inf" else "inf"
  | S754_zero s => if s then "-0.0" else "0.0"
  | S754_finite s m e =>
      let sgn := if s then "-" else "" in
      if 0 <=? e then sgn ++ pretty (Z.pos m * 2 ^ e) ++ ".0"
      else
        let k := Z.to_nat (- e) in
        let ip := Z.pos m / 2 ^ (- e) in
        let fp := (Z.pos m mod 2 ^ (- e)) * 5 ^ (- e) in
        let digits := list_ascii_of_string (pretty fp) in
        let padded := (replicate (k - length digits)%nat "0"%char ++ digits)%list in
        let frac := rev (strip_zeros (rev padded)) in
        sgn ++ pretty ip ++ "." ++
          (match frac with [] => "0" | _ => string_of_list_ascii frac end)
  end.

Definition raw_row (title price rating colors size gender timestamp : string)
  : gmap string value :=
  list_to_map
    [("Title", VStr title); ("Price", VStr price); ("Rating", VStr rating);
     ("Colors", VStr colors); ("Size", VStr size); ("Gender", VStr gender);
     ("timestamp", VStr timestamp)].

(** A well-formed card, as the extractor delivers it. *)
Definition shirt : gmap string value :=
  raw_row "T-shirt 2" "$12.50" "4.5" "3 Colors" "Size: M" "Gender: Men"
          "2025-05-01T10:20:30.123456".

(** A card with an empty title, a price of zero, a rating of 7.5 and no
    colour. *)
Definition odd_card : gmap string value :=
  raw_row "" "$0.00" "7.5" "0 Colors" "Size: M" "Gender: Men"
          "2025-05-01T10:20:31.000000".

Definition one_shirt : DataFrame :=
  {| columns := Transform.required_columns; rows := [shirt] |}.

Definition one_odd_card : DataFrame :=
  {| columns := Transform.required_columns; rows := [odd_card] |}.

(** A second well-formed card, and a card without a price. *)
Definition jacket : gmap string value :=
  raw_row "Jacket 7" "$80.00" "3.9" "5 Colors" "Size: L" "Gender: Women"
          "2025-05-01T10:20:32.000000".

Definition unpriced : gmap string value :=
  raw_row "Hoodie 3" "Price Unavailable" "4.0" "2 Colors" "Size: S"
          "Gender: Unisex" "2025-05-01T10:20:33.000000".

(** Five rows: the shirt twice, a row to drop between them. *)
Definition catalogue : DataFrame :=
  {| columns := Transform.required_columns;
     rows := [shirt; unpriced; jacket; shirt; odd_card] |}.

(** A card with more colours than an [int32] counts. *)
Definition rainbow : gmap string value :=
  raw_row "Rainbow 1" "$5.00" "4.0" "4294967299 Colors" "Size: M" "Gender: Men"
          "2025-05-01T10:20:34.000000".

Definition one_rainbow : DataFrame :=
  {| columns := Transform.required_columns; rows := [rainbow] |}.

(** A table without the [Gender] column. *)
Definition no_gender : DataFrame :=
  {| columns := ["Title"; "Price"; "Rating"; "Colors"; "Size"; "timestamp"];
     rows := [delete "Gender" shirt] |}.

(** A card whose rating paragraph carries the star and the scale. *)
Definition rated_card : Extract.product_details :=
  {| Extract.title := Some "T-shirt 2";
     Extract.price := Some "$12.50";
     Extract.paragraphs := ["Rating: ⭐ 4.8 / 5"; "3 Colors"; "Size: M"; "Gender: Men"] |}.

(** A card without a title element. *)
Definition untitled_card : Extract.product_details :=
  {| Extract.title := None;
     Extract.price := Some "$20.00";
     Extract.paragraphs := ["Rating: ⭐ 3.9 / 5"; "5 Colors"; "Size: L"; "Gender: Women"] |}.

(** A site of two pages with one card each. *)
Definition two_pages_get (url : string) : result string :=
  if String.eqb url "https://fashion-studio.dicoding.dev" then Ok "first"
  else if String.eqb url "https://fashion-studio.dicoding.dev/page2" then Ok "second"
  else Raise OtherError.

Definition two_pages_soup (content : string) : Extract.page_content :=
  if String.eqb content "first" then Some [Some rated_card]
  else if String.eqb content "second" then Some [Some untitled_card]
  else None.

(** A world in which no request succeeds. *)
Definition no_network (url : string) : result string := Raise OtherError.
Definition no_markup (content : string) : Extract.page_content := None.
Definition stopped_clock (page : Z) (i : nat) : string := "2025-05-01T10:20:30".
Definition in_submission_order
    (futures : list (nat * list (gmap string value)))
  : list (nat * list (gmap string value)) := futures.
Definition csv_written (df : DataFrame) : result unit := Ok tt.

(** Stand-ins for numpy on a count that is no [int32]: the same bits for a
    column held as [int64], the exception for a column of objects. *)
Definition int64_bits (df : DataFrame) (n : Z) : result Z := Ok n.
Definition object_overflow (df : DataFrame) (n : Z) : result Z := Raise OtherError.
Definition loaded (df : DataFrame) : bool := true.

End Samples.

(** ** utils/load.py *)

Module Load.
Import Py Pandas.

(** [LoadConfig]; [main] builds it with the defaults of the source, the
    functions below take any. *)
Record LoadConfig : Type := mkLoadConfig {
  CSV_FILENAME : string;
  CSV_ENCODING : string;
  CREDENTIALS_FILE : string;
  SPREADSHEET_ID : string;
  WORKSHEET_NAME : string;
  DB_NAME : string;
  DB_USER : string;
  DB_PASSWORD : string;
  DB_HOST : string;
  DB_PORT : Z;
  TABLE_NAME : string
}.

Definition required_columns : list string :=
  ["Title"; "Price"; "Rating"; "Colors"; "Size"; "Gender"; "timestamp"].

Definition valid_sizes : list string := ["XS"; "S"; "M"; "L"; "XL"; "XXL"].
Definition valid_genders : list string := ["Men"; "Women"; "Unisex"].

(** The comparisons of a cell with a number, as pandas makes them cell by
    cell: a missing cell compares false, a text with a number is a
    [TypeError]. *)
Definition compare_with (on_float : spec_float → bool) (on_int : Z → bool)
    (v : value) : result bool :=
  match v with
  | VNone => Ok false
  | VFloat f => Ok (on_float f)
  | VInt n => Ok (on_int n)
  | VStr _ => Raise TypeError
  end.

(** [v <= 0], [v < 0] and [v > 5] *)
Definition le_zero : value → result bool :=
  compare_with (fun f => SFleb f (S754_zero false)) (fun n => n <=? 0).
Definition lt_zero : value → result bool :=
  compare_with (fun f => SFltb f (S754_zero false)) (fun n => n <? 0).
Definition gt_five : value → result bool :=
  compare_with (fun f => SFltb (float_of_Z 5) f) (fun n => 5 <? n).

(** [series.isin(l)] on one cell, for a list of texts. *)
Definition isin (l : list string) (v : value) : bool :=
  match v with
  | VStr s => existsb (String.eqb s) l
  | _ => false
  end.

(** [.any()] and [.all()] *)
Definition any (l : list bool) : bool := existsb (fun b => b) l.
Definition all (l : list bool) : bool := forallb (fun b => b) l.

(** [a | b] on two series of booleans. *)
Definition series_or (a b : list bool) : list bool := zip_with orb a b.

(** The loaders: where a table goes, and what the services answer. *)
Inductive effect : Type :=
| CsvWrite (path encoding : string) (df : DataFrame)
| SheetsAuthorize (credentials_file : string)
| SheetsOpen (spreadsheet_id : string)
| SheetsWorksheet (name : string)
| SheetsAddWorksheet (name : string) (rows cols : Z)
| SheetsClear
| SheetsUpdate (data : list (list value))
| DbConnect (connection_string : string)
| DbToSql (table : string) (df : DataFrame)
| DbCount (table : string).

(** A computation that calls out: its result and the calls made, in
    order. *)
Definition IO (A : Type) : Type := result A * list effect.

Definition io_ret {A} (a : A) : IO A := (Ok a, []).

Definition io_bind {A B} (m : IO A) (k : A → IO B) : IO B :=
  match m with
  | (Ok a, t) => let '(r, t') := k a in (r, (t ++ t')%list)
  | (Raise e, t) => (Raise e, t)
  end.

(** One call, and the answer or the exception of the service. *)
Definition call {A} (e : effect) (answer : result A) : IO A := (answer, [e]).

(** [try: body  except Exception: return False] around a body that returns
    a boolean. *)
Definition except_false (body : IO bool) : bool * list effect :=
  match body with
  | (Ok b, t) => (b, t)
  | (Raise _, t) => (false, t)
  end.

Section DataLoader.

(** The outside world of the loaders.
    - [to_datetime_series s] is [pd.to_datetime(s)] on a column, for its
      exception only.
    - [to_csv path df] writes the file.
    - [credentials_exist], [authorize], [open_by_key], [worksheet],
      [add_worksheet], [clear], [update] are the file check and the calls to
      the spreadsheet service; [worksheet] answers [Ok false] for
      gspread's [WorksheetNotFound].
    - [connect], [to_sql], [count] are the calls to the database. *)
Variable to_datetime_series : list value → result unit.
Variable to_csv : string → DataFrame → result unit.
Variable credentials_exist : string → bool.
Variable authorize : string → result unit.
Variable open_by_key : string → result unit.
Variable worksheet : string → result bool.
Variable add_worksheet : string → Z → Z → result unit.
Variable clear : result unit.
Variable update : list (list value) → result unit.
Variable connect : string → result unit.
Variable to_sql : string → DataFrame → result unit.
Variable count : string → result Z.

Variable config : LoadConfig.

Definition validate_dataframe (df : DataFrame) : bool :=
  if empty df then false
  else if negb (forallb (has_column df) required_columns) then false
  else
    let body : result bool :=
      if existsb isna (getitem df "Title")
         || existsb (fun v => eqb v (VStr "")) (getitem df "Title")
      then Ok false
      else
        not_positive ←' mapM le_zero (getitem df "Price") ;;
        if any not_positive then Ok false
        else
          below ←' mapM lt_zero (getitem df "Rating") ;;
          above ←' mapM gt_five (getitem df "Rating") ;;
          if any (series_or below above) then Ok false
          else
            no_color ←' mapM le_zero (getitem df "Colors") ;;
            if any no_color then Ok false
            else if negb (all (map (isin valid_sizes) (getitem df "Size")))
            then Ok false
            else if negb (all (map (isin valid_genders) (getitem df "Gender")))
            then Ok false
            else
              match to_datetime_series (getitem df "timestamp") with
              | Ok _ => Ok true
              | Raise _ => Ok false
              end in
    match body with
    | Ok b => b
    | Raise _ => false
    end.

(** [filepath or self.config.CSV_FILENAME] *)
Definition output_path (filepath : option string) : string :=
  match filepath with
  | Some (String c p) => String c p
  | _ => CSV_FILENAME config
  end.

Definition load_to_csv (df : DataFrame) (filepath : option string)
  : bool * list effect :=
  except_false
    (if negb (validate_dataframe df) then io_ret false
     else
       let path := output_path filepath in
       io_bind (call (CsvWrite path (CSV_ENCODING config) df) (to_csv path df))
         (fun _ => io_ret true)).

(** [[df.columns.values.tolist()] + df.values.tolist()] *)
Definition sheet_data (df : DataFrame) : list (list value) :=
  map VStr (columns df) :: map (fun r => map (cell r) (columns df)) (rows df).

Definition load_to_google_sheets (df : DataFrame) : bool * list effect :=
  except_false
    (if negb (credentials_exist (CREDENTIALS_FILE config)) then io_ret false
     else
       io_bind (call (SheetsAuthorize (CREDENTIALS_FILE config))
                     (authorize (CREDENTIALS_FILE config))) (fun _ =>
       match open_by_key (SPREADSHEET_ID config) with
       | Raise _ => (Ok false, [SheetsOpen (SPREADSHEET_ID config)])
       | Ok _ =>
           io_bind (call (SheetsOpen (SPREADSHEET_ID config)) (Ok tt)) (fun _ =>
           io_bind (call (SheetsWorksheet (WORKSHEET_NAME config))
                         (worksheet (WORKSHEET_NAME config))) (fun found =>
           io_bind
             (if found then io_ret tt
              else
                let rows := Z.of_nat (length (rows df)) + 1 in
                let cols := Z.of_nat (length (columns df)) in
                call (SheetsAddWorksheet (WORKSHEET_NAME config) rows cols)
                     (add_worksheet (WORKSHEET_NAME config) rows cols)) (fun _ =>
           io_bind (call SheetsClear clear) (fun _ =>
           let data := sheet_data df in
           io_bind (call (SheetsUpdate data) (update data)) (fun _ =>
           io_ret true)))))
       end)).

(** [f'postgresql://{user}:{password}@{host}:{port}/{name}'] *)
Definition connection_string : string :=
  "postgresql://" ++ DB_USER config ++ ":" ++ DB_PASSWORD config ++ "@"
    ++ DB_HOST config ++ ":" ++ pretty (DB_PORT config) ++ "/" ++ DB_NAME config.

Definition load_to_postgres (df : DataFrame) : bool * list effect :=
  except_false
    (if negb (validate_dataframe df) then io_ret false
     else
       match connect connection_string with
       | Raise _ => (Ok false, [DbConnect connection_string])
       | Ok _ =>
           io_bind (call (DbConnect connection_string) (Ok tt)) (fun _ =>
           io_bind (call (DbToSql (TABLE_NAME config) df)
                         (to_sql (TABLE_NAME config) df)) (fun _ =>
           io_bind (call (DbCount (TABLE_NAME config)) (count (TABLE_NAME config)))
             (fun n => io_ret (n =? Z.of_nat (length (rows df))))))
       end).

End DataLoader.

End Load.

(** ** Further properties, in words of the code *)

Module Props.
Import Py Pandas.

(** A text without a character of class [p]. *)
Fixpoint free_of (p : ascii → bool) (s : string) : bool :=
  match s with
  | EmptyString => true
  | String c s' => negb (p c) && free_of p s'
  end.

(** The text of the bytes [l]. *)
Definition of_bytes (l : list N) : string :=
  string_of_list_ascii (map ascii_of_N l).

(** The white space of [str.isspace] beyond ASCII, in UTF-8: U+0085,
    U+00A0, U+1680, U+2000 to U+200A, U+2028, U+2029, U+202F, U+205F and
    U+3000. *)
Definition wide_blanks : list string :=
  map of_bytes
    [[194; 133]; [194; 160]; [225; 154; 128];
     [226; 128; 128]; [226; 128; 129]; [226; 128; 130]; [226; 128; 131];
     [226; 128; 132]; [226; 128; 133]; [226; 128; 134]; [226; 128; 135];
     [226; 128; 136]; [226; 128; 137]; [226; 128; 138];
     [226; 128; 168]; [226; 128; 169]; [226; 128; 175];
     [226; 129; 159]; [227; 128; 128]]%N.

(** A text whose white space is all ASCII: [strip] and [split] are then
    what Python's are. *)
Definition narrow_blanks (s : string) : bool :=
  forallb (fun w => negb (contains w s)) wide_blanks.


(** A card whose title, price and paragraphs have ASCII white space
    only. *)
Definition narrow_card (details : Extract.product_details) : bool :=
  match Extract.title details with Some s => narrow_blanks s | None => true end
  && match Extract.price details with Some s => narrow_blanks s | None => true end
  && forallb narrow_blanks (Extract.paragraphs details).

Definition narrow_cards (cards : list (option Extract.product_details)) : bool :=
  forallb (fun card => match card with
                       | Some details => narrow_card details
                       | None => true
                       end) cards.

(** A word: a non-empty ASCII text without white space. *)
Definition is_token (w : string) : bool :=
  match w with
  | EmptyString => false
  | _ => free_of (fun c => isspace c || (128 <=? code c)%N) w
  end.

(** No row of [l] counts as a duplicate of an earlier one. *)
Definition no_duplicate (cs : list string) (l : list (gmap string value)) : Prop :=
  ∀ (i j : nat) a b, (i < j)%nat → l !! i = Some a → l !! j = Some b →
    same_row cs b a = false.

(** The colour counts a table will give all fit 32 bits. *)
Definition counts_fit (df : DataFrame) : Prop :=
  Forall (fun r => ∀ n, Transform.transform_colors (cell r "Colors") = Ok (VInt n) →
                        n < 2 ^ 31) (rows df).

(** A normalised row is complete: no field of the dropna subset is missing
    and the title is not the sentinel. *)
Definition complete (r : gmap string value) : bool :=
  forallb (fun c => negb (isna (cell r c))) Transform.dropna_subset
  && negb (eqb (cell r "Title") (VStr "Unknown Product")).

Definition is_ok {A} (r : result A) : bool :=
  match r with
  | Ok _ => true
  | Raise _ => false
  end.

(** What [Load.validate_dataframe] asks of a number in a row: a missing one
    passes, a text does not, a number is tested. *)
Definition number_passes (on_float : spec_float → bool) (on_int : Z → bool)
    (v : value) : bool :=
  match v with
  | VNone => true
  | VFloat f => on_float f
  | VInt n => on_int n
  | VStr _ => false
  end.

Definition above_zero : value → bool :=
  number_passes (fun f => negb (SFleb f (S754_zero false))) (fun n => 0 <? n).

Definition zero_to_five : value → bool :=
  number_passes
    (fun f => negb (SFltb f (S754_zero false)) && negb (SFltb (float_of_Z 5) f))
    (fun n => (0 <=? n) && (n <=? 5)).

(** The two halves of a comparison of a column: the cells that make it
    raise, and the test of a cell that does not. *)
Definition is_text (v : value) : bool :=
  match v with
  | VStr _ => true
  | _ => false
  end.

Definition tested (on_float : spec_float → bool) (on_int : Z → bool) (v : value)
  : bool :=
  match v with
  | VFloat f => on_float f
  | VInt n => on_int n
  | _ => false
  end.

(** ... and of the row: a title that is not missing and not empty, the
    three numbers, a size and a gender of the two lists. *)
Definition row_passes (r : gmap string value) : bool :=
  negb (isna (cell r "Title")) && negb (eqb (cell r "Title") (VStr ""))
  && above_zero (cell r "Price")
  && zero_to_five (cell r "Rating")
  && above_zero (cell r "Colors")
  && Load.isin Load.valid_sizes (cell r "Size")
  && Load.isin Load.valid_genders (cell r "Gender").

(** The record of a card with a details block, read at time [now]. *)
Definition record_of (now : string) (details : Extract.product_details)
  : gmap string value :=
  list_to_map
    [("Title", Extract.text_or_none (Extract.title details));
     ("Price", Extract.text_or_none (Extract.price details));
     ("Rating", Spec.field_value Spec.Rating (Extract.paragraphs details));
     ("Colors", Spec.field_value Spec.Colors (Extract.paragraphs details));
     ("Size", Spec.field_value Spec.Size (Extract.paragraphs details));
     ("Gender", Spec.field_value Spec.Gender (Extract.paragraphs details));
     ("timestamp", VStr now)].

(** The records of the cards of a page, in document order: a card without
    a details block gives none. *)
Definition records_of (clock : nat → string)
    (cards : list (option Extract.product_details)) : list (gmap string value) :=
  omap (fun '(i, card) => record_of (clock i) <$> card)
       (imap (fun i card => (i, card)) cards).

(** The rows the cleaner keeps of the normalised rows [d6] of [df], before
    their conversion: the first occurrences of the complete ones. *)
Definition kept_of (df : DataFrame) (d6 : list (gmap string value))
  : list (gmap string value) :=
  keep_first (columns df) [] (List.filter complete d6).

End Props.

(** ** Sample services *)

Module Services.
Import Py Pandas.

(** Services that all answer: every column of timestamps parses, every file
    is written, the worksheet exists, the database stores what it is given
    and counts [n] rows. *)
Definition parses (series : list value) : result unit := Ok tt.
Definition written (path : string) (df : DataFrame) : result unit := Ok tt.
Definition present (file : string) : bool := true.
Definition granted (name : string) : result unit := Ok tt.
Definition found (name : string) : result bool := Ok true.
Definition added (name : string) (rows cols : Z) : result unit := Ok tt.
Definition cleared : result unit := Ok tt.
Definition updated (data : list (list value)) : result unit := Ok tt.
Definition stored (table : string) (df : DataFrame) : result unit := Ok tt.
Definition counted (n : Z) (table : string) : result Z := Ok n.

Definition sample_config : Load.LoadConfig :=
  {| Load.CSV_FILENAME := "products_cleaned.csv";
     Load.CSV_ENCODING := "utf-8";
     Load.CREDENTIALS_FILE := "credentials.json";
     Load.SPREADSHEET_ID := "sheet";
     Load.WORKSHEET_NAME := "Cleaned Data";
     Load.DB_NAME := "catalog";
     Load.DB_USER := "user";
     Load.DB_PASSWORD := "password";
     Load.DB_HOST := "localhost";
     Load.DB_PORT := 5432;
     Load.TABLE_NAME := "products" |}.

(** The row the cleaner makes of [Samples.shirt], and the table of it. *)
Definition clean_shirt : gmap string value :=
  list_to_map
    [("Title", VStr "T-shirt 2"); ("Price", VFloat (float_of_Z 200000));
     ("Rating", VFloat (Spec.dyadic 9 (-1))); ("Colors", VInt 3);
     ("Size", VStr "M"); ("Gender", VStr "Men");
     ("timestamp", VStr "2025-05-01 10:20:30")].

Definition one_clean_shirt : DataFrame :=
  {| columns := Transform.required_columns; rows := [clean_shirt] |}.

End Services.

(** * Properties *)

(** ** Python *)

Module PyFacts.
Import Py.

Lemma float_cases (s : string) :
  (∃ x, float s = Ok x) ∨ float s = Raise ValueError.
Proof.
  unfold float. destruct (floatvalue _); eauto.
Qed.

Lemma prefix_char (c a : ascii) (s : string) :
  String.prefix (String c EmptyString) (String a s) = is_char c a.
Proof.
  unfold is_char. simpl. destruct (ascii_dec c a) as [->|Hne].
  - rewrite bool_decide_eq_true_2 by done. by destruct s.
  - rewrite bool_decide_eq_false_2 by congruence. done.
Qed.

Lemma split_from_slash (s : string) :
  (split_from "/" 0 s).1 = Spec.before_slash s.
Proof.
  induction s as [|a s IH]; [done|].
  cbn [split_from Spec.before_slash]. rewrite prefix_char.
  destruct (is_char "/" a); [done|].
  destruct (split_from "/" 0 s); simpl in *. by rewrite IH.
Qed.

(** [s.split('/')[0]] is the text before the first slash. *)
Lemma split_slash_item0 (s : string) :
  (parts ←' split "/" s ;; item0 parts) = Ok (Spec.before_slash s).
Proof.
  unfold split. pose proof (split_from_slash s) as H.
  destruct (split_from "/" 0 s) as [h t]. simpl in *. by rewrite H.
Qed.

Lemma mapM_total {A B} (f : A → result B) (l : list A) :
  (∀ x, ∃ y, f x = Ok y) → ∃ ys, mapM f l = Ok ys.
Proof.
  intros Hf. induction l as [|x l [ys IH]]; simpl; [eauto|].
  destruct (Hf x) as [y ->]. simpl. rewrite IH. simpl. eauto.
Qed.

End PyFacts.

(** ** The field normalisers *)

Module TransformFacts.
Import Py Pandas Transform Spec PyFacts.

Section Normalisers.

Variable float_text : spec_float → string.
Variable datetime_text : value → option string.
Variable config : TransformConfig.

Local Abbreviation transform_rating := (transform_rating float_text).
Local Abbreviation transform_timestamp := (transform_timestamp datetime_text).

Lemma transform_price_str (s : string) :
  transform_price config (VStr s) =
    Ok (match float (strip (replace "," "" (replace "$" "" s))) with
        | Ok x => VFloat (fmul x (EXCHANGE_RATE config))
        | Raise _ => VNone
        end).
Proof.
  unfold transform_price. cbn [isna str_method bind].
  destruct (float_cases (strip (replace "," "" (replace "$" "" s))))
    as [[x ->] | ->]; done.
Qed.

Lemma transform_price_not_str (v : value) :
  (∀ s, v ≠ VStr s) → transform_price config v = Ok VNone.
Proof.
  intros Hv. unfold transform_price.
  destruct v as [|s|f|n]; simpl; try done.
  - by destruct (Hv s).
  - by destruct (is_nan f).
Qed.

Lemma transform_price_total (v : value) :
  ∃ r, transform_price config v = Ok r ∧ float_or_none r.
Proof.
  destruct v as [|s|f|n].
  - exists VNone. split; [done | by left].
  - rewrite transform_price_str. eexists; split; [done|].
    destruct (float _); [right; eauto | by left].
  - exists VNone. split; [by apply transform_price_not_str | by left].
  - exists VNone. split; [by apply transform_price_not_str | by left].
Qed.

Lemma transform_rating_str (s : string) :
  transform_rating (VStr s) =
    Ok (if contains "Invalid" s || contains "Not Rated" s then VNone
        else match float (strip (Spec.before_slash s)) with
             | Ok x => VFloat x
             | Raise _ => VNone
             end).
Proof.
  unfold Transform.transform_rating. cbn [isna str orb str_method].
  destruct (contains "Invalid" s || contains "Not Rated" s); [done|].
  cbn [bind].
  pose proof (split_slash_item0 s) as H.
  destruct (split "/" s) as [parts|]; simpl in H; [|done].
  cbn [bind]. rewrite H. cbn [bind].
  destruct (float_cases (strip (Spec.before_slash s))) as [[x ->] | ->]; done.
Qed.

Lemma transform_rating_not_str (v : value) :
  (∀ s, v ≠ VStr s) → transform_rating v = Ok VNone.
Proof.
  intros Hv. unfold Transform.transform_rating.
  destruct v as [|s|f|n]; cbn [isna orb]; try done.
  - by destruct (Hv s).
  - by destruct (is_nan f || _ || _).
  - by destruct (_ || _).
Qed.

Lemma transform_rating_total (v : value) :
  ∃ r, transform_rating v = Ok r ∧ float_or_none r.
Proof.
  destruct v as [|s|f|n].
  - exists VNone. split; [by apply transform_rating_not_str | by left].
  - rewrite transform_rating_str. eexists; split; [done|].
    destruct (_ || _); [by left|].
    destruct (float _); [right; eauto | by left].
  - exists VNone. split; [by apply transform_rating_not_str | by left].
  - exists VNone. split; [by apply transform_rating_not_str | by left].
Qed.

Lemma transform_colors_not_str (v : value) :
  (∀ s, v ≠ VStr s) → transform_colors v = Ok VNone.
Proof.
  intros Hv. unfold transform_colors.
  destruct v as [|s|f|n]; simpl; try done.
  - by destruct (Hv s).
  - by destruct (is_nan f).
Qed.

Lemma transform_colors_total (v : value) :
  ∃ r, transform_colors v = Ok r ∧ int_or_none r.
Proof.
  destruct v as [|s|f|n];
    try (exists VNone; split; [by apply transform_colors_not_str | by left]).
  unfold transform_colors. cbn [isna str_method bind].
  destruct (split_ws s) as [|w ws]; cbn [item0 bind try_except existsb exn_eqb orb].
  { exists VNone. split; [done | by left]. }
  destruct (isdigit w) eqn:Hw; cbn [try_except].
  - unfold int. rewrite Hw.
    destruct (String.length w <=? max_str_digits)%nat;
      cbn [bind try_except existsb exn_eqb orb].
    + eexists; split; [done|]. right; eauto.
    + exists VNone. split; [done | by left].
  - exists VNone. split; [done | by left].
Qed.

Lemma transform_size_str (s : string) :
  transform_size config (VStr s) =
    Ok (let t := strip (replace "Size:" "" s) in
        if in_set t (VALID_SIZES config) then VStr t else VNone).
Proof. done. Qed.

Lemma transform_size_not_str (v : value) :
  (∀ s, v ≠ VStr s) → transform_size config v = Ok VNone.
Proof.
  intros Hv. unfold transform_size.
  destruct v as [|s|f|n]; simpl; try done.
  - by destruct (Hv s).
  - by destruct (is_nan f).
Qed.

Lemma transform_size_total (v : value) :
  ∃ r, transform_size config v = Ok r ∧ member_or_none (VALID_SIZES config) r.
Proof.
  destruct v as [|s|f|n];
    try (exists VNone; split; [by apply transform_size_not_str | by left]).
  rewrite transform_size_str. eexists; split; [done|]. simpl.
  destruct (in_set _ _) eqn:Hin; [right; eauto | by left].
Qed.

Lemma transform_gender_str (s : string) :
  transform_gender config (VStr s) =
    Ok (let t := strip (replace "Gender:" "" s) in
        if in_set t (VALID_GENDERS config) then VStr t else VNone).
Proof. done. Qed.

Lemma transform_gender_not_str (v : value) :
  (∀ s, v ≠ VStr s) → transform_gender config v = Ok VNone.
Proof.
  intros Hv. unfold transform_gender.
  destruct v as [|s|f|n]; simpl; try done.
  - by destruct (Hv s).
  - by destruct (is_nan f).
Qed.

Lemma transform_gender_total (v : value) :
  ∃ r, transform_gender config v = Ok r ∧ member_or_none (VALID_GENDERS config) r.
Proof.
  destruct v as [|s|f|n];
    try (exists VNone; split; [by apply transform_gender_not_str | by left]).
  rewrite transform_gender_str. eexists; split; [done|]. simpl.
  destruct (in_set _ _) eqn:Hin; [right; eauto | by left].
Qed.

Lemma transform_timestamp_total (v : value) :
  ∃ r, transform_timestamp v = Ok r ∧ str_or_none r.
Proof.
  unfold Transform.transform_timestamp.
  destruct (isna v).
  { exists VNone. split; [done | by left]. }
  destruct (datetime_text v) as [s|]; simpl.
  - exists (VStr s). split; [done | right; eauto].
  - exists VNone. split; [done | by left].
Qed.

End Normalisers.

End TransformFacts.

(** ** Dollar amounts *)

Module AmountFacts.
Import Py Spec PyFacts.

















End AmountFacts.

(** ** Tables *)

Module PandasFacts.
Import Py Pandas PyFacts.

Lemma cell_insert (r : gmap string value) (c c' : string) (v : value) :
  cell (<[c := v]> r) c' = if decide (c = c') then v else cell r c'.
Proof.
  unfold cell. rewrite lookup_insert. by case_decide.
Qed.

Lemma cell_insert_eq (r : gmap string value) (c : string) (v : value) :
  cell (<[c := v]> r) c = v.
Proof. rewrite cell_insert. by case_decide. Qed.

Lemma cell_insert_ne (r : gmap string value) (c c' : string) (v : value) :
  c ≠ c' → cell (<[c := v]> r) c' = cell r c'.
Proof. intros. rewrite cell_insert. by case_decide. Qed.

(** Row by row, [df[c] = df[c].apply(f)] replaces the cell under [c] by the
    image of [f]. *)
Lemma setitem_apply_rows (f : value → result value) (c : string)
    (rs : list (gmap string value)) (series : list value) :
  mapM f (map (fun r => cell r c) rs) = Ok series →
  Forall2 (fun r r' => ∃ v, f (cell r c) = Ok v ∧ r' = <[c := v]> r)
          rs (zip_with (fun r v => <[c := v]> r) rs series).
Proof.
  revert series. induction rs as [|r rs IH]; intros series H; simpl in *.
  - injection H as <-. constructor.
  - destruct (f (cell r c)) as [v|] eqn:Hv; simpl in H; [|done].
    destruct (mapM f _) as [vs|] eqn:Hvs; simpl in H; [|done].
    injection H as <-. simpl. constructor; eauto.
Qed.

Lemma filter_Forall {A} (p : A → bool) (P : A → Prop) (l : list A) :
  Forall P l → Forall P (List.filter p l).
Proof.
  induction 1 as [|x l Hx _ IH]; simpl; [constructor|].
  destruct (p x); auto.
Qed.

Lemma filter_Forall_true {A} (p : A → bool) (l : list A) :
  Forall (fun x => p x = true) (List.filter p l).
Proof.
  induction l as [|x l IH]; simpl; [constructor|].
  destruct (p x) eqn:Hx; auto.
Qed.

Lemma filter_none {A} (p : A → bool) (l : list A) :
  Forall (fun x => p x = false) l → List.filter p l = [].
Proof.
  induction 1 as [|x l Hx _ IH]; simpl; [done|]. by rewrite Hx.
Qed.

Lemma keep_first_Forall (P : gmap string value → Prop) (cs : list string)
    (seen rs : list (gmap string value)) :
  Forall P rs → Forall P (keep_first cs seen rs).
Proof.
  intros H. revert seen. induction H as [|r rs Hr _ IH]; intros seen; simpl.
  - constructor.
  - destruct (existsb _ seen); auto.
Qed.

Lemma dropna_rows (cs : list string) (df : DataFrame) (P : gmap string value → Prop) :
  Forall P (rows df) →
  Forall (fun r => P r ∧ ∀ c, c ∈ cs → isna (cell r c) = false)
         (rows (dropna cs df)).
Proof.
  intros H. unfold dropna; simpl.
  apply Forall_and. split; [by apply filter_Forall|].
  eapply Forall_impl; [apply filter_Forall_true|].
  intros r Hr c Hc. simpl in Hr.
  rewrite forallb_forall in Hr. apply list_elem_of_In in Hc.
  specialize (Hr c Hc). by destruct (isna (cell r c)).
Qed.

Lemma where_ne_rows (c : string) (v : value) (df : DataFrame)
    (P : gmap string value → Prop) :
  Forall P (rows df) →
  Forall (fun r => P r ∧ eqb (cell r c) v = false) (rows (where_ne c v df)).
Proof.
  intros H. unfold where_ne; simpl.
  apply Forall_and. split; [by apply filter_Forall|].
  eapply Forall_impl; [apply filter_Forall_true|].
  intros r Hr. simpl in Hr. by destruct (eqb (cell r c) v).
Qed.

Lemma drop_duplicates_rows (df : DataFrame) (P : gmap string value → Prop) :
  Forall P (rows df) → Forall P (rows (drop_duplicates df)).
Proof. apply keep_first_Forall. Qed.

Lemma wrap32_range (n : Z) : - 2 ^ 31 ≤ wrap32 n < 2 ^ 31.
Proof.
  unfold wrap32. pose proof (Z.mod_pos_bound (n + 2 ^ 31) (2 ^ 32)). lia.
Qed.

End PandasFacts.

(** ** Lists of rows *)

Module RowFacts.
Import Py Pandas Transform Spec Props PyFacts PandasFacts.

Lemma mapM_rows {A B} (f : A → result B) (l : list A) (ys : list B) :
  mapM f l = Ok ys → Forall2 (fun x y => f x = Ok y) l ys.
Proof.
  revert ys. induction l as [|x l IH]; simpl; intros ys H.
  - injection H as <-. constructor.
  - destruct (f x) as [y|] eqn:Hx; simpl in H; [|done].
    destruct (mapM f l) as [ys'|]; simpl in H; [|done].
    injection H as <-. constructor; auto.
Qed.

Lemma filter_sublist {A} (p : A → bool) (l : list A) : List.filter p l `sublist_of` l.
Proof.
  induction l as [|x l IH]; simpl; [constructor|].
  destruct (p x); by constructor.
Qed.

Lemma keep_first_sublist (cs : list string) (seen rs : list (gmap string value)) :
  keep_first cs seen rs `sublist_of` rs.
Proof.
  revert seen. induction rs as [|r rs IH]; intros seen; simpl; [constructor|].
  destruct (existsb _ seen); by constructor.
Qed.

(** A sublist of the images is the image of a sublist. *)
Lemma Forall2_sublist {A B} (R : A → B → Prop) (l : list A) (k k' : list B) :
  Forall2 R l k → k' `sublist_of` k →
  ∃ l', l' `sublist_of` l ∧ Forall2 R l' k'.
Proof.
  intros H. revert k'. induction H as [|x y l k Hxy _ IH]; intros k' Hk.
  - apply sublist_nil_r in Hk as ->. exists []. split; constructor.
  - apply sublist_cons_r in Hk as [Hk | (k'' & -> & Hk)].
    + destruct (IH _ Hk) as (l' & ? & ?). exists l'. split; [by constructor | done].
    + destruct (IH _ Hk) as (l' & ? & ?). exists (x :: l').
      split; by constructor.
Qed.

(** What [keep_first] keeps: every row is kept or counts as a duplicate of
    one seen or kept. *)
Lemma keep_first_represents (cs : list string) (seen rs : list (gmap string value))
    (r : gmap string value) :
  r ∈ rs →
  ∃ k, (k ∈ seen ∨ k ∈ keep_first cs seen rs) ∧ (k = r ∨ same_row cs r k = true).
Proof.
  revert seen. induction rs as [|x rs IH]; intros seen Hr; [by inversion Hr|].
  simpl. apply elem_of_cons in Hr as [-> | Hr].
  - destruct (existsb (same_row cs x) seen) eqn:E.
    + apply existsb_exists in E as (k & Hk & Hsame).
      exists k. split; [left; by apply list_elem_of_In | by right].
    + exists x. split; [right; by left | by left].
  - destruct (existsb (same_row cs x) seen) eqn:E.
    + apply IH; done.
    + destruct (IH (x :: seen) Hr) as (k & [Hk | Hk] & Hsame).
      * apply elem_of_cons in Hk as [-> | Hk].
        -- exists x. split; [right; by left | done].
        -- exists k. split; [by left | done].
      * exists k. split; [right; by right | done].
Qed.

(** ... and no row kept counts as a duplicate of one seen or kept before. *)
Lemma keep_first_no_duplicate (cs : list string) (seen rs : list (gmap string value)) :
  Forall (fun b => ∀ a, a ∈ seen → same_row cs b a = false) (keep_first cs seen rs) ∧
  no_duplicate cs (keep_first cs seen rs).
Proof.
  revert seen. induction rs as [|x rs IH]; intros seen; simpl.
  { split; [constructor|]. intros i j a b _ Hi. by rewrite lookup_nil in Hi. }
  destruct (existsb (same_row cs x) seen) eqn:E; [apply IH|].
  destruct (IH (x :: seen)) as [Hseen Hnd]. split.
  - constructor.
    + intros a Ha. apply not_true_iff_false. intros Hsame.
      apply not_true_iff_false in E. apply E, existsb_exists.
      exists a. split; [by apply list_elem_of_In | done].
    + eapply Forall_impl; [exact Hseen|]. intros b Hb a Ha. apply Hb. by right.
  - intros i j a b Hij Hi Hj. destruct j as [|j]; [lia|]. simpl in Hj.
    destruct i as [|i].
    + simpl in Hi. injection Hi as <-.
      rewrite Forall_forall in Hseen.
      apply (Hseen b); [by eapply list_elem_of_lookup_2 | by left].
    + simpl in Hi. eapply Hnd; [|exact Hi|exact Hj]. lia.
Qed.

Lemma filter_twice {A} (p q : A → bool) (l : list A) :
  List.filter q (List.filter p l) = List.filter (fun x => p x && q x) l.
Proof.
  induction l as [|x l IH]; [done|]. simpl.
  destruct (p x); simpl; [destruct (q x)|]; by rewrite ?IH.
Qed.

Lemma wrap32_small (n : Z) : - 2 ^ 31 ≤ n < 2 ^ 31 → wrap32 n = n.
Proof.
  intros H. unfold wrap32.
  rewrite Z.mod_small by lia. lia.
Qed.

Lemma Forall2_compose {A B C} (R1 : A → B → Prop) (R2 : B → C → Prop)
    (R3 : A → C → Prop) (P : B → Prop) (l : list A) (k : list B) (m : list C) :
  (∀ x y z, R1 x y → P y → R2 y z → R3 x z) →
  Forall2 R1 l k → Forall P k → Forall2 R2 k m → Forall2 R3 l m.
Proof.
  intros H H1. revert m. induction H1 as [|x y l k Hxy _ IH]; intros m HP H2.
  - inversion H2. constructor.
  - inversion H2 as [|? z ? m' Hyz H2']; subst.
    inversion HP; subst. constructor; eauto.
Qed.

Lemma Forall2_elem_r {A B} (R : A → B → Prop) (l : list A) (k : list B) (y : B) :
  Forall2 R l k → y ∈ k → ∃ x, x ∈ l ∧ R x y.
Proof.
  intros H. induction H as [|x y' l k Hxy _ IH]; intros Hy; [by inversion Hy|].
  apply elem_of_cons in Hy as [-> | Hy].
  - exists x. split; [by left | done].
  - destruct (IH Hy) as (x' & ? & ?). exists x'. split; [by right | done].
Qed.

Lemma Forall2_elem_l {A B} (R : A → B → Prop) (l : list A) (k : list B) (x : A) :
  Forall2 R l k → x ∈ l → ∃ y, y ∈ k ∧ R x y.
Proof.
  intros H. induction H as [|x' y l k Hxy _ IH]; intros Hx; [by inversion Hx|].
  apply elem_of_cons in Hx as [-> | Hx].
  - exists y. split; [by left | done].
  - destruct (IH Hx) as (y' & ? & ?). exists y'. split; [by right | done].
Qed.

Lemma elem_of_filter_bool {A} (p : A → bool) (l : list A) (x : A) :
  x ∈ List.filter p l ↔ x ∈ l ∧ p x = true.
Proof.
  rewrite !list_elem_of_In. apply List.filter_In.
Qed.

Lemma sublist_elem_of {A} (l1 l2 : list A) (x : A) :
  l1 `sublist_of` l2 → x ∈ l1 → x ∈ l2.
Proof. intros H Hx. by eapply elem_of_sublist. Qed.

Lemma same_row_cells (cs : list string) (a b a' b' : gmap string value) :
  (∀ c, cell a' c = cell a c) → (∀ c, cell b' c = cell b c) →
  same_row cs b' a' = same_row cs b a.
Proof.
  intros Ha Hb. unfold same_row.
  induction cs as [|c cs IH]; [done|]. simpl. by rewrite Ha, Hb, IH.
Qed.

Lemma fits_int32_range (n : Z) : fits_int32 n = true ↔ - 2 ^ 31 ≤ n < 2 ^ 31.
Proof. unfold fits_int32. rewrite andb_true_iff, Z.leb_le, Z.ltb_lt. done. Qed.

End RowFacts.

(** ** The record cleaner *)

Module CleanerFacts.
Import Py Pandas Transform Spec Props PyFacts PandasFacts TransformFacts RowFacts.

Lemma Forall2_image {A B} (R : A → B → Prop) (P : A → Prop) (Q : B → Prop)
    (l : list A) (k : list B) :
  Forall2 R l k → (∀ x y, R x y → P x → Q y) → Forall P l → Forall Q k.
Proof.
  intros H HR. induction H as [|x y l k Hxy _ IH]; intros HP.
  - constructor.
  - apply Forall_cons in HP as [Hx HP]. constructor; eauto.
Qed.

Lemma mapM_Forall_total {A B} (f : A → result B) (Q : B → Prop) (l : list A) :
  Forall (fun x => ∃ y, f x = Ok y ∧ Q y) l →
  ∃ ys, mapM f l = Ok ys ∧ Forall Q ys.
Proof.
  induction 1 as [|x l (y & Hy & HQ) _ (ys & Hys & HQs)]; simpl.
  - exists []. split; [done | constructor].
  - rewrite Hy. simpl. rewrite Hys. simpl. exists (y :: ys).
    split; [done | by constructor].
Qed.

Lemma apply_column_image (c : string) (f : value → result value) (d d' : DataFrame) :
  apply_column c f d = Ok d' →
  columns d' = (if has_column d c then columns d else (columns d ++ [c])%list) ∧
  Forall2 (fun r r' => ∃ v, f (cell r c) = Ok v ∧ r' = <[c := v]> r)
          (rows d) (rows d').
Proof.
  unfold apply_column, apply, getitem. intros H.
  destruct (mapM f _) as [series|] eqn:Hs; simpl in H; [|done].
  injection H as <-. simpl. split; [done|]. by apply setitem_apply_rows.
Qed.

Lemma apply_column_total (c : string) (f : value → result value) (d : DataFrame) :
  (∀ v, ∃ r, f v = Ok r) → ∃ d', apply_column c f d = Ok d'.
Proof.
  intros Hf. unfold apply_column, apply.
  destruct (mapM_total f (getitem d c) Hf) as [series ->]. simpl. eauto.
Qed.

Lemma has_required_columns (d : DataFrame) (c : string) :
  forallb (has_column d) required_columns = true →
  c ∈ required_columns → has_column d c = true.
Proof.
  rewrite forallb_forall. intros H Hc. apply H. by apply list_elem_of_In.
Qed.

Ltac cells :=
  repeat first [ rewrite cell_insert_eq | rewrite cell_insert_ne by done ].

Lemma transform_colors_nonneg (v : value) (n : Z) :
  transform_colors v = Ok (VInt n) → 0 ≤ n.
Proof.
  destruct v as [|s|f|k];
    try (rewrite transform_colors_not_str by (intros; discriminate); discriminate).
  unfold transform_colors. cbn [isna str_method bind].
  destruct (split_ws s) as [|w ws]; cbn [item0 bind try_except existsb exn_eqb orb];
    [discriminate|].
  destruct (isdigit w) eqn:Hw; cbn [try_except]; [|discriminate].
  unfold int. rewrite Hw.
  destruct (String.length w <=? max_str_digits)%nat;
    cbn [bind try_except existsb exn_eqb orb]; [|discriminate].
  intros H. injection H as <-.
  assert (∀ s acc, all_digits s = true → 0 ≤ acc →
                   0 ≤ digits_value acc (list_ascii_of_string s)) as Hd.
  { clear. induction s as [|c s IH]; intros acc H Hacc; simpl in *; [done|].
    apply andb_true_iff in H as [Hc Hs]. apply IH; [done|].
    unfold is_digit, in_range, digit_val in *.
    apply andb_true_iff in Hc as [H1 H2]. apply N.leb_le in H1, H2. lia. }
  apply Hd; [by destruct w | lia].
Qed.

Lemma complete_cells (r : gmap string value) :
  complete r = true →
  (∀ c, c ∈ dropna_subset → isna (cell r c) = false) ∧
  eqb (cell r "Title") (VStr "Unknown Product") = false.
Proof.
  unfold complete. intros [Hna Hne]%andb_true_iff. split.
  - rewrite forallb_forall in Hna. intros c Hc. apply list_elem_of_In in Hc.
    by apply negb_true_iff, Hna.
  - by apply negb_true_iff.
Qed.

(** What [astype] makes of a complete normalised row, when it returns: the
    row with its count as an [int32]. *)
Lemma astype_row_image (config : TransformConfig) (narrow : Z → result Z)
    (r r' : gmap string value) :
  normalised config r → complete r = true →
  astype_row narrow final_types r = Ok r' →
  ∃ n m, cell r "Colors" = VInt n ∧
    (if fits_int32 n then m = n else ∃ k, narrow n = Ok k ∧ m = wrap32 k) ∧
    ∀ c, cell r' c = if decide (c = "Colors") then VInt m else cell r c.
Proof.
  intros (Hp & Hr & Hc & Hs & Hg & Ht) [Hna _]%complete_cells.
  assert (∀ c, c ∈ dropna_subset → cell r c ≠ VNone) as Hnn.
  { intros c Hc' E. specialize (Hna c Hc'). by rewrite E in Hna. }
  destruct Hp as [E | [p Ep]]; [by destruct (Hnn "Price"); [set_solver|]|].
  destruct Hr as [E | [q Eq]]; [by destruct (Hnn "Rating"); [set_solver|]|].
  destruct Hc as [E | [n En]]; [by destruct (Hnn "Colors"); [set_solver|]|].
  unfold astype_row, final_types. cbn [fold_left fst snd bind astype_cell].
  cells. rewrite Ep. cbn [bind astype_cell].
  cells. rewrite Eq. cbn [bind astype_cell].
  cells. rewrite En. cbn [bind astype_cell].
  destruct (fits_int32 n) eqn:Hfit; cbn [bind].
  - cells.
    destruct Ht as [Et | [t Et]]; rewrite Et; cbn [bind astype_cell];
      intros H; injection H as <-; exists n, n; (split; [done|]);
      rewrite Hfit; (split; [done|]);
      intros c; rewrite !cell_insert; repeat case_decide; simplify_eq; done.
  - destruct (narrow n) as [k|e] eqn:Hk; cbn [bind]; [|discriminate].
    cells.
    destruct Ht as [Et | [t Et]]; rewrite Et; cbn [bind astype_cell];
      intros H; injection H as <-; exists n, (wrap32 k); (split; [done|]);
      rewrite Hfit; (split; [by exists k|]);
      intros c; rewrite !cell_insert; repeat case_decide; simplify_eq; done.
Qed.

Lemma astype_row_cleaned (config : TransformConfig) (narrow : Z → result Z)
    (r r' : gmap string value) :
  normalised config r → complete r = true →
  astype_row narrow final_types r = Ok r' → cleaned config r'.
Proof.
  intros Hn Hc Hr'.
  destruct (astype_row_image config narrow r r' Hn Hc Hr') as (n & m & En & Hm & Hcells).
  destruct Hn as (Hp & Hr & _ & Hs & Hg & _).
  destruct (complete_cells r Hc) as [Hna Hne].
  pose proof (Hna "Title" ltac:(set_solver)) as Htitle.
  pose proof (Hna "Price" ltac:(set_solver)) as Hprice.
  pose proof (Hna "Rating" ltac:(set_solver)) as Hrating.
  pose proof (Hna "Size" ltac:(set_solver)) as Hsize.
  pose proof (Hna "Gender" ltac:(set_solver)) as Hgender.
  unfold cleaned. rewrite !Hcells. repeat (case_decide; [done|]).
  case_decide; [|done].
  split; [done|]. split; [done|].
  split. { destruct Hp as [E | [p Ep]]; [by rewrite E in Hprice|].
           rewrite Ep in Hprice |- *. eauto. }
  split. { destruct Hr as [E | [q Eq]]; [by rewrite E in Hrating|].
           rewrite Eq in Hrating |- *. eauto. }
  split. { exists m. split; [done|]. destruct (fits_int32 n) eqn:Hfit.
           - subst m. by apply fits_int32_range.
           - destruct Hm as (k & _ & ->). apply wrap32_range. }
  split.
  - destruct Hs as [E | (s & Es & Hs)]; [by rewrite E in Hsize | eauto].
  - destruct Hg as [E | (g & Eg & Hg)]; [by rewrite E in Hgender | eauto].
Qed.

(** A count that is an [int32] passes as it is. *)
Lemma astype_row_fits (config : TransformConfig) (narrow : Z → result Z)
    (r : gmap string value) :
  normalised config r → complete r = true →
  (∀ n, cell r "Colors" = VInt n → fits_int32 n = true) →
  ∃ r', astype_row narrow final_types r = Ok r' ∧ ∀ c, cell r' c = cell r c.
Proof.
  intros (Hp & Hr & Hc & Hs & Hg & Ht) [Hna _]%complete_cells Hfit.
  assert (∀ c, c ∈ dropna_subset → cell r c ≠ VNone) as Hnn.
  { intros c Hc' E. specialize (Hna c Hc'). by rewrite E in Hna. }
  destruct Hp as [E | [p Ep]]; [by destruct (Hnn "Price"); [set_solver|]|].
  destruct Hr as [E | [q Eq]]; [by destruct (Hnn "Rating"); [set_solver|]|].
  destruct Hc as [E | [n En]]; [by destruct (Hnn "Colors"); [set_solver|]|].
  unfold astype_row, final_types. cbn [fold_left fst snd bind astype_cell].
  cells. rewrite Ep. cbn [bind astype_cell].
  cells. rewrite Eq. cbn [bind astype_cell].
  cells. rewrite En. cbn [bind astype_cell].
  rewrite (Hfit n En). cbn [bind]. cells.
  destruct Ht as [Et | [t Et]]; rewrite Et; cbn [bind astype_cell];
    (eexists; split; [done|]);
    intros c; rewrite !cell_insert; repeat case_decide; simplify_eq; done.
Qed.

Section Cleaner.

Variable float_text : spec_float → string.
Variable datetime_text : value → option string.
Variable int32_overflow : DataFrame → Z → result Z.
Variable config : TransformConfig.

Local Abbreviation transform_rating := (transform_rating float_text).
Local Abbreviation transform_timestamp := (transform_timestamp datetime_text).
Local Abbreviation transform_dataframe :=
  (transform_dataframe float_text datetime_text int32_overflow config).
Local Abbreviation applied := (applied float_text datetime_text config).

(** The six assignments succeed and replace, in every row, each of the six
    cells by the image of its normaliser; [k] is the rest of the function. *)
Lemma six_assignments (df : DataFrame) (k : DataFrame → result DataFrame) :
  ∃ d6,
    (df_cleaned ←' apply_column "Price" (transform_price config) df ;;
     df_cleaned ←' apply_column "Rating" transform_rating df_cleaned ;;
     df_cleaned ←' apply_column "Colors" transform_colors df_cleaned ;;
     df_cleaned ←' apply_column "Size" (transform_size config) df_cleaned ;;
     df_cleaned ←' apply_column "Gender" (transform_gender config) df_cleaned ;;
     df_cleaned ←' apply_column "timestamp" transform_timestamp df_cleaned ;;
     k df_cleaned) = k d6 ∧
    Forall2 applied (rows df) (rows d6) ∧
    (forallb (has_column df) required_columns = true → columns d6 = columns df).
Proof.
  destruct (apply_column_total "Price" (transform_price config) df) as [d1 H1].
  { intros v. destruct (transform_price_total config v) as (r & ? & _); eauto. }
  destruct (apply_column_total "Rating" transform_rating d1) as [d2 H2].
  { intros v. destruct (transform_rating_total float_text v) as (r & ? & _); eauto. }
  destruct (apply_column_total "Colors" transform_colors d2) as [d3 H3].
  { intros v. destruct (transform_colors_total v) as (r & ? & _); eauto. }
  destruct (apply_column_total "Size" (transform_size config) d3) as [d4 H4].
  { intros v. destruct (transform_size_total config v) as (r & ? & _); eauto. }
  destruct (apply_column_total "Gender" (transform_gender config) d4) as [d5 H5].
  { intros v. destruct (transform_gender_total config v) as (r & ? & _); eauto. }
  destruct (apply_column_total "timestamp" transform_timestamp d5) as [d6 H6].
  { intros v. destruct (transform_timestamp_total datetime_text v) as (r & ? & _); eauto. }
  exists d6.
  rewrite H1; cbn [bind]. rewrite H2; cbn [bind]. rewrite H3; cbn [bind].
  rewrite H4; cbn [bind]. rewrite H5; cbn [bind]. rewrite H6; cbn [bind].
  destruct (apply_column_image _ _ _ _ H1) as [C1 R1].
  destruct (apply_column_image _ _ _ _ H2) as [C2 R2].
  destruct (apply_column_image _ _ _ _ H3) as [C3 R3].
  destruct (apply_column_image _ _ _ _ H4) as [C4 R4].
  destruct (apply_column_image _ _ _ _ H5) as [C5 R5].
  destruct (apply_column_image _ _ _ _ H6) as [C6 R6].
  split; [done|]. split.
  - clear C1 C2 C3 C4 C5 C6 H1 H2 H3 H4 H5 H6.
    revert R1 R2 R3 R4 R5 R6.
    generalize (rows df) (rows d1) (rows d2) (rows d3) (rows d4) (rows d5) (rows d6).
    intros l0 l1 l2 l3 l4 l5 l6 R1. revert l2 l3 l4 l5 l6.
    induction R1 as [|r0 r1 l0 l1 (v1 & E1 & ->) _ IH];
      intros l2 l3 l4 l5 l6 R2 R3 R4 R5 R6.
    + inversion R2; subst. inversion R3; subst. inversion R4; subst.
      inversion R5; subst. inversion R6; subst. constructor.
    + inversion R2 as [|? r2 ? l2' (v2 & E2 & ->) R2']; subst.
      inversion R3 as [|? r3 ? l3' (v3 & E3 & ->) R3']; subst.
      inversion R4 as [|? r4 ? l4' (v4 & E4 & ->) R4']; subst.
      inversion R5 as [|? r5 ? l5' (v5 & E5 & ->) R5']; subst.
      inversion R6 as [|? r6 ? l6' (v6 & E6 & ->) R6']; subst.
      constructor; [|by eapply IH].
      revert E2 E3 E4 E5 E6. cells. intros.
      exists v1, v2, v3, v4, v5, v6. done.
  - intros Hcols.
    assert (∀ c, c ∈ required_columns → has_column df c = true) as Hreq
      by (intros; by apply has_required_columns).
    unfold has_column in *.
    rewrite (Hreq "Price") in C1 by set_solver. rewrite C1 in C2.
    rewrite (Hreq "Rating") in C2 by set_solver. rewrite C2 in C3.
    rewrite (Hreq "Colors") in C3 by set_solver. rewrite C3 in C4.
    rewrite (Hreq "Size") in C4 by set_solver. rewrite C4 in C5.
    rewrite (Hreq "Gender") in C5 by set_solver. rewrite C5 in C6.
    rewrite (Hreq "timestamp") in C6 by set_solver. done.
Qed.

Lemma applied_normalised (r r' : gmap string value) :
  applied r r' → normalised config r'.
Proof.
  intros (v1 & v2 & v3 & v4 & v5 & v6 & E1 & E2 & E3 & E4 & E5 & E6 & ->).
  destruct (transform_price_total config (cell r "Price")) as (? & E & ?).
  rewrite E1 in E; injection E as <-.
  destruct (transform_rating_total float_text (cell r "Rating")) as (? & E & ?).
  rewrite E2 in E; injection E as <-.
  destruct (transform_colors_total (cell r "Colors")) as (? & E & ?).
  rewrite E3 in E; injection E as <-.
  destruct (transform_size_total config (cell r "Size")) as (? & E & ?).
  rewrite E4 in E; injection E as <-.
  destruct (transform_gender_total config (cell r "Gender")) as (? & E & ?).
  rewrite E5 in E; injection E as <-.
  destruct (transform_timestamp_total datetime_text (cell r "timestamp")) as (? & E & ?).
  rewrite E6 in E; injection E as <-.
  unfold normalised. by cells.
Qed.

(** The normalisers are functions: a row has one image. *)
Lemma applied_functional (r a b : gmap string value) :
  applied r a → applied r b → a = b.
Proof.
  intros (v1 & v2 & v3 & v4 & v5 & v6 & E1 & E2 & E3 & E4 & E5 & E6 & ->)
         (w1 & w2 & w3 & w4 & w5 & w6 & F1 & F2 & F3 & F4 & F5 & F6 & ->).
  congruence.
Qed.

(** The six columns the normalisers rewrite. *)
Lemma applied_other_cells (r r6 : gmap string value) (c : string) :
  applied r r6 →
  c ∉ ["Price"; "Rating"; "Colors"; "Size"; "Gender"; "timestamp"] →
  cell r6 c = cell r c.
Proof.
  intros (v1 & v2 & v3 & v4 & v5 & v6 & _ & _ & _ & _ & _ & _ & ->) Hc.
  rewrite !cell_insert.
  repeat (case_decide; [subst c; exfalso; apply Hc; set_solver|]). done.
Qed.

Lemma applied_count (r r6 : gmap string value) :
  applied r r6 → transform_colors (cell r "Colors") = Ok (cell r6 "Colors").
Proof.
  intros (v1 & v2 & v3 & v4 & v5 & v6 & _ & _ & E & _ & _ & _ & ->).
  by cells.
Qed.

(** On a table with rows and the seven columns, the cleaner is the
    conversion of the rows kept, under the columns of its input. *)
Lemma transform_dataframe_stages (df : DataFrame) :
  missing_input df = false →
  ∃ d6, Forall2 applied (rows df) d6 ∧
    transform_dataframe df =
      astype (int32_overflow df) final_types
        {| columns := columns df; rows := kept_of df d6 |}.
Proof.
  intros Hmiss. unfold Transform.transform_dataframe. rewrite Hmiss.
  unfold missing_input in Hmiss. apply orb_false_elim in Hmiss as [_ Hcols].
  apply negb_false_iff in Hcols.
  match goal with |- context [astype ?n ?ts (drop_duplicates (where_ne ?c ?v (dropna ?cs _)))] =>
    destruct (six_assignments df
      (fun d => astype n ts (drop_duplicates (where_ne c v (dropna cs d)))))
      as (d6 & -> & Happ & Hc6)
  end.
  specialize (Hc6 Hcols). exists (rows d6). split; [done|].
  unfold drop_duplicates, where_ne, dropna, kept_of. cbn [rows columns].
  by rewrite filter_twice, Hc6.
Qed.

Lemma kept_of_rows (df : DataFrame) (d6 : list (gmap string value)) :
  Forall2 applied (rows df) d6 →
  kept_of df d6 `sublist_of` d6 ∧
  Forall (fun r6 => complete r6 = true ∧ normalised config r6 ∧
                    ∃ r, r ∈ rows df ∧ applied r r6) (kept_of df d6).
Proof.
  intros Happ.
  assert (kept_of df d6 `sublist_of` d6) as Hsub.
  { unfold kept_of. etrans; [apply keep_first_sublist | apply filter_sublist]. }
  split; [done|]. apply Forall_forall. intros r6 Hr6.
  pose proof (sublist_elem_of _ _ _ Hsub Hr6) as Hin.
  destruct (Forall2_elem_r _ _ _ _ Happ Hin) as (r & Hr & Hrr6).
  split; [|split; [by eapply applied_normalised | eauto]].
  unfold kept_of in Hr6.
  eapply sublist_elem_of in Hr6; [|apply keep_first_sublist].
  by apply elem_of_filter_bool in Hr6 as [_ ?].
Qed.

(** On an empty table, or one without the seven columns, the answer is the
    empty table with exactly the seven columns. *)
Lemma transform_dataframe_missing (df : DataFrame) :
  missing_input df = true →
  transform_dataframe df = Ok (DataFrame_columns required_columns).
Proof.
  intros H. unfold Transform.transform_dataframe. by rewrite H.
Qed.

(** What a table returned is made of: its rows are, one for one and in
    order, the conversions of the rows kept. *)
Lemma transform_dataframe_returned (df t : DataFrame) :
  missing_input df = false → transform_dataframe df = Ok t →
  ∃ d6, Forall2 applied (rows df) d6 ∧ columns t = columns df ∧
    Forall2 (fun r6 r' => astype_row (int32_overflow df) final_types r6 = Ok r')
            (kept_of df d6) (rows t).
Proof.
  intros Hmiss Ht.
  destruct (transform_dataframe_stages df Hmiss) as (d6 & Happ & E).
  rewrite E in Ht. unfold astype in Ht. cbn [rows columns] in Ht.
  destruct (mapM _ _) as [rs|] eqn:Hrs; cbn [bind] in Ht; [|discriminate].
  injection Ht as <-. exists d6. split; [done|]. split; [done|].
  by apply mapM_rows.
Qed.

(** Every table the cleaner returns has cleaned rows only. *)
Lemma transform_dataframe_cleaned (df t : DataFrame) :
  transform_dataframe df = Ok t → Forall (cleaned config) (rows t).
Proof.
  intros Ht. destruct (missing_input df) eqn:Hmiss.
  { rewrite transform_dataframe_missing in Ht by done. injection Ht as <-.
    constructor. }
  destruct (transform_dataframe_returned df t Hmiss Ht) as (d6 & Happ & _ & Hrows).
  destruct (kept_of_rows df d6 Happ) as [_ Hkept].
  eapply Forall2_image; [exact Hrows| |exact Hkept].
  intros r6 r' Hr' (Hc & Hn & _). cbn beta in Hr'.
  exact (astype_row_cleaned config _ r6 r' Hn Hc Hr').
Qed.

(** When the counts are [int32]s, the cleaner returns, and the rows kept
    pass the conversion as they are. *)
Lemma transform_dataframe_fits (df : DataFrame) :
  counts_fit df → missing_input df = false →
  ∃ d6 t, Forall2 applied (rows df) d6 ∧
    transform_dataframe df = Ok t ∧ columns t = columns df ∧
    Forall2 (fun r6 r' => ∀ c, cell r' c = cell r6 c) (kept_of df d6) (rows t).
Proof.
  intros Hfit Hmiss.
  destruct (transform_dataframe_stages df Hmiss) as (d6 & Happ & E).
  destruct (kept_of_rows df d6 Happ) as [_ Hkept].
  assert (∃ rs, mapM (astype_row (int32_overflow df) final_types) (kept_of df d6) = Ok rs ∧
                Forall2 (fun r6 r' => ∀ c, cell r' c = cell r6 c) (kept_of df d6) rs)
    as (rs & Hrs & Hcells).
  { revert Hkept. generalize (kept_of df d6). intros l Hl.
    induction Hl as [|r6 l (Hc & Hn & r & Hr & Hrr6) _ (rs & Hrs & Hcells)].
    { exists []. split; [done | constructor]. }
    destruct (astype_row_fits config (int32_overflow df) r6 Hn Hc) as (r' & Hr' & Hsame).
    { intros n En. apply fits_int32_range.
      pose proof (applied_count _ _ Hrr6) as Hcount. rewrite En in Hcount.
      unfold counts_fit in Hfit. rewrite Forall_forall in Hfit.
      pose proof (Hfit r Hr n Hcount).
      pose proof (transform_colors_nonneg _ _ Hcount). lia. }
    exists (r' :: rs). cbn [mapM]. rewrite Hr', Hrs. cbn [bind].
    split; [done | by constructor]. }
  exists d6. eexists. split; [done|]. rewrite E. unfold astype. cbn [rows columns].
  rewrite Hrs. cbn [bind]. split; [done|]. split; [done|]. exact Hcells.
Qed.

(** Typed cells are not text: a cleaned row loses its price to the
    normaliser, and with it its place in the table. *)
Lemma cleaned_row_dropped (r r' : gmap string value) :
  cleaned config r → applied r r' → complete r' = false.
Proof.
  intros (_ & _ & (f & Hf & _) & _)
         (v1 & v2 & v3 & v4 & v5 & v6 & E1 & _ & _ & _ & _ & _ & ->).
  rewrite Hf in E1. rewrite transform_price_not_str in E1 by (intros; discriminate).
  injection E1 as <-.
  unfold complete, dropna_subset. cbn [forallb]. cells.
  by destruct (isna (cell r "Title")).
Qed.

Lemma transform_dataframe_again (t : DataFrame) :
  Forall (cleaned config) (rows t) →
  ∃ t', transform_dataframe t = Ok t' ∧ rows t' = [].
Proof.
  intros Hcl. destruct (missing_input t) eqn:Hmiss.
  { rewrite transform_dataframe_missing by done. eauto. }
  destruct (transform_dataframe_stages t Hmiss) as (d6 & Happ & ->).
  assert (kept_of t d6 = []) as ->.
  { unfold kept_of. rewrite filter_none; [done|].
    eapply Forall2_image; [exact Happ| |exact Hcl].
    intros r r' Hr Hc. by eapply cleaned_row_dropped. }
  unfold astype. cbn. eauto.
Qed.

End Cleaner.

End CleanerFacts.

(** ** The cleaner on table objects *)

Module HeapFacts.
Import Py Pandas Transform Spec PyFacts PandasFacts TransformFacts CleanerFacts.

(** Throughout, [h0] is the heap at the call: the run may extend it and may
    change the objects it made itself, which are those [h0] does not hold. *)

Lemma bindM_run {A B} (m : M A) (k : A → M B) (h : gmap loc DataFrame) :
  bindM m k h = match m h with
                | (Ok a, h') => k a h'
                | (Raise e, h') => (Raise e, h')
                end.
Proof. done. Qed.

Lemma new_spec (h0 h : gmap loc DataFrame) (d : DataFrame) :
  h0 ⊆ h →
  ∃ l h', new d h = (Ok l, h') ∧ h0 ⊆ h' ∧ h0 !! l = None ∧ h' !! l = Some d.
Proof.
  intros Hsub. unfold new.
  pose proof (is_fresh (dom h)) as Hfresh.
  apply not_elem_of_dom in Hfresh.
  assert (h0 !! fresh (dom h) = None) as H0
    by (eapply lookup_weaken_None; eauto).
  eexists _, _. split; [done|]. split; [|split; [done|]].
  - by apply insert_subseteq_r.
  - by rewrite lookup_insert_eq.
Qed.

Lemma call_spec (h0 h : gmap loc DataFrame) (l : loc) (d : DataFrame)
    (method : DataFrame → result DataFrame) :
  h0 ⊆ h → h !! l = Some d →
  match method d with
  | Ok d' => ∃ l' h', call l method h = (Ok l', h') ∧ h0 ⊆ h' ∧
                      h0 !! l' = None ∧ h' !! l' = Some d'
  | Raise e => call l method h = (Raise e, h)
  end.
Proof.
  intros Hsub Hl. unfold call, bindM, deref, lift. rewrite Hl.
  destruct (method d) as [d'|e]; [|done].
  destruct (new_spec h0 h d' Hsub) as (l' & h' & -> & ? & ? & ?). eauto 10.
Qed.

Lemma assign_column_spec (h0 h : gmap loc DataFrame) (l : loc) (d : DataFrame)
    (c : string) (f : value → result value) :
  h0 ⊆ h → h0 !! l = None → h !! l = Some d →
  match apply_column c f d with
  | Ok d' => ∃ h', assign_column l c f h = (Ok tt, h') ∧ h0 ⊆ h' ∧ h' !! l = Some d'
  | Raise e => assign_column l c f h = (Raise e, h)
  end.
Proof.
  intros Hsub H0 Hl. unfold assign_column, apply_column, bindM, deref, lift, update.
  rewrite Hl. destruct (apply f (getitem d c)) as [series|e]; simpl; [|done].
  eexists. split; [done|]. split.
  - by apply insert_subseteq_r.
  - by rewrite lookup_insert_eq.
Qed.

Section OnObjects.

Variable float_text : spec_float → string.
Variable datetime_text : value → option string.
Variable int32_overflow : DataFrame → Z → result Z.
Variable config : TransformConfig.

Local Abbreviation transform_dataframe :=
  (transform_dataframe float_text datetime_text int32_overflow config).
Local Abbreviation transform_dataframe_on :=
  (transform_dataframe_on float_text datetime_text int32_overflow config).

(** The run on objects returns a new object holding the table
    [transform_dataframe] computes, or raises as it does, and leaves every
    object of the heap it started from as it was. *)
Lemma transform_dataframe_on_spec (h : gmap loc DataFrame) (df : loc) (d : DataFrame) :
  h !! df = Some d →
  ∃ r h', transform_dataframe_on df h = (r, h') ∧ h ⊆ h' ∧
    match r with
    | Ok l => h !! l = None ∧
              ∃ t, transform_dataframe d = Ok t ∧ h' !! l = Some t
    | Raise e => transform_dataframe d = Raise e
    end.
Proof.
  intros Hdf.
  unfold Transform.transform_dataframe_on, Transform.transform_dataframe.
  rewrite bindM_run. unfold deref at 1. rewrite Hdf.
  destruct (missing_input d).
  { destruct (new_spec h h (DataFrame_columns required_columns))
      as (l & h' & E & ? & ? & ?); [done|].
    exists (Ok l), h'. eauto 10. }
  destruct (apply_column_total "Price" (transform_price config) d) as [d1 E1].
  { intros v. destruct (transform_price_total config v) as (r & ? & _); eauto. }
  destruct (apply_column_total "Rating" (transform_rating float_text) d1) as [d2 E2].
  { intros v. destruct (transform_rating_total float_text v) as (r & ? & _); eauto. }
  destruct (apply_column_total "Colors" transform_colors d2) as [d3 E3].
  { intros v. destruct (transform_colors_total v) as (r & ? & _); eauto. }
  destruct (apply_column_total "Size" (transform_size config) d3) as [d4 E4].
  { intros v. destruct (transform_size_total config v) as (r & ? & _); eauto. }
  destruct (apply_column_total "Gender" (transform_gender config) d4) as [d5 E5].
  { intros v. destruct (transform_gender_total config v) as (r & ? & _); eauto. }
  destruct (apply_column_total "timestamp" (transform_timestamp datetime_text) d5)
    as [d6 E6].
  { intros v. destruct (transform_timestamp_total datetime_text v) as (r & ? & _); eauto. }
  rewrite E1; cbn [bind]. rewrite E2; cbn [bind]. rewrite E3; cbn [bind].
  rewrite E4; cbn [bind]. rewrite E5; cbn [bind]. rewrite E6; cbn [bind].
  (* [df.copy()] *)
  rewrite bindM_run. unfold copy.
  pose proof (call_spec h h df d Ok (reflexivity h) Hdf) as Hcopy. cbn beta iota in Hcopy.
  destruct Hcopy as (l1 & h1 & -> & Hs1 & Hf1 & Hl1).
  (* the six assignments, on the copy *)
  rewrite bindM_run.
  pose proof (assign_column_spec h h1 l1 d "Price" (transform_price config) Hs1 Hf1 Hl1) as A.
  rewrite E1 in A. destruct A as (h2 & -> & Hs2 & Hl2).
  rewrite bindM_run.
  pose proof (assign_column_spec h h2 l1 d1 "Rating" (transform_rating float_text)
                Hs2 Hf1 Hl2) as A.
  rewrite E2 in A. destruct A as (h3 & -> & Hs3 & Hl3).
  rewrite bindM_run.
  pose proof (assign_column_spec h h3 l1 d2 "Colors" transform_colors Hs3 Hf1 Hl3) as A.
  rewrite E3 in A. destruct A as (h4 & -> & Hs4 & Hl4).
  rewrite bindM_run.
  pose proof (assign_column_spec h h4 l1 d3 "Size" (transform_size config) Hs4 Hf1 Hl4) as A.
  rewrite E4 in A. destruct A as (h5 & -> & Hs5 & Hl5).
  rewrite bindM_run.
  pose proof (assign_column_spec h h5 l1 d4 "Gender" (transform_gender config)
                Hs5 Hf1 Hl5) as A.
  rewrite E5 in A. destruct A as (h6 & -> & Hs6 & Hl6).
  rewrite bindM_run.
  pose proof (assign_column_spec h h6 l1 d5 "timestamp"
                (transform_timestamp datetime_text) Hs6 Hf1 Hl6) as A.
  rewrite E6 in A. destruct A as (h7 & -> & Hs7 & Hl7).
  (* the four methods, each on the object the one before returned *)
  rewrite bindM_run.
  pose proof (call_spec h h7 l1 d6 (fun d => Ok (dropna dropna_subset d)) Hs7 Hl7) as C.
  cbn beta iota in C. destruct C as (l2 & h8 & -> & Hs8 & Hf2 & Hl8).
  rewrite bindM_run.
  pose proof (call_spec h h8 l2 _
                (fun d => Ok (where_ne "Title" (VStr "Unknown Product") d)) Hs8 Hl8) as C.
  cbn beta iota in C. destruct C as (l3 & h9 & -> & Hs9 & Hf3 & Hl9).
  rewrite bindM_run.
  pose proof (call_spec h h9 l3 _ (fun d => Ok (drop_duplicates d)) Hs9 Hl9) as C.
  cbn beta iota in C. destruct C as (l4 & h10 & -> & Hs10 & Hf4 & Hl10).
  rewrite bindM_run.
  pose proof (call_spec h h10 l4 _ (astype (int32_overflow d) final_types)
                Hs10 Hl10) as C.
  destruct (astype (int32_overflow d) final_types _) as [t|e].
  - destruct C as (l5 & h11 & -> & Hs11 & Hf5 & Hl11).
    exists (Ok l5), h11. unfold ret. eauto 10.
  - rewrite C. exists (Raise e), h10. eauto.
Qed.

End OnObjects.

End HeapFacts.

(** ** The card parser *)

Module CardFacts.
Import Py Pandas Extract Spec PyFacts.

Lemma key_inj (f g : field) : key f = key g → f = g.
Proof. by destruct f, g. Qed.

Lemma field_eqb_eq (f g : field) : field_eqb f g = true ↔ f = g.
Proof. by destruct f, g. Qed.

(** One paragraph sets the field it is classified for and no other. *)
Lemma paragraph_step_classify (info : gmap string value) (p : string) :
  paragraph_step info p =
    Ok (match classify (strip p) with
        | Some f => <[key f := VStr (field_text f (strip p))]> info
        | None => info
        end).
Proof.
  unfold paragraph_step, classify, fields. cbn [List.find trigger].
  destruct (contains "Rating:" (strip p)).
  { pose proof (split_slash_item0
                  (replace "Rating:" "" (replace "⭐" "" (strip p)))) as H.
    destruct (split "/" _) as [parts|]; simpl in H; [|done].
    cbn [bind]. rewrite H. done. }
  destruct (contains "Colors" (strip p)); [done|].
  destruct (contains "Size:" (strip p)); [done|].
  destruct (contains "Gender:" (strip p)); done.
Qed.

Lemma last_filter_cons {A} (q : A → bool) (x : A) (l : list A) :
  last (List.filter q (x :: l)) =
    match last (List.filter q l) with
    | Some y => Some y
    | None => if q x then Some x else None
    end.
Proof.
  simpl. destruct (q x); [|by destruct (last _)].
  destruct (List.filter q l) as [|y l'] eqn:E; [done|].
  rewrite last_cons. by destruct (last (y :: l')).
Qed.

Lemma for_each_paragraphs (ps : list string) (info : gmap string value) :
  ∃ info', for_each paragraph_step info ps = Ok info' ∧
    ∀ f, info' !! key f =
           match last (List.filter (is_for f) ps) with
           | Some p => Some (VStr (field_text f (strip p)))
           | None => info !! key f
           end.
Proof.
  revert info. induction ps as [|p ps IH]; intros info.
  { exists info. split; [done|]. intros f. done. }
  cbn [for_each]. rewrite paragraph_step_classify. cbn [bind].
  destruct (IH (match classify (strip p) with
                | Some f => <[key f := VStr (field_text f (strip p))]> info
                | None => info
                end)) as (info' & -> & Hinfo).
  exists info'. split; [done|]. intros f.
  rewrite Hinfo, last_filter_cons.
  destruct (last (List.filter (is_for f) ps)); [done|].
  unfold is_for. destruct (classify (strip p)) as [g|]; [|done].
  destruct (field_eqb f g) eqn:E.
  - apply field_eqb_eq in E as ->. by rewrite lookup_insert_eq.
  - rewrite lookup_insert_ne; [done|].
    intros Heq%key_inj. rewrite Heq in E. by destruct f.
Qed.

Lemma get_additional_info_fields (details : product_details) :
  ∃ info, _get_additional_info details = Ok info ∧
    ∀ f, info !! key f = Some (field_value f (paragraphs details)).
Proof.
  unfold _get_additional_info.
  destruct (for_each_paragraphs (paragraphs details) initial_info)
    as (info & -> & Hinfo).
  exists info. split; [done|]. intros f. rewrite Hinfo. unfold field_value.
  destruct (last _); [done|]. by destruct f.
Qed.

End CardFacts.

(** ** The page chunks *)

Module ChunkFacts.
Import Py Pandas Extract Spec PyFacts.

Lemma ceil_div_floor (a b : Z) :
  0 < b → a / b + int_of_bool (0 <? a mod b) = ceil_div a b.
Proof.
  intros Hb. unfold ceil_div, int_of_bool.
  pose proof (Z.div_mod a b ltac:(lia)) as Hdm.
  pose proof (Z.mod_pos_bound a b Hb) as Hr.
  destruct (0 <? a mod b) eqn:E.
  - apply Z.ltb_lt in E.
    apply (Z.div_unique _ _ _ (a mod b - 1)); lia.
  - apply Z.ltb_ge in E.
    apply (Z.div_unique _ _ _ (b - 1)); lia.
Qed.

Lemma ceil_div_bounds (a b : Z) :
  0 < b → b * (ceil_div a b - 1) < a ≤ b * ceil_div a b.
Proof.
  intros Hb. unfold ceil_div.
  pose proof (Z.div_mod (a + b - 1) b ltac:(lia)) as Hdm.
  pose proof (Z.mod_pos_bound (a + b - 1) b Hb) as Hr. lia.
Qed.

Lemma range_from_one (n : Z) :
  range 1 (n + 1) 1 = Ok (seqZ 1 n).
Proof.
  unfold range, range_length. simpl ((1 =? 0)). cbn iota.
  replace (0 <? 1) with true by done. cbn iota.
  f_equal. unfold seqZ.
  replace (Z.to_nat (Z.max 0 ((n + 1 - 1 + 1 - 1) / 1))) with (Z.to_nat n)
    by (rewrite Z.div_1_r; lia).
  apply map_ext. intros k. lia.
Qed.

Lemma slice_take_drop {A} (l : list A) (i c : Z) :
  0 ≤ i → 0 ≤ c →
  slice l i (i + c) = take (Z.to_nat c) (drop (Z.to_nat i) l).
Proof.
  intros Hi Hc. unfold slice, clamp_index.
  replace (i <? 0) with false by (symmetry; apply Z.ltb_ge; lia).
  replace (i + c <? 0) with false by (symmetry; apply Z.ltb_ge; lia).
  remember (Z.of_nat (length l)) as len eqn:Hlen.
  destruct (Z.le_gt_cases len i) as [Hge | Hlt].
  - rewrite (drop_ge l (Z.to_nat (i `min` len))) by lia.
    rewrite (drop_ge l (Z.to_nat i)) by lia. by rewrite !take_nil.
  - rewrite (Z.min_l i len) by lia.
    destruct (Z.le_gt_cases len (i + c)) as [Hge' | Hlt'].
    + rewrite Z.min_r by lia.
      rewrite !take_ge; [done | |]; rewrite length_drop; lia.
    + rewrite Z.min_l by lia. f_equal. lia.
Qed.

(** Cutting a list in pieces of [c] loses nothing. *)
Lemma pieces_concat {A} (c n : nat) (l : list A) :
  (0 < c)%nat → (length l ≤ n * c)%nat →
  concat (map (fun k => take c (drop (k * c) l)) (seq 0 n)) = l.
Proof.
  intros Hc. revert l. induction n as [|n IH]; intros l Hl.
  - destruct l; [done | simpl in Hl; lia].
  - cbn [seq map concat]. rewrite <- seq_shift, map_map.
    rewrite drop_0.
    rewrite (map_ext _ (fun k => take c (drop (k * c) (drop c l)))).
    + rewrite IH; [apply take_drop|]. rewrite length_drop. lia.
    + intros k. by rewrite drop_drop.
Qed.

Lemma take_drop_seqZ (a n : Z) (i c : nat) :
  0 ≤ n →
  take c (drop i (seqZ a n)) =
    seqZ (a + Z.of_nat i) (Z.min (Z.of_nat c) (Z.max 0 (n - Z.of_nat i))).
Proof.
  intros Hn. unfold seqZ.
  rewrite <- fmap_drop, <- fmap_take, drop_seq, take_seq.
  replace (Z.to_nat (Z.min (Z.of_nat c) (Z.max 0 (n - Z.of_nat i))))
    with (c `min` (Z.to_nat n - i))%nat by lia.
  replace (0 + i)%nat with (i + 0)%nat by lia.
  rewrite <- (fmap_add_seq i 0), <- list_fmap_compose.
  apply list_fmap_ext. intros _ k _. simpl. lia.
Qed.

(** For at least one page and one worker: the chunks in order are the
    pages in order; chunk [k] holds the pages from [k * size + 1] on, [size]
    of them or those left; their number is [ceil(n / size)], at most the
    number of workers. *)
Lemma page_chunks_spec (url : string) (n w : Z) :
  1 ≤ n → 1 ≤ w →
  ∃ config chunks,
    __post_init__ url n w = Ok config ∧
    CHUNK_SIZE config = ceil_div n w ∧
    page_chunks config = Ok chunks ∧
    concat chunks = seqZ 1 n ∧
    Z.of_nat (length chunks) = ceil_div n (CHUNK_SIZE config) ∧
    Z.of_nat (length chunks) ≤ w ∧
    ∀ (k : nat) chunk, chunks !! k = Some chunk →
      chunk = seqZ (Z.of_nat k * CHUNK_SIZE config + 1)
                   (Z.min (CHUNK_SIZE config) (n - Z.of_nat k * CHUNK_SIZE config)) ∧
      1 ≤ Z.of_nat (length chunk) ≤ CHUNK_SIZE config.
Proof.
  intros Hn Hw. unfold __post_init__, floordiv, pymod.
  replace (w =? 0) with false by (symmetry; apply Z.eqb_neq; lia).
  cbn [bind]. rewrite ceil_div_floor by lia.
  set (cs := ceil_div n w).
  pose proof (ceil_div_bounds n w ltac:(lia)) as Hcs. fold cs in Hcs.
  assert (1 ≤ cs) as Hcs1 by nia.
  pose proof (ceil_div_bounds n cs ltac:(lia)) as Hcnt.
  set (cnt := ceil_div n cs) in *.
  assert (1 ≤ cnt ≤ w) as Hcntw by nia.
  eexists _, _. split; [done|]. split; [done|].
  unfold page_chunks. cbn [NUM_PAGES CHUNK_SIZE].
  rewrite range_from_one. cbn [bind].
  rewrite length_seqZ. rewrite Z2Nat.id by lia.
  unfold range.
  replace (cs =? 0) with false by (symmetry; apply Z.eqb_neq; lia).
  cbn [bind]. unfold range_length.
  replace (0 <? cs) with true by (symmetry; apply Z.ltb_lt; lia).
  replace ((n - 0 + cs - 1) / cs) with cnt
    by (unfold cnt, ceil_div; f_equal; lia).
  rewrite (Z.max_r 0 cnt) by lia.
  split; [done|]. rewrite map_map.
  assert (map (fun k => slice (seqZ 1 n) (0 + Z.of_nat k * cs)
                          (0 + Z.of_nat k * cs + cs)) (seq 0 (Z.to_nat cnt))
          = map (fun k => take (Z.to_nat cs) (drop (k * Z.to_nat cs) (seqZ 1 n)))
                (seq 0 (Z.to_nat cnt))) as ->.
  { apply map_ext. intros k. rewrite slice_take_drop by lia.
    do 2 f_equal. lia. }
  split; [|split; [|split]].
  - apply pieces_concat; [lia|]. rewrite length_seqZ. nia.
  - rewrite length_map, length_seq. lia.
  - rewrite length_map, length_seq. lia.
  - intros k chunk Hk.
    change (map ?f ?l) with (f <$> l) in Hk.
    rewrite list_lookup_fmap in Hk.
    destruct (seq 0 (Z.to_nat cnt) !! k) as [k'|] eqn:Hk'; [|done].
    apply lookup_seq in Hk' as [-> Hlt]. simpl in Hk. injection Hk as <-.
    assert (Z.of_nat k * cs < n) by nia.
    rewrite take_drop_seqZ by lia.
    replace (1 + Z.of_nat (k * Z.to_nat cs)) with (Z.of_nat k * cs + 1) by lia.
    replace (Z.min (Z.of_nat (Z.to_nat cs)) (Z.max 0 (n - Z.of_nat (k * Z.to_nat cs))))
      with (Z.min cs (n - Z.of_nat k * cs)) by lia.
    split; [done|]. rewrite length_seqZ. lia.
Qed.

(** Without a worker there is no configuration, and without a page no
    chunk list: the step of the range is zero. *)
Lemma post_init_no_worker (url : string) (n : Z) :
  __post_init__ url n 0 = Raise ZeroDivisionError.
Proof. done. Qed.

Lemma page_chunks_no_page (url : string) (w : Z) :
  1 ≤ w →
  ∃ config, __post_init__ url 0 w = Ok config ∧
            page_chunks config = Raise ValueError.
Proof.
  intros Hw. unfold __post_init__, floordiv, pymod.
  replace (w =? 0) with false by (symmetry; apply Z.eqb_neq; lia).
  cbn [bind]. rewrite Z.div_0_l, Z.mod_0_l by lia.
  eexists. split; [done|]. done.
Qed.

End ChunkFacts.

(** ** The harvest and the pipeline *)

Module ScrapeFacts.
Import Py Pandas Extract Spec PyFacts.

Lemma concat_all_nil {A} (l : list (list A)) :
  Forall (fun x => x = []) l → concat l = [].
Proof. induction 1 as [|x l -> _ IH]; [done|]. by simpl. Qed.

Section Harvest.

Variable http_get : string → result string.
Variable soup : string → page_content.
Variable clock : Z → nat → string.
Variable as_completed :
  list (nat * list (gmap string value)) → list (nat * list (gmap string value)).
Variable config : ScraperConfig.

Hypothesis every_fetch_fails : ∀ url, ∃ e, http_get url = Raise e.

Lemma scrape_single_page_failed (page : Z) :
  _scrape_single_page http_get soup clock config page = [].
Proof.
  unfold _scrape_single_page.
  by destruct (every_fetch_fails (page_url config page)) as [e ->].
Qed.

Lemma scrape_chunk_failed (pages : list Z) :
  scrape_chunk http_get soup clock config pages = [].
Proof.
  unfold scrape_chunk. apply concat_all_nil, List.Forall_forall.
  intros x Hx. apply in_map_iff in Hx as (page & <- & _).
  apply scrape_single_page_failed.
Qed.

Hypothesis as_completed_permutes : ∀ futures, as_completed futures ≡ₚ futures.

Lemma scrape_failed :
  scrape http_get soup clock as_completed config = DataFrame_empty.
Proof.
  unfold scrape. destruct (page_chunks config) as [chunks|e]; [|done].
  cbn [bind]. destruct (executor (MAX_WORKERS config)); [|done]. cbn [bind].
  set (futures := imap _ chunks).
  assert (Forall (fun fu => fu.2 = []) futures) as Hall.
  { apply Forall_forall. intros [i products] Hin.
    apply list_elem_of_lookup in Hin as [k Hk].
    unfold futures in Hk. rewrite list_lookup_imap in Hk.
    destruct (chunks !! k) as [chunk|]; [|done].
    simpl in Hk. injection Hk as <- <-. apply scrape_chunk_failed. }
  rewrite <- (as_completed_permutes futures) in Hall.
  rewrite concat_all_nil; [done|].
  apply List.Forall_forall. intros x Hx. apply in_map_iff in Hx as (fu & <- & Hfu).
  rewrite List.Forall_forall in Hall. by apply Hall.
Qed.

End Harvest.

End ScrapeFacts.

(** ** The model at work *)

Module Examples.
Import Py Pandas Spec Samples.

(** Python's own answers on the same inputs. *)

Example float_tenth : float "0.1" = Ok (S754_finite false 7205759403792794 (-56)).
Proof. reflexivity. Qed.

Example float_forms :
  map float ["12.50"; " 1.5 "; "1_0"; ".5"; "5."; "1E5"; "-0"; "1e400"; "+inf"; "NaN"]
  = map Ok [dyadic 25 (-1); dyadic 3 (-1); dyadic 10 0; dyadic 1 (-1); dyadic 5 0;
            dyadic 100000 0; S754_zero true; S754_infinity false;
            S754_infinity false; S754_nan].
Proof. vm_compute. reflexivity. Qed.

Example float_refused :
  map float [""; "."; "1_"; "_1"; "1__0"; "1e"; "e5"; "1 2"; "0x10"; "--1"; "infinit";
             "$5"; "Price Unavailable"]
  = replicate 13 (Raise ValueError).
Proof. vm_compute. reflexivity. Qed.

Example split_forms :
  split "/" "4.5/5" = Ok ["4.5"; "5"] ∧ split "/" "4.5" = Ok ["4.5"] ∧
  split "/" "" = Ok [""] ∧ split_ws "  3   Colors " = ["3"; "Colors"] ∧
  split_ws "   " = [].
Proof. repeat split; reflexivity. Qed.

Example replace_forms :
  replace "$" "" "$1,234.50" = "1,234.50" ∧ replace "aa" "b" "aaa" = "ba" ∧
  replace "Size:" "" "Size: M" = " M" ∧ strip "  M  " = "M".
Proof. repeat split; reflexivity. Qed.

(** The normalisers on the texts of the specification. *)

Example size_examples :
  Transform.transform_size Transform.default_config (VStr "Size: M") = Ok (VStr "M") ∧
  Transform.transform_size Transform.default_config (VStr "Size: XXXL") = Ok VNone.
Proof. split; reflexivity. Qed.

Example colors_examples :
  Transform.transform_colors (VStr "3 Colors") = Ok (VInt 3) ∧
  Transform.transform_colors (VStr "Colors") = Ok VNone ∧
  Transform.transform_colors (VStr "") = Ok VNone.
Proof. repeat split; reflexivity. Qed.

Example gender_examples :
  Transform.transform_gender Transform.default_config (VStr "Gender: Unisex")
    = Ok (VStr "Unisex") ∧
  Transform.transform_gender Transform.default_config (VStr "Gender: Kids") = Ok VNone.
Proof. split; reflexivity. Qed.

Example timestamp_example :
  Transform.transform_timestamp iso_datetime_text (VStr "2025-05-01T10:20:30.123456")
    = Ok (VStr "2025-05-01 10:20:30").
Proof. reflexivity. Qed.

(** [int] refuses more than 4300 digits, and the normaliser answers null. *)
Example colors_digit_limit :
  Transform.transform_colors
    (VStr (string_of_list_ascii (replicate 4300 "1"%char) ++ " Colors"))
    ≠ Ok VNone ∧
  Transform.transform_colors
    (VStr (string_of_list_ascii (replicate 4301 "1"%char) ++ " Colors"))
    = Ok VNone.
Proof. split; [vm_compute; discriminate | vm_compute; reflexivity]. Qed.

(** A count of 2^32 + 3: the cleaner returns the row with 3 colours where
    numpy keeps the low 32 bits, and raises where numpy does. *)
Example count_beyond_int32 :
  (∃ t r, Transform.transform_dataframe dyadic_text iso_datetime_text int64_bits
            Transform.default_config one_rainbow = Ok t ∧
          rows t = [r] ∧ cell r "Colors" = VInt 3) ∧
  Transform.transform_dataframe dyadic_text iso_datetime_text object_overflow
    Transform.default_config one_rainbow = Raise OtherError.
Proof.
  split; [|vm_compute; reflexivity].
  eexists _, _. split; [vm_compute; reflexivity|]. split; reflexivity.
Qed.

(** A card without a price element gives a record, with a null price. *)
Example card_without_price :
  ∃ r, Extract.extract_product_details "2025-05-01T10:20:30"
         (Some {| Extract.title := Some "Hoodie 3"; Extract.price := None;
                  Extract.paragraphs := ["3 Colors"] |}) = Some r ∧
       cell r "Title" = VStr "Hoodie 3" ∧ cell r "Price" = VNone ∧
       cell r "Colors" = VStr "3 Colors" ∧ cell r "Rating" = VNone.
Proof. eexists. split; [vm_compute; reflexivity|]. repeat split; reflexivity. Qed.

(** Two pages of one card each, one card without a title: two raw records,
    one cleaned row, that of the complete card. *)
Example two_pages_end_to_end :
  ∃ config raw t r,
    Extract.__post_init__ "https://fashion-studio.dicoding.dev" 2 2 = Ok config ∧
    Extract.scrape two_pages_get two_pages_soup stopped_clock in_submission_order config
      = raw ∧
    length (rows raw) = 2%nat ∧
    Transform.transform_dataframe dyadic_text iso_datetime_text int64_bits
      Transform.default_config raw = Ok t ∧
    rows t = [r] ∧
    map (cell r) Transform.required_columns =
      [VStr "T-shirt 2"; VFloat (dyadic 200000 0);
       VFloat (S754_finite false 5404319552844595 (-50)) (* 4.8 *);
       VInt 3; VStr "M"; VStr "Men"; VStr "2025-05-01 10:20:30"].
Proof.
  eexists _, _, _, _. split; [reflexivity|]. split; [reflexivity|].
  split; [vm_compute; reflexivity|]. split; [vm_compute; reflexivity|].
  split; [reflexivity|]. vm_compute. reflexivity.
Qed.

End Examples.

(** * The claims *)

Module Claims.
Import Py Pandas Spec Props Samples.
Import PyFacts AmountFacts PandasFacts RowFacts TransformFacts CleanerFacts HeapFacts
       CardFacts
       ChunkFacts ScrapeFacts.

(** *** C1 *)

(** C1, as stated, fails: a card with an empty title, a price of zero, a
    rating of 7.5 and a colour count of zero passes the cleaner and is the
    one row of the final table, outside the [CleanProductRecord] domain. *)
Lemma cleaned_table_leaves_domain :
  ∃ t r,
    Transform.transform_dataframe dyadic_text iso_datetime_text int64_bits
      Transform.default_config one_odd_card = Ok t ∧
    rows t = [r] ∧
    cell r "Title" = VStr "" ∧
    cell r "Price" = VFloat (S754_zero false) ∧
    cell r "Rating" = VFloat (dyadic 15 (-1)) ∧
    cell r "Colors" = VInt 0 ∧
    in_domain Transform.default_config r = false.
Proof.
  eexists _, _. split; [vm_compute; reflexivity|].
  split; [reflexivity|]. repeat split; vm_compute; reflexivity.
Qed.

(** C1, amended: for every input table, every table the cleaner returns
    has rows only whose title is present and is not "Unknown Product",
    whose price and rating are numbers (not NaN), whose colour count is a
    32-bit integer, whose size is in {XS,S,M,L,XL,XXL} and whose gender is
    in {Men,Women,Unisex} (the two sets of the configuration).  That the
    title is non-empty, the price and the count above zero and the rating
    within 0..5 is not checked here. *)
Theorem transform_dataframe_rows_cleaned
    (float_text : spec_float → string) (datetime_text : value → option string)
    (int32_overflow : DataFrame → Z → result Z)
    (config : Transform.TransformConfig) (df t : DataFrame) :
  Transform.transform_dataframe float_text datetime_text int32_overflow config df
    = Ok t →
  Forall (cleaned config) (rows t) ∧
  Transform.VALID_SIZES Transform.default_config
    = ["XS"; "S"; "M"; "L"; "XL"; "XXL"] ∧
  Transform.VALID_GENDERS Transform.default_config = ["Men"; "Women"; "Unisex"].
Proof.
  intros Ht. split; [|done].
  by eapply transform_dataframe_cleaned.
Qed.

(** The five rows of [catalogue]: three are returned. *)
Lemma transform_dataframe_rows_cleaned_witness :
  ∃ t, Transform.transform_dataframe dyadic_text iso_datetime_text int64_bits
         Transform.default_config catalogue = Ok t ∧
       length (rows t) = 3%nat ∧
       Forall (cleaned Transform.default_config) (rows t).
Proof.
  assert (∃ t, Transform.transform_dataframe dyadic_text iso_datetime_text int64_bits
                 Transform.default_config catalogue = Ok t ∧
               length (rows t) = 3%nat) as (t & Ht & Hlen).
  { eexists. split; [vm_compute; reflexivity | reflexivity]. }
  exists t. split; [exact Ht|]. split; [exact Hlen|].
  exact (proj1 (transform_dataframe_rows_cleaned dyadic_text iso_datetime_text
                  int64_bits Transform.default_config catalogue t Ht)).
Defined.

(** *** C2 *)

(** C2, as stated, fails: the table cleaned from one well-formed card has
    one row, and cleaning that table again returns a table without rows. *)
Lemma transform_dataframe_not_idempotent :
  ∃ t t',
    Transform.transform_dataframe dyadic_text iso_datetime_text int64_bits
      Transform.default_config one_shirt = Ok t ∧
    Transform.transform_dataframe dyadic_text iso_datetime_text int64_bits
      Transform.default_config t = Ok t' ∧
    length (rows t) = 1%nat ∧ rows t' = [] ∧ t' ≠ t.
Proof.
  eexists _, _. split; [vm_compute; reflexivity|].
  split; [vm_compute; reflexivity|].
  split; [reflexivity|]. split; [reflexivity|].
  intros H. apply (f_equal (fun d => length (rows d))) in H. discriminate H.
Qed.

(** C2, amended: for every input table, cleaning a table the cleaner
    returned succeeds and returns a table without rows: the typed price,
    rating and colour cells are not text, are normalised to null, and every
    row is dropped.  The second table is the first only if the first has no
    rows. *)
Theorem transform_dataframe_twice
    (float_text : spec_float → string) (datetime_text : value → option string)
    (int32_overflow : DataFrame → Z → result Z)
    (config : Transform.TransformConfig) (df t : DataFrame) :
  Transform.transform_dataframe float_text datetime_text int32_overflow config df
    = Ok t →
  ∃ t',
    Transform.transform_dataframe float_text datetime_text int32_overflow config t
      = Ok t' ∧
    rows t' = [] ∧
    (t' = t → rows t = []).
Proof.
  intros Ht.
  pose proof (transform_dataframe_cleaned float_text datetime_text int32_overflow
                config df t Ht) as Hrows.
  destruct (transform_dataframe_again float_text datetime_text int32_overflow
              config t Hrows) as (t' & Ht' & Hempty).
  exists t'. repeat split; try done. by intros <-.
Qed.

(** The five rows of [catalogue], cleaned to three, cleaned to none. *)
Lemma transform_dataframe_twice_witness :
  ∃ t t',
    Transform.transform_dataframe dyadic_text iso_datetime_text int64_bits
      Transform.default_config catalogue = Ok t ∧
    length (rows t) = 3%nat ∧
    Transform.transform_dataframe dyadic_text iso_datetime_text int64_bits
      Transform.default_config t = Ok t' ∧
    rows t' = [].
Proof.
  assert (∃ t, Transform.transform_dataframe dyadic_text iso_datetime_text int64_bits
                 Transform.default_config catalogue = Ok t ∧
               length (rows t) = 3%nat) as (t & Ht & Hlen).
  { eexists. split; [vm_compute; reflexivity | reflexivity]. }
  destruct (transform_dataframe_twice dyadic_text iso_datetime_text int64_bits
              Transform.default_config catalogue t Ht) as (t' & Ht' & Hrows & _).
  exists t, t'. split; [exact Ht|]. split; [exact Hlen|]. split; [exact Ht' | exact Hrows].
Defined.

(** *** C3 *)




(** *** C4 *)

(** C4, as stated, fails: five pages and four workers give three chunks. *)
Lemma five_pages_four_workers :
  ∃ config chunks,
    Extract.__post_init__ "https://fashion-studio.dicoding.dev" 5 4 = Ok config ∧
    Extract.CHUNK_SIZE config = 2 ∧
    Extract.page_chunks config = Ok chunks ∧
    chunks = [[1; 2]; [3; 4]; [5]] ∧
    Z.of_nat (length chunks) ≠ Extract.MAX_WORKERS config.
Proof.
  eexists _, _. split; [reflexivity|]. split; [reflexivity|].
  split; [vm_compute; reflexivity|].
  split; [reflexivity|]. discriminate.
Qed.

(** C4, amended: for at least one page and one worker, the harvester splits
    the pages 1..NUM_PAGES into contiguous chunks of size
    ceil(NUM_PAGES / MAX_WORKERS), the last possibly shorter and none empty,
    which in order make up 1..NUM_PAGES with no gap and no overlap; there
    are ceil(NUM_PAGES / size) chunks, at most MAX_WORKERS.  The default, 50
    pages and 10 workers, gives 10 chunks of 5 pages. *)
Theorem page_chunks_partition (url : string) (n w : Z) :
  1 ≤ n → 1 ≤ w →
  (∃ config chunks,
    Extract.__post_init__ url n w = Ok config ∧
    Extract.CHUNK_SIZE config = ceil_div n w ∧
    Extract.page_chunks config = Ok chunks ∧
    concat chunks = seqZ 1 n ∧
    Z.of_nat (length chunks) = ceil_div n (Extract.CHUNK_SIZE config) ∧
    Z.of_nat (length chunks) ≤ w ∧
    ∀ (k : nat) chunk, chunks !! k = Some chunk →
      chunk = seqZ (Z.of_nat k * Extract.CHUNK_SIZE config + 1)
                   (Z.min (Extract.CHUNK_SIZE config)
                          (n - Z.of_nat k * Extract.CHUNK_SIZE config)) ∧
      1 ≤ Z.of_nat (length chunk) ≤ Extract.CHUNK_SIZE config) ∧
  (∃ chunks,
    (config ←' Extract.default_config ;; Extract.page_chunks config) = Ok chunks ∧
    length chunks = 10%nat ∧
    Forall (fun chunk => length chunk = 5%nat) chunks).
Proof.
  intros Hn Hw. split; [by apply page_chunks_spec|].
  eexists. split; [vm_compute; reflexivity|].
  split; [reflexivity|]. repeat constructor.
Qed.

(** Seven pages and three workers. *)
Lemma page_chunks_partition_witness :
  1 ≤ 7 ∧ 1 ≤ 3 ∧
  ∃ config chunks,
    Extract.__post_init__ "https://fashion-studio.dicoding.dev" 7 3 = Ok config ∧
    Extract.page_chunks config = Ok chunks ∧
    concat chunks = seqZ 1 7 ∧
    Z.of_nat (length chunks) ≤ 3.
Proof.
  split; [lia|]. split; [lia|].
  destruct (page_chunks_partition "https://fashion-studio.dicoding.dev" 7 3)
    as [(config & chunks & H1 & _ & H2 & H3 & _ & H4 & _) _]; [lia | lia |].
  exists config, chunks. auto.
Defined.

(** *** C5 *)

(** C5: if every page fetch fails, [scrape] returns the empty table whatever
    the configuration, and [run_etl_pipeline] returns [False] having made no
    outside call, so no load. *)
Theorem all_fetches_fail
    (float_text : spec_float → string) (datetime_text : value → option string)
    (int32_overflow : DataFrame → Z → result Z)
    (http_get : string → result string) (soup : string → Extract.page_content)
    (clock : Z → nat → string)
    (as_completed : list (nat * list (gmap string value)) →
                    list (nat * list (gmap string value)))
    (to_csv : DataFrame → result unit)
    (load_to_csv load_to_google_sheets load_to_postgres : DataFrame → bool) :
  (∀ url, ∃ e, http_get url = Raise e) →
  (∀ futures, as_completed futures ≡ₚ futures) →
  (∀ config, Extract.scrape http_get soup clock as_completed config
             = Extract.DataFrame_empty) ∧
  empty Extract.DataFrame_empty = true ∧
  Main.run_etl_pipeline float_text datetime_text int32_overflow http_get soup clock
    as_completed to_csv load_to_csv load_to_google_sheets load_to_postgres
    = (false, []).
Proof.
  intros Hfail Hperm.
  assert (∀ config, Extract.scrape http_get soup clock as_completed config
                    = Extract.DataFrame_empty) as Hscrape
    by (intros; by apply scrape_failed).
  split; [done|]. split; [done|].
  unfold Main.run_etl_pipeline.
  destruct Extract.default_config as [config|]; [|done].
  by rewrite Hscrape.
Qed.

(** A world without network. *)
Lemma all_fetches_fail_witness :
  (∀ url, ∃ e, no_network url = Raise e) ∧
  (∀ futures, in_submission_order futures ≡ₚ futures) ∧
  Extract.scrape no_network no_markup stopped_clock in_submission_order
    (Extract.mkScraperConfig "https://fashion-studio.dicoding.dev" 50 10 5)
    = Extract.DataFrame_empty ∧
  Main.run_etl_pipeline dyadic_text iso_datetime_text int64_bits
    no_network no_markup stopped_clock in_submission_order
    csv_written loaded loaded loaded = (false, []).
Proof.
  assert (∀ url, ∃ e, no_network url = Raise e) as Hfail
    by (intros url; exists OtherError; reflexivity).
  assert (∀ futures, in_submission_order futures ≡ₚ futures) as Hperm
    by (intros futures; reflexivity).
  split; [exact Hfail|]. split; [exact Hperm|].
  destruct (all_fetches_fail dyadic_text iso_datetime_text int64_bits
              no_network no_markup stopped_clock in_submission_order
              csv_written loaded loaded loaded Hfail Hperm) as (H1 & _ & H2).
  split; [apply H1 | exact H2].
Defined.

(** *** C6 *)



(** *** C7 *)



(** *** C8 *)

(** C8: each of the six field normalisers returns, on every value, a value
    of its type or null, and raises nothing. *)
Theorem normalisers_total
    (float_text : spec_float → string) (datetime_text : value → option string)
    (config : Transform.TransformConfig) (v : value) :
  (∃ r, Transform.transform_price config v = Ok r ∧ float_or_none r) ∧
  (∃ r, Transform.transform_rating float_text v = Ok r ∧ float_or_none r) ∧
  (∃ r, Transform.transform_colors v = Ok r ∧ int_or_none r) ∧
  (∃ r, Transform.transform_size config v = Ok r ∧
        member_or_none (Transform.VALID_SIZES config) r) ∧
  (∃ r, Transform.transform_gender config v = Ok r ∧
        member_or_none (Transform.VALID_GENDERS config) r) ∧
  (∃ r, Transform.transform_timestamp datetime_text v = Ok r ∧ str_or_none r).
Proof.
  repeat split.
  - apply transform_price_total.
  - apply transform_rating_total.
  - apply transform_colors_total.
  - apply transform_size_total.
  - apply transform_gender_total.
  - apply transform_timestamp_total.
Qed.

(** *** C9 *)

(** C9: [transform_dataframe] leaves its argument as it was: after the call,
    whether it returned or raised, the table object it was given, like
    every object there was, holds the table it held before; the object
    returned is a new one. *)
Theorem transform_dataframe_keeps_input
    (float_text : spec_float → string) (datetime_text : value → option string)
    (int32_overflow : DataFrame → Z → result Z)
    (config : Transform.TransformConfig)
    (h : gmap loc DataFrame) (df : loc) (d : DataFrame) :
  h !! df = Some d →
  let run := Transform.transform_dataframe_on float_text datetime_text int32_overflow
               config df h in
  run.2 !! df = Some d ∧
  (∀ l d', h !! l = Some d' → run.2 !! l = Some d') ∧
  (∀ l, run.1 = Ok l → h !! l = None).
Proof.
  intros Hdf.
  destruct (transform_dataframe_on_spec float_text datetime_text int32_overflow
              config h df d Hdf)
    as (r & h' & E & Hsub & Hr).
  simpl. rewrite E. simpl. split; [|split].
  - by eapply lookup_weaken.
  - intros l d' Hl. by eapply lookup_weaken.
  - intros l ->. by destruct Hr.
Qed.

(** A heap with one table, of one row. *)
Lemma transform_dataframe_keeps_input_witness :
  ({[ 1%positive := one_shirt ]} : gmap loc DataFrame) !! 1%positive = Some one_shirt ∧
  (Transform.transform_dataframe_on dyadic_text iso_datetime_text int64_bits
     Transform.default_config 1%positive {[ 1%positive := one_shirt ]}).2
    !! 1%positive = Some one_shirt.
Proof.
  assert (({[ 1%positive := one_shirt ]} : gmap loc DataFrame) !! 1%positive
          = Some one_shirt) as H by reflexivity.
  split; [exact H|].
  exact (proj1 (transform_dataframe_keeps_input dyadic_text
                  iso_datetime_text int64_bits Transform.default_config
                  {[ 1%positive := one_shirt ]} 1%positive one_shirt H)).
Defined.

(** *** C10 *)

(** C10: for a table that is empty or lacks one of the seven required
    columns, [transform_dataframe] raises nothing and returns the table
    without rows whose columns are Title, Price, Rating, Colors, Size,
    Gender, timestamp, in this order. *)
Theorem transform_dataframe_missing_input
    (float_text : spec_float → string) (datetime_text : value → option string)
    (int32_overflow : DataFrame → Z → result Z)
    (config : Transform.TransformConfig) (df : DataFrame) :
  empty df = true ∨ (∃ c, c ∈ Transform.required_columns ∧ c ∉ columns df) →
  Transform.transform_dataframe float_text datetime_text int32_overflow config df =
    Ok {| columns := ["Title"; "Price"; "Rating"; "Colors"; "Size"; "Gender";
                      "timestamp"];
          rows := [] |}.
Proof.
  intros H. apply transform_dataframe_missing.
  unfold Transform.missing_input. destruct H as [-> | (c & Hc & Hnc)]; [done|].
  apply orb_true_iff. right. apply negb_true_iff.
  destruct (forallb _ _) eqn:E; [|done].
  destruct Hnc. pose proof (has_required_columns df c E Hc) as H.
  unfold has_column in H. by apply bool_decide_eq_true in H.
Qed.

(** A table without the [Gender] column. *)
Lemma transform_dataframe_missing_input_witness :
  (empty no_gender = true ∨
   ∃ c, c ∈ Transform.required_columns ∧ c ∉ columns no_gender) ∧
  Transform.transform_dataframe dyadic_text iso_datetime_text int64_bits
    Transform.default_config no_gender =
    Ok {| columns := ["Title"; "Price"; "Rating"; "Colors"; "Size"; "Gender";
                      "timestamp"];
          rows := [] |}.
Proof.
  assert (empty no_gender = true ∨
          ∃ c, c ∈ Transform.required_columns ∧ c ∉ columns no_gender) as H.
  { right. exists "Gender".
    split; apply (bool_decide_unpack _); vm_compute; exact I. }
  split; [exact H|].
  exact (transform_dataframe_missing_input dyadic_text
           iso_datetime_text int64_bits Transform.default_config no_gender H).
Defined.

End Claims.

(** * Further properties of the code *)

(** ** The normalisers, one by one *)

Module NormaliserFacts.
Import Py Pandas Transform Spec Props PyFacts TransformFacts.

Lemma in_set_cases (s : string) (l : list string) :
  in_set s l = true → s ∈ l.
Proof.
  unfold in_set. intros (t & Ht & E)%existsb_exists.
  apply String.eqb_eq in E as ->. by apply list_elem_of_In.
Qed.

Lemma digit_val_nonneg (c : ascii) : is_digit c = true → 0 ≤ digit_val c ≤ 9.
Proof.
  unfold is_digit, in_range, digit_val. intros [H1 H2]%andb_true_iff.
  apply N.leb_le in H1, H2. lia.
Qed.

Lemma digits_value_nonneg (s : string) (acc : Z) :
  all_digits s = true → 0 ≤ acc → 0 ≤ digits_value acc (list_ascii_of_string s).
Proof.
  revert acc. induction s as [|c s IH]; intros acc H Hacc; simpl in *; [done|].
  apply andb_true_iff in H as [Hc Hs]. apply IH; [done|].
  pose proof (digit_val_nonneg c Hc). lia.
Qed.

Lemma isdigit_all_digits (s : string) : isdigit s = true → all_digits s = true.
Proof. by destruct s. Qed.

Lemma split_ws_cons (c : ascii) (s : string) :
  isspace c = false →
  split_ws (String c s) =
    match s with
    | EmptyString => [String c EmptyString]
    | String c' _ =>
        if isspace c' then String c EmptyString :: split_ws s
        else match split_ws s with
             | w :: ws => String c w :: ws
             | [] => [String c EmptyString]
             end
    end.
Proof. intros H. cbn [split_ws]. by rewrite H. Qed.

(** [split()] on a word followed by a blank: the word comes first. *)
Lemma split_ws_token (w rest : string) (b : ascii) :
  is_token w = true → isspace b = true →
  split_ws (w ++ String b rest) = w :: split_ws rest.
Proof.
  intros Hw Hb. destruct w as [|c w]; [done|]. simpl in Hw.
  apply andb_true_iff in Hw as [Hc Hw].
  apply negb_true_iff, orb_false_iff in Hc as [Hc _].
  revert c Hc. induction w as [|c' w IH]; intros c Hc.
  - change (String c EmptyString ++ String b rest) with (String c (String b rest)).
    rewrite split_ws_cons by done. rewrite Hb.
    cbn [split_ws]. by rewrite Hb.
  - simpl in Hw. apply andb_true_iff in Hw as [Hc' Hw].
    apply negb_true_iff, orb_false_iff in Hc' as [Hc' _].
    change (String c (String c' w) ++ String b rest)
      with (String c (String c' (w ++ String b rest))).
    rewrite split_ws_cons by done. rewrite Hc'.
    specialize (IH Hw c' Hc').
    change (String c' w ++ String b rest) with (String c' (w ++ String b rest)) in IH.
    by rewrite IH.
Qed.

Lemma split_ws_token_alone (w : string) :
  is_token w = true → split_ws w = [w].
Proof.
  intros Hw. destruct w as [|c w]; [done|]. simpl in Hw.
  apply andb_true_iff in Hw as [Hc Hw].
  apply negb_true_iff, orb_false_iff in Hc as [Hc _].
  revert c Hc. induction w as [|c' w IH]; intros c Hc.
  - by rewrite split_ws_cons.
  - simpl in Hw. apply andb_true_iff in Hw as [Hc' Hw].
    apply negb_true_iff, orb_false_iff in Hc' as [Hc' _].
    rewrite split_ws_cons by done. rewrite Hc'. by rewrite (IH Hw c' Hc').
Qed.










End NormaliserFacts.

(** ** Rows kept by the cleaner *)

Module KeptFacts.
Import Py Pandas Transform Spec Props PyFacts PandasFacts TransformFacts RowFacts
       CleanerFacts CardFacts NormaliserFacts.

Section Kept.

Variable float_text : spec_float → string.
Variable datetime_text : value → option string.
Variable int32_overflow : DataFrame → Z → result Z.
Variable config : TransformConfig.

Local Abbreviation transform_dataframe :=
  (transform_dataframe float_text datetime_text int32_overflow config).
Local Abbreviation applied := (applied float_text datetime_text config).

(** Where a row of a table returned comes from. *)
Lemma returned_row_origin (df t : DataFrame) (r' : gmap string value) :
  missing_input df = false → transform_dataframe df = Ok t → r' ∈ rows t →
  ∃ r r6, r ∈ rows df ∧ applied r r6 ∧ complete r6 = true ∧
          cleaned config r' ∧ ∀ c, c ≠ "Colors" → cell r' c = cell r6 c.
Proof.
  intros Hmiss Ht Hr'.
  destruct (transform_dataframe_returned float_text datetime_text int32_overflow
              config df t Hmiss Ht) as (d6 & Happ & _ & Hrows).
  destruct (kept_of_rows float_text datetime_text config df d6 Happ) as [_ Hkept].
  destruct (Forall2_elem_r _ _ _ _ Hrows Hr') as (r6 & Hin & Hast).
  rewrite Forall_forall in Hkept.
  destruct (Hkept r6 Hin) as (Hc & Hn & r & Hr & Hrr6).
  exists r, r6. repeat (split; [done|]). split.
  - exact (astype_row_cleaned config _ r6 r' Hn Hc Hast).
  - destruct (astype_row_image config _ r6 r' Hn Hc Hast) as (n & m & _ & _ & Hcells).
    intros c Hne. rewrite Hcells. by case_decide.
Qed.

(** When the counts are [int32]s: the table returned, row by row. *)
Lemma transform_dataframe_images (df : DataFrame) :
  counts_fit df → missing_input df = false →
  ∃ t kept,
    transform_dataframe df = Ok t ∧ columns t = columns df ∧
    kept `sublist_of` rows df ∧
    Forall2 (fun r r' =>
               ∃ r6, applied r r6 ∧ complete r6 = true ∧
                 (∀ c, cell r' c = cell r6 c) ∧
                 (∀ c, c ∉ ["Price"; "Rating"; "Colors"; "Size"; "Gender"; "timestamp"] →
                       cell r' c = cell r c))
            kept (rows t).
Proof.
  intros Hfit Hmiss.
  destruct (transform_dataframe_fits float_text datetime_text int32_overflow config
              df Hfit Hmiss) as (d6 & t & Happ & Ht & Hcols & Hcells).
  destruct (kept_of_rows float_text datetime_text config df d6 Happ) as [Hsub Hkept].
  destruct (Forall2_sublist _ _ _ _ Happ Hsub) as (kept & Hkept' & Happ').
  exists t, kept. repeat (split; [done|]).
  eapply Forall2_compose; [|exact Happ'|exact Hkept|exact Hcells].
  intros r r6 r' Hr (Hc & _) Hr'. cbn beta in Hr'.
  exists r6. repeat (split; [done|]).
  intros c Hc'. rewrite Hr'. by apply (applied_other_cells float_text datetime_text config r r6).
Qed.

Lemma transform_dataframe_complete_rows (df : DataFrame) (r r6 : gmap string value) :
  counts_fit df → missing_input df = false →
  r ∈ rows df → applied r r6 → complete r6 = true →
  ∃ t k k6 k',
    transform_dataframe df = Ok t ∧
    k ∈ rows df ∧ applied k k6 ∧
    (k6 = r6 ∨ same_row (columns df) r6 k6 = true) ∧
    k' ∈ rows t ∧ ∀ c, cell k' c = cell k6 c.
Proof.
  intros Hfit Hmiss Hr Hr6 Hc.
  destruct (transform_dataframe_fits float_text datetime_text int32_overflow config
              df Hfit Hmiss) as (d6 & t & Happ & Ht & Hcols & Hcells).
  destruct (kept_of_rows float_text datetime_text config df d6 Happ) as [Hsub Hkept].
  destruct (Forall2_elem_l _ _ _ _ Happ Hr) as (r6' & Hin & Hr6').
  pose proof (applied_functional float_text datetime_text config _ _ _ Hr6' Hr6) as ->.
  assert (r6 ∈ List.filter complete d6) as Hf by (by apply elem_of_filter_bool).
  destruct (keep_first_represents (columns df) [] _ _ Hf) as (k6 & [Hk | Hk] & Hsame);
    [by inversion Hk|].
  fold (kept_of df d6) in Hk.
  pose proof (sublist_elem_of _ _ _ Hsub Hk) as Hk'.
  destruct (Forall2_elem_r _ _ _ _ Happ Hk') as (k & Hkin & Hkk6).
  destruct (Forall2_elem_l _ _ _ _ Hcells Hk) as (k' & Hk'in & Hk'').
  exists t, k, k6, k'. done.
Qed.

Lemma transform_dataframe_distinct_rows (df : DataFrame) :
  counts_fit df →
  ∃ t, transform_dataframe df = Ok t ∧ no_duplicate (columns t) (rows t).
Proof.
  intros Hfit. destruct (missing_input df) eqn:Hmiss.
  { rewrite transform_dataframe_missing by done. eexists. split; [done|].
    intros i j a b _ Hi. by destruct i. }
  destruct (transform_dataframe_fits float_text datetime_text int32_overflow config
              df Hfit Hmiss) as (d6 & t & Happ & Ht & Hcols & Hcells).
  exists t. split; [done|]. rewrite Hcols.
  destruct (keep_first_no_duplicate (columns df) [] (List.filter complete d6))
    as [_ Hnd]. fold (kept_of df d6) in Hnd.
  intros i j a' b' Hij Hi Hj.
  destruct (Forall2_lookup_r _ _ _ _ _ Hcells Hi) as (a & Ha & Haa').
  destruct (Forall2_lookup_r _ _ _ _ _ Hcells Hj) as (b & Hb & Hbb').
  rewrite <- (Hnd i j a b Hij Ha Hb). by apply same_row_cells.
Qed.

End Kept.


End KeptFacts.

(** ** Properties of the normalisers and of the cleaner *)

Module CleanerProps.
Import Py Pandas Transform Spec Props Samples PyFacts PandasFacts TransformFacts RowFacts
       CleanerFacts NormaliserFacts KeptFacts.

(** X1.  The size and the gender normaliser settle: a value either of them
    returns is returned unchanged when it is given back to it.  Each reads
    every size, or gender, of its list back from the labelled text of a
    card, "Size: M" or "Gender: Men". *)
Theorem size_and_gender_settle (rate : spec_float) (v : value) :
  let config := Transform.__post_init__ rate in
  (r ←' transform_size config v ;; transform_size config r) = transform_size config v ∧
  (r ←' transform_gender config v ;; transform_gender config r)
    = transform_gender config v ∧
  Forall (fun s => transform_size config (VStr ("Size: " ++ s)) = Ok (VStr s))
         (VALID_SIZES config) ∧
  Forall (fun s => transform_gender config (VStr ("Gender: " ++ s)) = Ok (VStr s))
         (VALID_GENDERS config).
Proof.
  intros config. split; [|split; [|split]].
  - destruct v as [|s|f|n];
      try (rewrite transform_size_not_str by (intros; discriminate); done).
    rewrite transform_size_str. cbn zeta.
    destruct (in_set _ (VALID_SIZES config)) eqn:E; [|done].
    cbn [bind]. apply in_set_cases in E. revert E.
    generalize (strip (replace "Size:" "" s)). intros t Ht.
    repeat (apply elem_of_cons in Ht as [-> | Ht]; [by vm_compute|]).
    by inversion Ht.
  - destruct v as [|s|f|n];
      try (rewrite transform_gender_not_str by (intros; discriminate); done).
    rewrite transform_gender_str. cbn zeta.
    destruct (in_set _ (VALID_GENDERS config)) eqn:E; [|done].
    cbn [bind]. apply in_set_cases in E. revert E.
    generalize (strip (replace "Gender:" "" s)). intros t Ht.
    repeat (apply elem_of_cons in Ht as [-> | Ht]; [by vm_compute|]).
    by inversion Ht.
  - repeat constructor.
  - repeat constructor.
Qed.

(** X2.  The colour normaliser returns, on every value, null or an integer
    that is not negative.  Of a text it reads the first word only: what
    follows the first blank changes nothing.  An ASCII word gives the
    number it writes when it is made of digits, at most 4300 of them, and
    null otherwise: [int] refuses a longer one. *)
Theorem transform_colors_first_word (w rest : string) (v : value) :
  is_token w = true →
  (∃ r, transform_colors v = Ok r ∧ (r = VNone ∨ ∃ n, r = VInt n ∧ 0 ≤ n)) ∧
  transform_colors (VStr (w ++ " " ++ rest)) = transform_colors (VStr w) ∧
  transform_colors (VStr w) =
    Ok (if isdigit w && (String.length w <=? max_str_digits)%nat
        then VInt (digits_value 0 (list_ascii_of_string w)) else VNone).
Proof.
  intros Hw. split; [|split].
  - destruct (transform_colors_total v) as (r & Hr & [-> | [n ->]]).
    + exists VNone. split; [done | by left].
    + exists (VInt n). split; [done|]. right. exists n. split; [done|].
      by eapply transform_colors_nonneg.
  - unfold transform_colors. cbn [isna str_method bind].
    change (" " ++ rest) with (String " " rest).
    rewrite split_ws_token by done. rewrite (split_ws_token_alone w) by done.
    reflexivity.
  - unfold transform_colors. cbn [isna str_method bind].
    rewrite split_ws_token_alone by done. cbn [item0 bind].
    unfold int. destruct (isdigit w); [|done].
    by destruct (String.length w <=? max_str_digits)%nat.
Qed.

(** "3 Colors", and 4301 digits. *)
Lemma transform_colors_first_word_witness :
  transform_colors (VStr ("3" ++ " " ++ "Colors")) = Ok (VInt 3) ∧
  transform_colors (VStr (string_of_list_ascii (replicate 4301 "7"%char)))
    = Ok VNone.
Proof.
  split.
  - destruct (transform_colors_first_word "3" "Colors" VNone eq_refl)
      as (_ & H1 & H2).
    rewrite H1, H2. reflexivity.
  - destruct (transform_colors_first_word
                (string_of_list_ascii (replicate 4301 "7"%char)) "" VNone)
      as (_ & _ & H).
    + vm_compute. reflexivity.
    + rewrite H. vm_compute. reflexivity.
Defined.



Section Cleaner.

Variable float_text : spec_float → string.
Variable datetime_text : value → option string.
Variable int32_overflow : DataFrame → Z → result Z.
Variable config : TransformConfig.

Local Abbreviation transform_dataframe :=
  (transform_dataframe float_text datetime_text int32_overflow config).
Local Abbreviation applied := (applied float_text datetime_text config).

(** X4.  On a table with rows and the seven columns whose colour counts
    are below 2^31, the cleaner returns a table, and keeps the columns and
    the order of the rows: the rows it returns are, one for one and in
    order, made from a sublist of the rows it is given.  Each is the
    normalised image of its row, complete, cell for cell; the title and
    every column besides the six normalised ones are passed on as they
    are. *)
Theorem transform_dataframe_keeps_order (df : DataFrame) :
  counts_fit df → missing_input df = false →
  ∃ t kept,
    transform_dataframe df = Ok t ∧ columns t = columns df ∧
    kept `sublist_of` rows df ∧
    Forall2 (fun r r' =>
               ∃ r6, applied r r6 ∧ complete r6 = true ∧
                 (∀ c, cell r' c = cell r6 c) ∧
                 (∀ c, c ∉ ["Price"; "Rating"; "Colors"; "Size"; "Gender"; "timestamp"] →
                       cell r' c = cell r c))
            kept (rows t).
Proof. apply transform_dataframe_images. Qed.

(** X5.  On such a table no complete row is lost: a row whose normalised
    image is complete is in the result, cell for cell, or counts as a
    duplicate of such a row that is. *)
Theorem transform_dataframe_keeps_complete_rows
    (df : DataFrame) (r r6 : gmap string value) :
  counts_fit df → missing_input df = false →
  r ∈ rows df → applied r r6 → complete r6 = true →
  ∃ t k k6 k',
    transform_dataframe df = Ok t ∧
    k ∈ rows df ∧ applied k k6 ∧
    (k6 = r6 ∨ same_row (columns df) r6 k6 = true) ∧
    k' ∈ rows t ∧ ∀ c, cell k' c = cell k6 c.
Proof. apply transform_dataframe_complete_rows. Qed.

(** X6.  When every colour count is below 2^31, the cleaner returns a
    table in which no two rows count as duplicates of each other. *)
Theorem transform_dataframe_no_duplicate (df : DataFrame) :
  counts_fit df →
  ∃ t, transform_dataframe df = Ok t ∧ no_duplicate (columns t) (rows t).
Proof. apply transform_dataframe_distinct_rows. Qed.

End Cleaner.

Lemma counts_fit_catalogue : counts_fit catalogue.
Proof.
  repeat constructor; intros n H; vm_compute in H; injection H as <-; reflexivity.
Defined.

(** The five rows of [catalogue]: the shirt, the jacket and the odd card
    are returned, in this order; the row without a price and the second
    shirt are not. *)
Lemma transform_dataframe_keeps_order_witness :
  ∃ t kept,
    Transform.transform_dataframe dyadic_text iso_datetime_text int64_bits
      Transform.default_config catalogue = Ok t ∧
    kept `sublist_of` rows catalogue ∧ length kept = length (rows t) ∧
    map (fun r => cell r "Title") (rows t)
      = [VStr "T-shirt 2"; VStr "Jacket 7"; VStr ""].
Proof.
  destruct (transform_dataframe_keeps_order dyadic_text iso_datetime_text int64_bits
              Transform.default_config catalogue counts_fit_catalogue eq_refl)
    as (t & kept & Ht & Hc & Hs & Hr).
  exists t, kept. split; [exact Ht|]. split; [exact Hs|].
  split; [by eapply Forall2_length|].
  vm_compute in Ht. injection Ht as <-. reflexivity.
Defined.

(** The second shirt of [catalogue] is a duplicate of the first, which is
    returned. *)
Lemma transform_dataframe_keeps_complete_rows_witness :
  ∃ t k', Transform.transform_dataframe dyadic_text iso_datetime_text int64_bits
            Transform.default_config catalogue = Ok t ∧
          k' ∈ rows t ∧ cell k' "Title" = VStr "T-shirt 2".
Proof.
  edestruct (transform_dataframe_keeps_complete_rows dyadic_text iso_datetime_text
               int64_bits Transform.default_config catalogue shirt)
    as (t & k & k6 & k' & Ht & _ & Hk6 & Hsame & Hk' & Hcells).
  - exact counts_fit_catalogue.
  - reflexivity.
  - by left.
  - do 6 eexists. repeat split; try (vm_compute; reflexivity).
  - vm_compute. reflexivity.
  - exists t, k'. split; [exact Ht|]. split; [exact Hk'|].
    vm_compute in Ht. injection Ht as <-.
    repeat (apply elem_of_cons in Hk' as [-> | Hk']; [|]).
    + reflexivity.
    + exfalso. destruct Hsame as [E | E].
      * rewrite E in Hcells. specialize (Hcells "Title"). vm_compute in Hcells.
        discriminate Hcells.
      * apply (f_equal (fun b => b)) in E.
        assert (cell k6 "Title" = VStr "Jacket 7") as Ek
          by (rewrite <- Hcells; reflexivity).
        unfold same_row in E. cbn [columns catalogue required_columns forallb] in E.
        rewrite Ek in E. vm_compute in E. discriminate E.
    + exfalso. destruct Hsame as [E | E].
      * rewrite E in Hcells. specialize (Hcells "Title"). vm_compute in Hcells.
        discriminate Hcells.
      * assert (cell k6 "Title" = VStr "") as Ek
          by (rewrite <- Hcells; reflexivity).
        unfold same_row in E. cbn [columns catalogue required_columns forallb] in E.
        rewrite Ek in E. vm_compute in E. discriminate E.
    + by inversion Hk'.
Defined.

(** The five rows of [catalogue], two of them equal: three rows are
    returned, no two of them duplicates. *)
Lemma transform_dataframe_no_duplicate_witness :
  ∃ t, Transform.transform_dataframe dyadic_text iso_datetime_text int64_bits
         Transform.default_config catalogue = Ok t ∧
       length (rows catalogue) = 5%nat ∧ length (rows t) = 3%nat ∧
       no_duplicate (columns t) (rows t).
Proof.
  destruct (transform_dataframe_no_duplicate dyadic_text iso_datetime_text int64_bits
              Transform.default_config catalogue counts_fit_catalogue)
    as (t & Ht & Hnd).
  exists t. split; [exact Ht|]. split; [reflexivity|]. split; [|exact Hnd].
  vm_compute in Ht. injection Ht as <-. reflexivity.
Defined.

End CleanerProps.

(** ** The validator, row by row *)

Module ValidateFacts.
Import Py Pandas Spec Props Load.

Lemma SFcompare_antisym (a b : spec_float) :
  SFcompare b a = option_map CompOpp (SFcompare a b).
Proof.
  destruct a as [sa|sa| |sa ma ea], b as [sb|sb| |sb mb eb]; simpl; try done;
    try (by destruct sa); try (by destruct sb); try (by destruct sa, sb).
  f_equal. rewrite (Z.compare_antisym ea eb).
  change (Pos.compare_cont Eq mb ma) with (Pos.compare mb ma).
  change (Pos.compare_cont Eq ma mb) with (Pos.compare ma mb).
  rewrite (Pos.compare_antisym ma mb).
  destruct sa, sb; simpl; try done;
    destruct (ea ?= eb); simpl; try done; by destruct (ma ?= mb)%positive.
Qed.

Lemma SFcompare_number (a b : spec_float) :
  is_nan a = false → is_nan b = false → ∃ c, SFcompare a b = Some c.
Proof. destruct a, b; simpl; try done; eauto. Qed.

(** Between numbers, [a < b] is the negation of [b <= a]. *)
Lemma SFltb_not_leb (a b : spec_float) :
  is_nan a = false → is_nan b = false → SFltb a b = negb (SFleb b a).
Proof.
  intros Ha Hb. unfold SFltb, SFleb. rewrite (SFcompare_antisym a b).
  destruct (SFcompare_number a b Ha Hb) as [c ->]. by destruct c.
Qed.

Lemma SFleb_not_ltb (a b : spec_float) :
  is_nan a = false → is_nan b = false → SFleb a b = negb (SFltb b a).
Proof.
  intros Ha Hb. unfold SFltb, SFleb. rewrite (SFcompare_antisym a b).
  destruct (SFcompare_number a b Ha Hb) as [c ->]. by destruct c.
Qed.

(** A comparison of a column raises on the first text, and tests every
    number otherwise. *)
Lemma mapM_compare_with (p : spec_float → bool) (q : Z → bool) (l : list value) :
  mapM (compare_with p q) l =
    if existsb is_text l then Raise TypeError else Ok (map (tested p q) l).
Proof.
  induction l as [|v l IH]; [done|]. cbn [mapM existsb map].
  destruct v as [|s|f|n]; cbn [compare_with is_text bind orb tested]; try done;
    rewrite IH; by destruct (existsb is_text l).
Qed.

Lemma any_map {A} (g : A → bool) (l : list A) : any (map g l) = existsb g l.
Proof. unfold any. induction l as [|x l IH]; [done|]. simpl. by rewrite IH. Qed.

Lemma all_map {A} (g : A → bool) (l : list A) : all (map g l) = forallb g l.
Proof. unfold all. induction l as [|x l IH]; [done|]. simpl. by rewrite IH. Qed.

Lemma series_or_map {A} (g h : A → bool) (l : list A) :
  series_or (map g l) (map h l) = map (fun x => g x || h x) l.
Proof.
  unfold series_or. induction l as [|x l IH]; [done|]. simpl. by rewrite IH.
Qed.

Lemma existsb_map {A B} (f : A → B) (g : B → bool) (l : list A) :
  existsb g (map f l) = existsb (fun x => g (f x)) l.
Proof. induction l as [|x l IH]; [done|]. simpl. by rewrite IH. Qed.

Lemma forallb_map {A B} (f : A → B) (g : B → bool) (l : list A) :
  forallb g (map f l) = forallb (fun x => g (f x)) l.
Proof. induction l as [|x l IH]; [done|]. simpl. by rewrite IH. Qed.

Lemma not_existsb {A} (g : A → bool) (l : list A) :
  negb (existsb g l) = forallb (fun x => negb (g x)) l.
Proof.
  induction l as [|x l IH]; [done|]. simpl. rewrite <- IH. by destruct (g x).
Qed.

Lemma forallb_both {A} (g h : A → bool) (l : list A) :
  forallb g l && forallb h l = forallb (fun x => g x && h x) l.
Proof.
  induction l as [|x l IH]; [done|]. simpl. rewrite <- IH.
  by destruct (g x), (h x), (forallb g l), (forallb h l).
Qed.

Lemma forallb_same {A} (g h : A → bool) (l : list A) :
  (∀ x, g x = h x) → forallb g l = forallb h l.
Proof. intros H. induction l as [|x l IH]; [done|]. simpl. by rewrite H, IH. Qed.

(** A column passes a comparison when it holds no text and no number that
    tests true. *)
Lemma column_passes (p p' : spec_float → bool) (q q' : Z → bool) (l : list value) :
  (∀ f, p' f = negb (p f)) → (∀ n, q' n = negb (q n)) →
  negb (existsb is_text l) && negb (existsb (tested p q) l)
    = forallb (number_passes p' q') l.
Proof.
  intros Hp Hq. rewrite !not_existsb, forallb_both. apply forallb_same.
  intros [|s|f|n]; simpl; rewrite ?Hp, ?Hq; done.
Qed.

Section Validator.

Variable to_datetime_series : list value → result unit.

Local Abbreviation validate_dataframe := (validate_dataframe to_datetime_series).

(** [validate_dataframe] as a test of the rows. *)
Lemma validate_dataframe_rows (df : DataFrame) :
  validate_dataframe df =
    negb (empty df) && forallb (has_column df) required_columns
    && forallb row_passes (rows df)
    && is_ok (to_datetime_series (getitem df "timestamp")).
Proof.
  unfold Load.validate_dataframe.
  destruct (empty df); [done|].
  destruct (forallb (has_column df) required_columns); [|done].
  cbn [negb andb]. unfold getitem, le_zero, lt_zero, gt_five.
  rewrite !mapM_compare_with.
  set (R := rows df).
  assert (forallb row_passes R =
            (negb (existsb isna (map (fun r => cell r "Title") R)
                   || existsb (fun v => eqb v (VStr "")) (map (fun r => cell r "Title") R)))
            && forallb (fun r => above_zero (cell r "Price")) R
            && forallb (fun r => zero_to_five (cell r "Rating")) R
            && forallb (fun r => above_zero (cell r "Colors")) R
            && forallb (fun r => isin valid_sizes (cell r "Size")) R
            && forallb (fun r => isin valid_genders (cell r "Gender")) R) as ->.
  { rewrite !existsb_map, negb_orb, !not_existsb, !forallb_both.
    by apply forallb_same. }
  destruct (existsb isna _ || existsb _ _); [done|]. cbn [negb andb].
  rewrite <- (forallb_map (fun r => cell r "Price") above_zero).
  rewrite <- (forallb_map (fun r => cell r "Rating") zero_to_five).
  rewrite <- (forallb_map (fun r => cell r "Colors") above_zero).
  rewrite <- (forallb_map (fun r => cell r "Size") (isin valid_sizes)).
  rewrite <- (forallb_map (fun r => cell r "Gender") (isin valid_genders)).
  rewrite <- (all_map (isin valid_sizes)), <- (all_map (isin valid_genders)).
  unfold above_zero, zero_to_five.
  rewrite <- (column_passes (fun f => SFleb f (S754_zero false)) _ (fun n => n <=? 0)
                (fun n => 0 <? n) (map (fun r => cell r "Price") R))
    by (done || (intros; apply Z.ltb_antisym)).
  rewrite <- (column_passes (fun f => SFleb f (S754_zero false)) _ (fun n => n <=? 0)
                (fun n => 0 <? n) (map (fun r => cell r "Colors") R))
    by (done || (intros; apply Z.ltb_antisym)).
  rewrite <- (column_passes
                (fun f => SFltb f (S754_zero false) || SFltb (float_of_Z 5) f) _
                (fun n => (n <? 0) || (5 <? n))
                (fun n => (0 <=? n) && (n <=? 5)) (map (fun r => cell r "Rating") R))
    by ((intros; by rewrite negb_orb)
        || (intros; rewrite negb_orb, <- !Z.leb_antisym; done)).
  destruct (existsb is_text (map (fun r => cell r "Price") R)); [done|].
  cbn [bind negb andb]. rewrite any_map.
  destruct (existsb _ (map (fun r => cell r "Price") R)); [done|].
  cbn [negb andb].
  destruct (existsb is_text (map (fun r => cell r "Rating") R)); [done|].
  cbn [bind negb andb]. rewrite series_or_map, any_map.
  assert (∀ l, existsb (fun x => tested (fun f => SFltb f (S754_zero false)) (fun n => n <? 0) x
                             || tested (fun f => SFltb (float_of_Z 5) f) (fun n => 5 <? n) x) l
               = existsb (tested (fun f => SFltb f (S754_zero false) || SFltb (float_of_Z 5) f)
                                 (fun n => (n <? 0) || (5 <? n))) l) as Hor.
  { intros l. induction l as [|v l IH]; [done|]. cbn [existsb]. rewrite IH.
    by destruct v. }
  rewrite Hor.
  destruct (existsb _ (map (fun r => cell r "Rating") R)); [done|].
  cbn [negb andb].
  destruct (existsb is_text (map (fun r => cell r "Colors") R)); [done|].
  cbn [bind negb andb]. rewrite any_map.
  destruct (existsb _ (map (fun r => cell r "Colors") R)); [done|].
  cbn [negb andb].
  destruct (all _); [|done]. cbn [negb andb].
  destruct (all _); [|done]. cbn [negb andb].
  by destruct (to_datetime_series _).
Qed.

End Validator.
End ValidateFacts.

(** ** Properties of the loaders *)

Module LoadProps.
Import Py Pandas Spec Props Load PandasFacts RowFacts CleanerFacts KeptFacts
       ValidateFacts.

(** A cleaned row under a title that is a text passes the validator when it
    is in the domain of a clean record, and only then. *)
Lemma row_passes_in_domain (r : gmap string value) (title : string) :
  cleaned Transform.default_config r → cell r "Title" = VStr title →
  row_passes r = in_domain Transform.default_config r.
Proof.
  intros (_ & _ & (p & Ep & Hp) & (q & Eq & Hq) & (n & En & _) & (s & Es & _)
          & (g & Eg & _)) Et.
  unfold row_passes, in_domain. rewrite Et, Ep, Eq, En, Es, Eg.
  cbn [isna negb andb eqb above_zero zero_to_five number_passes isin].
  unfold positive_float, rating_in_range.
  rewrite (SFltb_not_leb (S754_zero false) p) by done.
  rewrite (SFleb_not_ltb (S754_zero false) q) by done.
  rewrite (SFleb_not_ltb q (float_of_Z 5)) by done.
  reflexivity.
Qed.

Ltac trace_tail :=
  let calls := fresh "calls" in
  let data := fresh "data" in
  let H := fresh "H" in
  intros calls data H;
  do 6 (destruct calls as [|? calls]; [cbn in H; simplify_eq; done|]);
  cbn in H; simplify_eq; by destruct calls.

Ltac sheets_branch Hshape :=
  repeat match goal with |- _ ∧ _ => split end;
  try (by apply Hshape);
  [ split; [intros ?; try done; repeat split; eauto
           | intros (? & ? & ? & ? & ? & ?); try done; intuition (try done) ]
  | intros ?; try done;
    first [ by eexists [_; _; _] | by eexists [_; _; _; _] ]
  | trace_tail ].

Section Loaders.

Variable to_datetime_series : list value → result unit.
Variable to_csv : string → DataFrame → result unit.
Variable credentials_exist : string → bool.
Variable authorize : string → result unit.
Variable open_by_key : string → result unit.
Variable worksheet : string → result bool.
Variable add_worksheet : string → Z → Z → result unit.
Variable clear : result unit.
Variable update : list (list value) → result unit.
Variable connect : string → result unit.
Variable to_sql : string → DataFrame → result unit.
Variable count : string → result Z.
Variable config : LoadConfig.

Local Abbreviation validate_dataframe := (validate_dataframe to_datetime_series).
Local Abbreviation load_to_csv := (load_to_csv to_datetime_series to_csv config).
Local Abbreviation load_to_google_sheets :=
  (load_to_google_sheets credentials_exist authorize open_by_key worksheet
     add_worksheet clear update config).
Local Abbreviation load_to_postgres :=
  (load_to_postgres to_datetime_series connect to_sql count config).

Lemma validate_dataframe_true (df : DataFrame) :
  validate_dataframe df = true ↔
    rows df ≠ [] ∧ (∀ c, c ∈ required_columns → c ∈ columns df) ∧
    Forall (fun r => row_passes r = true) (rows df) ∧
    is_ok (to_datetime_series (getitem df "timestamp")) = true.
Proof.
  rewrite validate_dataframe_rows, !andb_true_iff, negb_true_iff.
  rewrite !forallb_forall, List.Forall_forall.
  unfold empty. rewrite orb_false_iff, !bool_decide_eq_false.
  split.
  - intros [[[[_ Hr] Hc] Hp] Ht]. repeat split; try done.
    intros c Hin. apply list_elem_of_In in Hin.
    specialize (Hc c Hin). by apply bool_decide_eq_true in Hc.
  - intros (Hr & Hc & Hp & Ht). repeat split; try done.
    + intros E. specialize (Hc "Title" ltac:(set_solver)). rewrite E in Hc.
      by inversion Hc.
    + intros c Hin. apply bool_decide_eq_true, Hc. by apply list_elem_of_In.
Qed.

(** X7.  The validator accepts a table when it has a row, holds the seven
    columns, every row passes on its own and the column of timestamps
    parses, and only then.  A row passes with a title that is neither
    missing nor empty, a price and a colour count above zero, a rating
    from 0 to 5, a size and a gender of the two lists; a missing price,
    rating or count passes, a text in their place does not. *)
Theorem validate_dataframe_row_by_row (df : DataFrame) :
  (validate_dataframe df = true ↔
     rows df ≠ [] ∧ (∀ c, c ∈ required_columns → c ∈ columns df) ∧
     Forall (fun r => row_passes r = true) (rows df) ∧
     is_ok (to_datetime_series (getitem df "timestamp")) = true) ∧
  (∀ s, above_zero VNone = true ∧ zero_to_five VNone = true ∧
        above_zero (VStr s) = false ∧ zero_to_five (VStr s) = false).
Proof. split; [apply validate_dataframe_true | done]. Qed.

(** X9.  [load_to_csv] makes no call for a table the validator refuses, and
    one call otherwise: it writes the table it is given, whole, to the
    path it is given, or to the configured one when the path is missing or
    empty.  It answers [True] when that call returns. *)
Theorem load_to_csv_writes_valid_tables (df : DataFrame) (filepath : option string) :
  let path := match filepath with
              | None | Some EmptyString => CSV_FILENAME config
              | Some p => p
              end in
  load_to_csv df filepath =
    (if validate_dataframe df
     then (is_ok (to_csv path df), [CsvWrite path (CSV_ENCODING config) df])
     else (false, [])) ∧
  ((load_to_csv df filepath).2 ≠ [] →
     rows df ≠ [] ∧ Forall (fun r => row_passes r = true) (rows df)).
Proof.
  intros path.
  assert (load_to_csv df filepath =
            if validate_dataframe df
            then (is_ok (to_csv path df), [CsvWrite path (CSV_ENCODING config) df])
            else (false, [])) as E.
  { unfold Load.load_to_csv. destruct (validate_dataframe df); [|done].
    cbn [negb]. unfold output_path, call, io_bind, io_ret, except_false.
    assert (match filepath with
            | Some (String c p) => String c p
            | _ => CSV_FILENAME config
            end = path) as -> by (by destruct filepath as [[|]|]).
    by destruct (to_csv path df) as [[]|]. }
  split; [done|]. rewrite E.
  destruct (validate_dataframe df) eqn:Hv; [|done]. intros _.
  apply validate_dataframe_true in Hv as (? & _ & ? & _). done.
Qed.

Lemma load_to_postgres_true (df : DataFrame) :
  (load_to_postgres df).1 = true →
  validate_dataframe df = true ∧
  count (TABLE_NAME config) = Ok (Z.of_nat (length (rows df))).
Proof.
  unfold Load.load_to_postgres.
  destruct (validate_dataframe df); cbn [negb]; [|done].
  unfold call, io_bind, io_ret, except_false.
  destruct (connect (connection_string config)) as [[]|e]; cbn; [|done].
  destruct (to_sql (TABLE_NAME config) df) as [[]|e]; cbn; [|done].
  destruct (count (TABLE_NAME config)) as [n|e]; cbn; [|done].
  intros H. apply Z.eqb_eq in H. by rewrite H.
Qed.

(** X10.  [load_to_postgres] makes no call for a table the validator
    refuses, and stores nothing when the connection fails.  It answers
    [True] exactly when the table is valid, the connection and the upload
    return, and the count read back is the number of rows; the calls are
    then the connection, the upload of the whole table and the count. *)
Theorem load_to_postgres_stores_valid_tables (df : DataFrame) :
  let cs := connection_string config in
  let table := TABLE_NAME config in
  (validate_dataframe df = false → load_to_postgres df = (false, [])) ∧
  (is_ok (connect cs) = false → (load_to_postgres df).2 `sublist_of` [DbConnect cs]) ∧
  ((load_to_postgres df).2 ≠ [] →
     rows df ≠ [] ∧ Forall (fun r => row_passes r = true) (rows df)) ∧
  ((load_to_postgres df).1 = true ↔
     validate_dataframe df = true ∧ is_ok (connect cs) = true ∧
     is_ok (to_sql table df) = true ∧
     count table = Ok (Z.of_nat (length (rows df)))) ∧
  ((load_to_postgres df).1 = true →
     (load_to_postgres df).2 = [DbConnect cs; DbToSql table df; DbCount table]).
Proof.
  intros cs table. unfold Load.load_to_postgres. fold cs. fold table.
  destruct (validate_dataframe df) eqn:Hv; cbn [negb].
  2:{ cbn. split; [done|]. split; [intros _; constructor; constructor|].
      split; [done|]. split; [|done]. split; [done | by intros (? & _)]. }
  apply validate_dataframe_true in Hv as (Hr & _ & Hp & _).
  unfold call, io_bind, io_ret, except_false.
  destruct (connect cs) as [[]|e]; cbn.
  2:{ split; [done|]. split; [done|]. split; [done|]. split; [|done].
      split; [done | by intros (_ & ? & _)]. }
  destruct (to_sql table df) as [[]|e]; cbn.
  2:{ split; [done|]. split; [done|]. split; [done|]. split; [|done].
      split; [done | by intros (_ & _ & ? & _)]. }
  destruct (count table) as [n|e]; cbn.
  2:{ split; [done|]. split; [done|]. split; [done|]. split; [|done].
      split; [done | by intros (_ & _ & _ & ?)]. }
  split; [done|]. split; [done|]. split; [done|]. split; [|done]. split.
  - intros H. apply Z.eqb_eq in H. by rewrite H.
  - intros (_ & _ & _ & H). injection H as ->. apply Z.eqb_refl.
Qed.

(** X11.  [load_to_google_sheets] never asks the validator: it answers
    [True] exactly when the credentials file exists and every call to the
    service returns, whatever the table holds.  A worksheet that is
    missing is added with one row more than the table and its number of
    columns; the worksheet is cleared before the upload; the upload is the
    header line followed by one line per row, each as long as the
    header. *)
Theorem load_to_google_sheets_uploads_any_table (df : DataFrame) :
  let name := WORKSHEET_NAME config in
  let height := Z.of_nat (length (rows df)) + 1 in
  let width := Z.of_nat (length (columns df)) in
  ((load_to_google_sheets df).1 = true ↔
     credentials_exist (CREDENTIALS_FILE config) = true ∧
     is_ok (authorize (CREDENTIALS_FILE config)) = true ∧
     is_ok (open_by_key (SPREADSHEET_ID config)) = true ∧
     (worksheet name = Ok true ∨
      worksheet name = Ok false ∧ is_ok (add_worksheet name height width) = true) ∧
     is_ok clear = true ∧ is_ok (update (sheet_data df)) = true) ∧
  ((load_to_google_sheets df).1 = true →
     ∃ calls, (load_to_google_sheets df).2
                = (calls ++ [SheetsClear; SheetsUpdate (sheet_data df)])%list) ∧
  (∀ calls data, (load_to_google_sheets df).2 = (calls ++ [SheetsUpdate data])%list →
     data = sheet_data df ∧ last calls = Some SheetsClear) ∧
  Z.of_nat (length (sheet_data df)) = height ∧
  Forall (fun line => Z.of_nat (length line) = width) (sheet_data df).
Proof.
  intros name height width.
  assert (Z.of_nat (length (sheet_data df)) = height ∧
          Forall (fun line => Z.of_nat (length line) = width) (sheet_data df)) as Hshape.
  { unfold sheet_data, height, width. split.
    - cbn [length]. rewrite length_map. lia.
    - constructor; [by rewrite length_map|].
      apply Forall_forall. intros line (r & -> & _)%list_elem_of_fmap.
      by rewrite length_map. }
  unfold Load.load_to_google_sheets. fold name. fold height. fold width.
  unfold call, io_bind, io_ret, except_false.
  destruct (credentials_exist _); cbn; [|sheets_branch Hshape].
  destruct (authorize _) as [[]|e]; cbn; [|sheets_branch Hshape].
  destruct (open_by_key _) as [[]|e]; cbn; [|sheets_branch Hshape].
  destruct (worksheet name) as [[|]|e]; cbn; [| |sheets_branch Hshape].
  - destruct clear as [[]|e]; cbn; [|sheets_branch Hshape].
    destruct (update _) as [[]|e]; cbn; sheets_branch Hshape.
  - destruct (add_worksheet _ _ _) as [[]|e]; cbn; [|sheets_branch Hshape].
    destruct clear as [[]|e]; cbn; [|sheets_branch Hshape].
    destruct (update _) as [[]|e]; cbn; sheets_branch Hshape.
Qed.

End Loaders.

Section CleanedAndValidated.

Variable float_text : spec_float → string.
Variable datetime_text : value → option string.
Variable int32_overflow : DataFrame → Z → result Z.
Variable to_datetime_series : list value → result unit.

Local Abbreviation transform_dataframe :=
  (Transform.transform_dataframe float_text datetime_text int32_overflow
     Transform.default_config).
Local Abbreviation validate_dataframe := (validate_dataframe to_datetime_series).

(** The rows of a cleaned table, under titles that were texts. *)
Lemma cleaned_rows_pass (df t : DataFrame) :
  Forall (fun r => str_or_none (cell r "Title")) (rows df) →
  Transform.missing_input df = false →
  transform_dataframe df = Ok t →
  (∀ c, c ∈ required_columns → c ∈ columns t) ∧
  Forall (fun r => row_passes r = in_domain Transform.default_config r) (rows t).
Proof.
  intros Htitles Hmiss Ht. split.
  - destruct (transform_dataframe_returned float_text datetime_text int32_overflow
                Transform.default_config df t Hmiss Ht) as (d6 & _ & Hcols & _).
    intros c Hc. rewrite Hcols.
    unfold Transform.missing_input in Hmiss.
    apply orb_false_elim in Hmiss as [_ Hreq]. apply negb_false_iff in Hreq.
    pose proof (has_required_columns df c Hreq Hc) as H.
    by apply bool_decide_eq_true in H.
  - apply Forall_forall. intros r' Hr'.
    destruct (returned_row_origin float_text datetime_text int32_overflow
                Transform.default_config df t r' Hmiss Ht Hr')
      as (r & r6 & Hr & Hrr6 & _ & Hc & Hcells).
    assert ("Title" ∉ ["Price"; "Rating"; "Colors"; "Size"; "Gender"; "timestamp"])
      as Hnot by (apply (bool_decide_unpack _); vm_compute; exact I).
    pose proof (applied_other_cells float_text datetime_text Transform.default_config
                  r r6 "Title" Hrr6 Hnot) as E6.
    pose proof (Hcells "Title" ltac:(done)) as Etitle. rewrite E6 in Etitle.
    rewrite Forall_forall in Htitles.
    destruct (Htitles r Hr) as [E | [title E]].
    + destruct Hc as (Hna & _). rewrite Etitle, E in Hna. done.
    + apply (row_passes_in_domain r' title); [done|]. by rewrite Etitle.
Qed.

(** X8.  Of the tables the cleaner returns, for titles that were texts, the
    validator accepts those with a row, with every row in the domain of a
    clean record and with a column of timestamps that parses, and no
    other: the rows the cleaner lets through out of range are stopped
    here. *)
Theorem validate_dataframe_on_cleaned (df t : DataFrame) :
  Forall (fun r => str_or_none (cell r "Title")) (rows df) →
  transform_dataframe df = Ok t →
  (validate_dataframe t = true ↔
     rows t ≠ [] ∧
     Forall (fun r => in_domain Transform.default_config r = true) (rows t) ∧
     is_ok (to_datetime_series (getitem t "timestamp")) = true).
Proof.
  intros Htitles Ht. destruct (Transform.missing_input df) eqn:Hmiss.
  { rewrite transform_dataframe_missing in Ht by done. injection Ht as <-.
    rewrite validate_dataframe_true. cbn. split; [by intros (? & _) | by intros (? & _)]. }
  destruct (cleaned_rows_pass df t Htitles Hmiss Ht) as [Hcols Hrows].
  rewrite validate_dataframe_true.
  assert (Forall (fun r => row_passes r = true) (rows t)
          ↔ Forall (fun r => in_domain Transform.default_config r = true) (rows t)) as ->.
  { rewrite !Forall_forall. rewrite Forall_forall in Hrows.
    split; intros H r Hr; specialize (Hrows r Hr); specialize (H r Hr); congruence. }
  tauto.
Qed.

End CleanedAndValidated.

(** The table cleaned from [catalogue] holds the odd card, and is refused;
    the table cleaned from [one_shirt] is accepted. *)
Lemma validate_dataframe_on_cleaned_witness :
  ∃ t t',
    Transform.transform_dataframe Samples.dyadic_text Samples.iso_datetime_text
      Samples.int64_bits Transform.default_config Samples.catalogue = Ok t ∧
    Load.validate_dataframe Services.parses t = false ∧
    ¬ Forall (fun r => in_domain Transform.default_config r = true) (rows t) ∧
    Transform.transform_dataframe Samples.dyadic_text Samples.iso_datetime_text
      Samples.int64_bits Transform.default_config Samples.one_shirt = Ok t' ∧
    Load.validate_dataframe Services.parses t' = true ∧
    Forall (fun r => in_domain Transform.default_config r = true) (rows t').
Proof.
  assert (∃ t, Transform.transform_dataframe Samples.dyadic_text
                 Samples.iso_datetime_text Samples.int64_bits
                 Transform.default_config Samples.catalogue = Ok t ∧
               Load.validate_dataframe Services.parses t = false)
    as (t & Ht & Hv).
  { eexists. split; [vm_compute; reflexivity | vm_compute; reflexivity]. }
  assert (∃ t, Transform.transform_dataframe Samples.dyadic_text
                 Samples.iso_datetime_text Samples.int64_bits
                 Transform.default_config Samples.one_shirt = Ok t ∧
               Load.validate_dataframe Services.parses t = true)
    as (t' & Ht' & Hv').
  { eexists. split; [vm_compute; reflexivity | vm_compute; reflexivity]. }
  assert (Forall (fun r => str_or_none (cell r "Title")) (rows Samples.catalogue))
    as Hc.
  { repeat (constructor; [right; eexists; vm_compute; reflexivity|]). constructor. }
  assert (Forall (fun r => str_or_none (cell r "Title")) (rows Samples.one_shirt))
    as Hc'.
  { repeat (constructor; [right; eexists; vm_compute; reflexivity|]). constructor. }
  destruct (validate_dataframe_on_cleaned Samples.dyadic_text
              Samples.iso_datetime_text Samples.int64_bits Services.parses
              Samples.catalogue t Hc Ht) as [_ Hback].
  destruct (validate_dataframe_on_cleaned Samples.dyadic_text
              Samples.iso_datetime_text Samples.int64_bits Services.parses
              Samples.one_shirt t' Hc' Ht') as [Hforth _].
  exists t, t'. split; [exact Ht|]. split; [exact Hv|]. split.
  - intros Hall.
    assert (Load.validate_dataframe Services.parses t = true) as Hyes.
    { apply Hback. split; [|split; [exact Hall | reflexivity]].
      vm_compute in Ht. injection Ht as <-. discriminate. }
    rewrite Hyes in Hv. discriminate Hv.
  - split; [exact Ht'|]. split; [exact Hv'|]. apply (Hforth Hv').
Defined.

End LoadProps.

(** ** The extractor: cards, pages and the harvest *)

Module HarvestFacts.
Import Py Pandas Extract Spec Props PyFacts CardFacts ChunkFacts.

(** A paragraph leaves every key but the four fields as it is. *)
Lemma for_each_other_keys (ps : list string) (info info' : gmap string value)
    (i : string) :
  for_each paragraph_step info ps = Ok info' →
  (∀ f, i ≠ key f) → info' !! i = info !! i.
Proof.
  revert info. induction ps as [|p ps IH]; intros info H Hi.
  { by injection H as <-. }
  cbn [for_each] in H. rewrite paragraph_step_classify in H. cbn [bind] in H.
  rewrite (IH _ H Hi). destruct (classify (strip p)) as [f|]; [|done].
  apply lookup_insert_ne. intros E. by apply (Hi f).
Qed.

Lemma get_additional_info_map (details : product_details) :
  _get_additional_info details =
    Ok (list_to_map
          [("Rating", field_value Rating (paragraphs details));
           ("Colors", field_value Colors (paragraphs details));
           ("Size", field_value Size (paragraphs details));
           ("Gender", field_value Gender (paragraphs details))]).
Proof.
  destruct (get_additional_info_fields details) as (info & Hinfo & Hfields).
  rewrite Hinfo. f_equal.
  pose proof (Hfields Rating) as E1. pose proof (Hfields Colors) as E2.
  pose proof (Hfields Size) as E3. pose proof (Hfields Gender) as E4.
  cbn [key] in E1, E2, E3, E4. revert E1 E2 E3 E4.
  generalize (field_value Rating (paragraphs details))
             (field_value Colors (paragraphs details))
             (field_value Size (paragraphs details))
             (field_value Gender (paragraphs details)).
  intros a b c d E1 E2 E3 E4. apply map_eq. intros i.
  destruct (decide (i = "Rating")) as [-> | H1]; [by rewrite E1|].
  destruct (decide (i = "Colors")) as [-> | H2]; [by rewrite E2|].
  destruct (decide (i = "Size")) as [-> | H3]; [by rewrite E3|].
  destruct (decide (i = "Gender")) as [-> | H4]; [by rewrite E4|].
  rewrite (for_each_other_keys _ _ _ i Hinfo) by (by intros []).
  unfold initial_info. cbn [list_to_map foldr fst snd uncurry].
  rewrite !lookup_insert_ne by done. rewrite lookup_singleton_ne by done.
  by rewrite lookup_empty.
Qed.

(** A card with a details block gives its record, whatever its
    paragraphs. *)
Lemma extract_product_details_record (now : string)
    (soup : option product_details) :
  extract_product_details now soup = record_of now <$> soup.
Proof.
  destruct soup as [details|]; [|done].
  unfold extract_product_details. rewrite get_additional_info_map. cbn [bind fmap option_fmap option_map].
  reflexivity.
Qed.

Lemma record_of_keys (now : string) (details : product_details) :
  dom (record_of now details) = list_to_set product_keys.
Proof.
  unfold record_of. rewrite dom_list_to_map_L. done.
Qed.

Lemma concat_map_concat {A B} (f : A → list B) (ls : list (list A)) :
  concat (map (fun l => concat (map f l)) ls) = concat (map f (concat ls)).
Proof.
  induction ls as [|l ls IH]; [done|]. simpl.
  by rewrite map_app, concat_app, IH.
Qed.

Lemma concat_permutation {A} (l k : list (list A)) :
  l ≡ₚ k → concat l ≡ₚ concat k.
Proof.
  induction 1 as [|x l k _ IH|x y l|l k m _ IH1 _ IH2]; simpl.
  - done.
  - by rewrite IH.
  - rewrite !(assoc_L (++)). by rewrite (comm (++) y x).
  - by etrans.
Qed.

Lemma imap_snd {A B} (f : A → B) (l : list A) :
  map snd (imap (fun i x => (i, f x)) l) = map f l.
Proof.
  change (map snd) with (fmap (M:=list) (@snd nat B)).
  rewrite fmap_imap. unfold compose. simpl.
  induction l as [|x l IH]; [done|]. simpl. f_equal.
  rewrite <- IH. apply imap_ext. done.
Qed.


Lemma records_of_length_from (time : nat → string) (k : nat → nat)
    (cards : list (option product_details)) :
  length (omap (fun '(i, card) => record_of (time i) <$> card)
               (imap (fun i card => (k i, card)) cards))
    = length (omap id cards).
Proof.
  revert k. induction cards as [|card cards IH]; intros k; [done|].
  cbn [imap omap list_omap]. specialize (IH (k ∘ S)).
  destruct card as [details|]; cbn; by rewrite <- IH.
Qed.

Lemma records_of_length (time : nat → string)
    (cards : list (option product_details)) :
  length (records_of time cards) = length (omap id cards).
Proof. apply (records_of_length_from time (fun i => i)). Qed.

Lemma records_of_keys (time : nat → string)
    (cards : list (option product_details)) :
  Forall (fun r => dom r = list_to_set product_keys) (records_of time cards).
Proof.
  apply Forall_forall. intros r Hr. unfold records_of in Hr.
  apply list_elem_of_omap in Hr as ([i [details|]] & _ & Hr); [|done].
  injection Hr as <-. apply record_of_keys.
Qed.

Lemma records_of_titles (time : nat → string)
    (cards : list (option product_details)) :
  Forall (fun r => str_or_none (cell r "Title")) (records_of time cards).
Proof.
  apply Forall_forall. intros r Hr. unfold records_of in Hr.
  apply list_elem_of_omap in Hr as ([i [details|]] & _ & Hr); [|done].
  injection Hr as <-.
  change (cell (record_of (time i) details) "Title")
    with (text_or_none (title details)).
  destruct (title details); [right; eauto | by left].
Qed.

Section Harvest.

Variable http_get : string → result string.
Variable soup : string → page_content.
Variable clock : Z → nat → string.
Variable as_completed :
  list (nat * list (gmap string value)) → list (nat * list (gmap string value)).
Variable config : ScraperConfig.

Lemma process_page_content_records (content : string) (page : Z) :
  _process_page_content soup clock content page =
    match soup content with
    | None => []
    | Some cards => records_of (clock page) cards
    end.
Proof.
  unfold _process_page_content, records_of.
  destruct (soup content) as [cards|]; [|done].
  generalize (imap (fun i card => (i, card)) cards). intros l.
  induction l as [|[i card] l IH]; [done|]. cbn [omap list_omap].
  by rewrite extract_product_details_record, IH.
Qed.

Lemma scrape_single_page_keys (page : Z) :
  Forall (fun r => dom r = list_to_set product_keys)
         (_scrape_single_page http_get soup clock config page).
Proof.
  unfold _scrape_single_page.
  destruct (http_get (page_url config page)) as [content|e]; cbn [bind]; [|done].
  rewrite process_page_content_records.
  destruct (soup content); [apply records_of_keys | done].
Qed.

Lemma scrape_single_page_titles (page : Z) :
  Forall (fun r => str_or_none (cell r "Title"))
         (_scrape_single_page http_get soup clock config page).
Proof.
  unfold _scrape_single_page.
  destruct (http_get (page_url config page)) as [content|e]; cbn [bind]; [|done].
  rewrite process_page_content_records.
  destruct (soup content); [apply records_of_titles | done].
Qed.


Hypothesis as_completed_permutes : ∀ futures, as_completed futures ≡ₚ futures.

(** With no page or no worker the harvest is empty. *)
Lemma scrape_nothing_to_do :
  NUM_PAGES config ≤ 0 ∨ MAX_WORKERS config ≤ 0 →
  scrape http_get soup clock as_completed config = DataFrame_empty.
Proof.
  intros H. unfold scrape.
  destruct (executor (MAX_WORKERS config)) as [[]|e] eqn:He.
  2:{ by destruct (page_chunks config). }
  unfold executor in He.
  destruct (MAX_WORKERS config <=? 0) eqn:Hw; [done|].
  apply Z.leb_gt in Hw. destruct H as [Hn | Hw']; [|lia].
  unfold page_chunks, range.
  change (1 =? 0) with false. cbn iota.
  assert (range_length 1 (NUM_PAGES config + 1) 1 = 0) as ->.
  { unfold range_length. change (0 <? 1) with true. cbn iota.
    rewrite Z.div_1_r. lia. }
  change (Z.to_nat 0) with 0%nat. cbn [seq map length bind].
  change (Z.of_nat 0) with 0.
  destruct (CHUNK_SIZE config =? 0) eqn:Hc; [done|].
  assert (range_length 0 0 (CHUNK_SIZE config) = 0) as ->.
  { unfold range_length. apply Z.eqb_neq in Hc.
    destruct (0 <? CHUNK_SIZE config) eqn:Hpos.
    - apply Z.ltb_lt in Hpos.
      rewrite Z.div_small by lia. lia.
    - apply Z.ltb_ge in Hpos.
      rewrite Z.div_small by lia. lia. }
  change (Z.to_nat 0) with 0%nat. cbn [seq map bind imap].
  pose proof (as_completed_permutes []) as Hnil.
  apply Permutation_nil_r in Hnil. by rewrite Hnil.
Qed.

(** The products of the harvest are those of the chunks. *)
Lemma scrape_products (chunks : list (list Z)) :
  page_chunks config = Ok chunks → 1 ≤ MAX_WORKERS config →
  ∃ products,
    products ≡ₚ concat (map (_scrape_single_page http_get soup clock config)
                            (concat chunks)) ∧
    scrape http_get soup clock as_completed config =
      match products with
      | [] => DataFrame_empty
      | _ => DataFrame_of products
      end.
Proof.
  intros Hchunks Hw. unfold scrape. rewrite Hchunks. cbn [bind].
  unfold executor. replace (MAX_WORKERS config <=? 0) with false
    by (symmetry; apply Z.leb_gt; lia).
  cbn [bind].
  eexists. split; [|reflexivity].
  rewrite (concat_permutation _ _
             (fmap_Permutation snd _ _ (as_completed_permutes _))).
  change (snd <$> ?l) with (map snd l).
  rewrite (imap_snd (scrape_chunk http_get soup clock config)).
  unfold scrape_chunk. by rewrite concat_map_concat.
Qed.

(** Every title of the harvest is a text or missing. *)
Lemma scrape_titles (chunks : list (list Z)) :
  page_chunks config = Ok chunks → 1 ≤ MAX_WORKERS config →
  Forall (fun r => str_or_none (cell r "Title"))
         (rows (scrape http_get soup clock as_completed config)).
Proof.
  intros Hchunks Hw.
  destruct (scrape_products chunks Hchunks Hw) as (products & Hperm & ->).
  assert (Forall (fun r => str_or_none (cell r "Title")) products) as H.
  { rewrite Hperm. apply Forall_concat, Forall_forall.
    intros l (page & -> & _)%list_elem_of_fmap.
    apply scrape_single_page_titles. }
  by destruct products.
Qed.

End Harvest.
End HarvestFacts.

(** ** Properties of the extractor *)

Module ExtractProps.
Import Py Pandas Extract Spec Props PyFacts CardFacts ChunkFacts HarvestFacts.

(** X12.  [extract_product_details] answers [None] for a card without a
    details block and for no other: no paragraph makes it fail.  The
    record of a card holds the seven keys and nothing else, the time of
    reading among them.  For a card whose white space is all ASCII the
    record is that of [record_of]: the trimmed title and price, or null
    where the element is missing, the four fields read from the
    paragraphs, and the time. *)
Theorem extract_product_details_record_of (now : string)
    (soup : option product_details) :
  (extract_product_details now soup = None ↔ soup = None) ∧
  (∀ r, extract_product_details now soup = Some r →
        dom r = list_to_set product_keys ∧ cell r "timestamp" = VStr now) ∧
  (∀ details, soup = Some details → narrow_card details = true →
              extract_product_details now soup = Some (record_of now details)).
Proof.
  rewrite extract_product_details_record. split; [by destruct soup|]. split.
  - intros r Hr. destruct soup as [details|]; [|done].
    injection Hr as <-. split; [apply record_of_keys | done].
  - by intros details -> _.
Qed.

(** The record of [rated_card]. *)
Lemma extract_product_details_record_of_witness :
  ∃ r, extract_product_details "2025-05-01T10:20:30" (Some Samples.rated_card)
         = Some r ∧
       map (cell r) product_keys =
         [VStr "T-shirt 2"; VStr "$12.50"; VStr "4.8"; VStr "3 Colors";
          VStr "Size: M"; VStr "Gender: Men"; VStr "2025-05-01T10:20:30"].
Proof.
  destruct (extract_product_details_record_of "2025-05-01T10:20:30"
              (Some Samples.rated_card)) as (_ & _ & H).
  exists (record_of "2025-05-01T10:20:30" Samples.rated_card).
  split; [apply H; reflexivity | vm_compute; reflexivity].
Defined.

Section Harvest.

Variable http_get : string → result string.
Variable soup : string → page_content.
Variable clock : Z → nat → string.
Variable as_completed :
  list (nat * list (gmap string value)) → list (nat * list (gmap string value)).

(** X13.  A page without the collection grid gives no record.  A page with
    it gives one record for every card that has a details block and none
    for the others, each with the seven keys.  For cards whose white space
    is all ASCII the records are, in document order, those of
    [records_of], each stamped with the clock at its card. *)
Theorem process_page_content_per_card (content : string) (page : Z) :
  let products := _process_page_content soup clock content page in
  (soup content = None → products = []) ∧
  length products = match soup content with
                    | None => 0%nat
                    | Some cards => length (omap id cards)
                    end ∧
  Forall (fun r => dom r = list_to_set product_keys) products ∧
  (∀ cards, soup content = Some cards → narrow_cards cards = true →
            products = records_of (clock page) cards).
Proof.
  intros products. unfold products. rewrite process_page_content_records.
  split; [by intros ->|]. split; [|split].
  - destruct (soup content) as [cards|]; [apply records_of_length | done].
  - destruct (soup content) as [cards|]; [apply records_of_keys | done].
  - by intros cards -> _.
Qed.


Hypothesis as_completed_permutes : ∀ futures, as_completed futures ≡ₚ futures.

(** X16.  A configuration without a worker cannot be built: the
    constructor raises [ZeroDivisionError] for [MAX_WORKERS = 0] and for
    no other value.  A harvest with no page, or with a configuration
    changed to no worker or fewer, returns the empty table. *)
Theorem scrape_without_pages_or_workers (config : ScraperConfig) :
  NUM_PAGES config ≤ 0 ∨ MAX_WORKERS config ≤ 0 →
  scrape http_get soup clock as_completed config = DataFrame_empty ∧
  ∀ url n w, (__post_init__ url n w = Raise ZeroDivisionError ↔ w = 0) ∧
             (w ≠ 0 → is_ok (__post_init__ url n w) = true).
Proof.
  intros H. split; [by apply scrape_nothing_to_do|].
  intros url n w. unfold __post_init__, floordiv, pymod.
  destruct (w =? 0) eqn:Hw; cbn.
  - apply Z.eqb_eq in Hw. done.
  - apply Z.eqb_neq in Hw. done.
Qed.

(** X14.  With at least one page and one worker, and whatever the order in
    which the workers finish, the harvest holds the products of every page
    from 1 to [NUM_PAGES], each page once: it is a permutation of the
    pages' products taken in page order.  Every product has the seven
    keys, and the table is the empty one when there is no product. *)
Theorem scrape_collects_every_page (url : string) (n w : Z) :
  1 ≤ n → 1 ≤ w →
  ∃ config products,
    __post_init__ url n w = Ok config ∧
    products ≡ₚ concat (map (_scrape_single_page http_get soup clock config)
                            (seqZ 1 n)) ∧
    Forall (fun r => dom r = list_to_set product_keys) products ∧
    scrape http_get soup clock as_completed config =
      match products with
      | [] => DataFrame_empty
      | _ => DataFrame_of products
      end.
Proof.
  intros Hn Hw.
  destruct (page_chunks_spec url n w Hn Hw)
    as (config & chunks & Hconfig & _ & Hchunks & Hconcat & _).
  assert (MAX_WORKERS config = w) as Hworkers.
  { revert Hconfig. unfold __post_init__, floordiv, pymod.
    destruct (w =? 0); [done|]. cbn [bind]. by intros [= <-]. }
  destruct (scrape_products http_get soup clock as_completed config
              as_completed_permutes chunks Hchunks ltac:(lia))
    as (products & Hperm & Hscrape).
  rewrite Hconcat in Hperm.
  exists config, products. repeat (split; [done|]). split; [|done].
  rewrite Hperm. apply Forall_concat, Forall_forall.
  intros l (page & -> & _)%list_elem_of_fmap.
  apply scrape_single_page_keys.
Qed.

End Harvest.

(** The first page of the site of two pages: one card, one record. *)
Lemma process_page_content_per_card_witness :
  ∃ r, _process_page_content Samples.two_pages_soup Samples.stopped_clock "first" 1
         = [r] ∧
       map (cell r) product_keys =
         [VStr "T-shirt 2"; VStr "$12.50"; VStr "4.8"; VStr "3 Colors";
          VStr "Size: M"; VStr "Gender: Men"; VStr "2025-05-01T10:20:30"].
Proof.
  destruct (process_page_content_per_card Samples.two_pages_soup
              Samples.stopped_clock "first" 1) as (_ & _ & _ & H).
  specialize (H [Some Samples.rated_card] eq_refl eq_refl).
  eexists. split; [rewrite H; reflexivity | vm_compute; reflexivity].
Defined.


Lemma scrape_without_pages_or_workers_witness :
  scrape Samples.two_pages_get Samples.two_pages_soup Samples.stopped_clock
         Samples.in_submission_order
         (mkScraperConfig "https://fashion-studio.dicoding.dev" 0 10 0)
    = DataFrame_empty.
Proof.
  refine (proj1 (scrape_without_pages_or_workers Samples.two_pages_get
                   Samples.two_pages_soup Samples.stopped_clock
                   Samples.in_submission_order _
                   (mkScraperConfig "https://fashion-studio.dicoding.dev" 0 10 0) _)).
  - intros futures. reflexivity.
  - left. simpl. lia.
Defined.

Lemma scrape_collects_every_page_witness :
  ∃ config products,
    __post_init__ "https://fashion-studio.dicoding.dev" 2 1 = Ok config ∧
    products ≡ₚ concat (map (_scrape_single_page Samples.two_pages_get
                               Samples.two_pages_soup Samples.stopped_clock config)
                            (seqZ 1 2)) ∧
    Forall (fun r => dom r = list_to_set product_keys) products ∧
    scrape Samples.two_pages_get Samples.two_pages_soup Samples.stopped_clock
           Samples.in_submission_order config =
      match products with
      | [] => DataFrame_empty
      | _ => DataFrame_of products
      end.
Proof.
  apply scrape_collects_every_page.
  - intros futures. reflexivity.
  - lia.
  - lia.
Defined.

End ExtractProps.

(** ** Properties of the pipeline *)

Module PipelineProps.
Import Py Pandas Spec Props PandasFacts RowFacts CleanerFacts KeptFacts ValidateFacts
       HarvestFacts LoadProps.

(** [ScraperConfig()] *)
Lemma default_scraper_config :
  Extract.default_config =
    Ok (Extract.mkScraperConfig "https://fashion-studio.dicoding.dev" 50 10 5).
Proof. reflexivity. Qed.

Lemma default_page_chunks :
  ∃ chunks,
    Extract.page_chunks
      (Extract.mkScraperConfig "https://fashion-studio.dicoding.dev" 50 10 5)
      = Ok chunks.
Proof. eexists. vm_compute. reflexivity. Qed.

Section Pipeline.

Variable float_text : spec_float → string.
Variable datetime_text : value → option string.
Variable int32_overflow : DataFrame → Z → result Z.
Variable http_get : string → result string.
Variable soup : string → Extract.page_content.
Variable clock : Z → nat → string.
Variable as_completed :
  list (nat * list (gmap string value)) → list (nat * list (gmap string value)).
Variable raw_to_csv : DataFrame → result unit.

Local Abbreviation df_raw :=
  (Extract.scrape http_get soup clock as_completed
     (Extract.mkScraperConfig "https://fashion-studio.dicoding.dev" 50 10 5)).
Local Abbreviation transform_dataframe :=
  (Transform.transform_dataframe float_text datetime_text int32_overflow
     Transform.default_config).

Lemma run_etl_pipeline_cases
    (load_to_csv load_to_google_sheets load_to_postgres : DataFrame → bool) :
  let run := Main.run_etl_pipeline float_text datetime_text int32_overflow http_get soup
               clock as_completed raw_to_csv load_to_csv load_to_google_sheets
               load_to_postgres in
  (run = (false, []) ∧ empty df_raw = true) ∨
  (run = (false, [Main.RawToCsv df_raw]) ∧ empty df_raw = false ∧
   (is_ok (raw_to_csv df_raw) = false ∨
    is_ok (transform_dataframe df_raw) = false ∨
    ∃ t, transform_dataframe df_raw = Ok t ∧ rows t = [])) ∨
  (∃ t, run = (load_to_csv t && load_to_google_sheets t && load_to_postgres t,
               [Main.RawToCsv df_raw; Main.LoadToCsv t; Main.LoadToGoogleSheets t;
                Main.LoadToPostgres t]) ∧
        empty df_raw = false ∧ is_ok (raw_to_csv df_raw) = true ∧
        transform_dataframe df_raw = Ok t ∧ rows t ≠ [] ∧
        Forall (cleaned Transform.default_config) (rows t)).
Proof.
  intros run. unfold run, Main.run_etl_pipeline. rewrite default_scraper_config.
  destruct (empty df_raw) eqn:Hraw; [by left|]. right.
  destruct (raw_to_csv df_raw) as [[]|e] eqn:Hcsv; [|left; eauto].
  destruct (transform_dataframe df_raw) as [t|e] eqn:Ht; [|left; eauto 10].
  pose proof (transform_dataframe_cleaned _ _ _ _ _ _ Ht) as Hcl.
  destruct (empty t) eqn:Hempty.
  - left. repeat (split; [done|]). right. right. exists t. split; [done|].
    destruct (Transform.missing_input df_raw) eqn:Hmiss.
    { rewrite transform_dataframe_missing in Ht by done. by injection Ht as <-. }
    destruct (transform_dataframe_returned _ _ _ _ _ _ Hmiss Ht)
      as (d6 & _ & Hcols & _).
    unfold empty in Hempty, Hraw. rewrite Hcols in Hempty.
    apply orb_true_iff in Hempty as [H | H]; apply bool_decide_eq_true in H; [|done].
    apply orb_false_iff in Hraw as [Hraw _].
    apply bool_decide_eq_false in Hraw. done.
  - right. exists t. repeat (split; [done|]). split; [|done].
    unfold empty in Hempty. apply orb_false_iff in Hempty as [_ H].
    by apply bool_decide_eq_false in H.
Qed.

(** X17.  A run writes nothing and loads nothing when the harvest is
    empty.  It writes the raw table and loads nothing when that write
    fails, when the cleaner raises, or when the cleaned table has no row.
    Otherwise it calls the three loaders, each once and in the order CSV,
    sheet, database, each with the same cleaned table.  A loader that
    fails stops no other; the run answers [True] when all three do. *)
Theorem run_etl_pipeline_loads_all_or_none
    (load_to_csv load_to_google_sheets load_to_postgres : DataFrame → bool) :
  let run := Main.run_etl_pipeline float_text datetime_text int32_overflow http_get soup
               clock as_completed raw_to_csv load_to_csv load_to_google_sheets
               load_to_postgres in
  (run = (false, []) ∧ empty df_raw = true) ∨
  (run = (false, [Main.RawToCsv df_raw]) ∧ empty df_raw = false ∧
   (is_ok (raw_to_csv df_raw) = false ∨
    is_ok (transform_dataframe df_raw) = false ∨
    ∃ t, transform_dataframe df_raw = Ok t ∧ rows t = [])) ∨
  (∃ t, run = (load_to_csv t && load_to_google_sheets t && load_to_postgres t,
               [Main.RawToCsv df_raw; Main.LoadToCsv t; Main.LoadToGoogleSheets t;
                Main.LoadToPostgres t]) ∧
        empty df_raw = false ∧ is_ok (raw_to_csv df_raw) = true ∧
        transform_dataframe df_raw = Ok t ∧ rows t ≠ [] ∧
        Forall (cleaned Transform.default_config) (rows t)).
Proof. apply run_etl_pipeline_cases. Qed.

Variable to_datetime_series : list value → result unit.
Variable to_csv : string → DataFrame → result unit.
Variable credentials_exist : string → bool.
Variable authorize : string → result unit.
Variable open_by_key : string → result unit.
Variable worksheet : string → result bool.
Variable add_worksheet : string → Z → Z → result unit.
Variable clear : result unit.
Variable update : list (list value) → result unit.
Variable connect : string → result unit.
Variable to_sql : string → DataFrame → result unit.
Variable count : string → result Z.
Variable config : Load.LoadConfig.

Hypothesis as_completed_permutes : ∀ futures, as_completed futures ≡ₚ futures.

(** X18.  With the loaders of [utils/load.py], whatever the order in which
    the workers finish: a run that answers [True] has loaded one table,
    the cleaned harvest, to the three destinations; every row of it is in
    the domain of a clean record, and the database counted as many rows
    as it has. *)
Theorem run_etl_pipeline_true_means_clean :
  let run :=
    Main.run_etl_pipeline float_text datetime_text int32_overflow http_get soup
      clock as_completed raw_to_csv
      (fun df => (Load.load_to_csv to_datetime_series to_csv config df None).1)
      (fun df => (Load.load_to_google_sheets credentials_exist authorize open_by_key
                    worksheet add_worksheet clear update config df).1)
      (fun df => (Load.load_to_postgres to_datetime_series connect to_sql count
                    config df).1) in
  run.1 = true →
  ∃ t, run.2 = [Main.RawToCsv df_raw; Main.LoadToCsv t; Main.LoadToGoogleSheets t;
                Main.LoadToPostgres t] ∧
       transform_dataframe df_raw = Ok t ∧
       rows t ≠ [] ∧
       Forall (fun r => in_domain Transform.default_config r = true) (rows t) ∧
       count (Load.TABLE_NAME config) = Ok (Z.of_nat (length (rows t))).
Proof.
  intros run Hrun.
  destruct (run_etl_pipeline_cases
              (fun df => (Load.load_to_csv to_datetime_series to_csv config df None).1)
              (fun df => (Load.load_to_google_sheets credentials_exist authorize
                            open_by_key worksheet add_worksheet clear update config df).1)
              (fun df => (Load.load_to_postgres to_datetime_series connect to_sql count
                            config df).1))
    as [[E _] | [[E _] | (t & E & Hraw & _ & Ht & Hrows & Hcl)]];
    fold run in E; rewrite E in Hrun; try done.
  cbn [fst] in Hrun. apply andb_true_iff in Hrun as [_ Hpg].
  exists t. rewrite E. split; [done|]. split; [done|]. split; [done|].
  apply load_to_postgres_true in Hpg as (Hv & Hcount). split; [|done].
  apply validate_dataframe_true in Hv as (_ & _ & Hpass & _).
  destruct default_page_chunks as [chunks Hchunks].
  pose proof (scrape_titles http_get soup clock as_completed _ as_completed_permutes
                chunks Hchunks ltac:(simpl; lia)) as Htitles.
  assert (Transform.missing_input df_raw = false) as Hmiss.
  { destruct (Transform.missing_input df_raw) eqn:Hm; [|done].
    rewrite (transform_dataframe_missing _ _ _ _ _ Hm) in Ht.
    injection Ht as <-. done. }
  destruct (cleaned_rows_pass float_text datetime_text int32_overflow df_raw t
              Htitles Hmiss Ht)
    as [_ Hsame].
  rewrite Forall_forall in Hpass, Hsame. apply Forall_forall. intros r Hr.
  rewrite <- (Hsame r Hr). by apply Hpass.
Qed.

End Pipeline.

Lemma run_etl_pipeline_true_means_clean_witness :
  ∃ t, Transform.transform_dataframe Samples.dyadic_text Samples.iso_datetime_text
         Samples.int64_bits Transform.default_config
         (Extract.scrape Samples.two_pages_get Samples.two_pages_soup
            Samples.stopped_clock Samples.in_submission_order
            (Extract.mkScraperConfig "https://fashion-studio.dicoding.dev" 50 10 5))
         = Ok t ∧
       rows t ≠ [] ∧
       Forall (fun r => in_domain Transform.default_config r = true) (rows t).
Proof.
  destruct (run_etl_pipeline_true_means_clean Samples.dyadic_text
              Samples.iso_datetime_text Samples.int64_bits Samples.two_pages_get
              Samples.two_pages_soup
              Samples.stopped_clock Samples.in_submission_order Samples.csv_written
              Services.parses Services.written Services.present Services.granted
              Services.granted Services.found Services.added Services.cleared
              Services.updated Services.granted Services.stored (Services.counted 1)
              Services.sample_config)
    as (t & _ & Ht & Hrows & Hdom).
  - intros futures. reflexivity.
  - vm_compute. reflexivity.
  - exists t. split; [done|]. split; [done|]. apply Hdom.
Defined.

End PipelineProps.
